(** * nand2tetris-grader: the grading pipeline of [grading_engine.py]

    A shallow embedding of [config.py] (project table, [get_project],
    [detect_project]) and of [grading_engine.py] (naming check, file
    matcher, scoring, per-chip runner, [grade_student]) together with the
    properties that the design document states about them.

    Modelling conventions.
    - A Python [str] is a [string] whose characters are the code points
      below 256; [lower], [strip], [split] and the regular expressions of
      the source are written out for that range.
    - A Python [int] is a [Z].  A Python [float] is a binary64 number, held
      as its exact rational value in [Q]: a float literal is the nearest
      binary64 number ([Py.float]), every float operation rounds its exact
      result to the nearest binary64 number, ties to even ([Py.fadd],
      [Py.fmul], [Py.fdiv]), and [round(x, n)] rounds the exact value of [x]
      to [n] decimals, ties to even, and takes the nearest binary64 number
      of that decimal, as CPython does.  The exponent range is not limited:
      infinities and subnormal numbers need magnitudes beyond [2^1023] or
      below [2^-1022], which no points value reaches.  The length ratios of
      the matcher, quotients of two string lengths, are compared as exact
      rationals.
    - A [dict] that is only looked up is a [gmap]; the [found] dict, whose
      iteration order is observable, is an association list in insertion
      order; a [set] is a [gset].
    - The file system, the archive and the simulator are an explicit
      environment record; temporary directories are explicit state, and
      exceptions are explicit outcomes. *)

From Stdlib Require Import ZArith QArith Qround Qabs Qpower Lqa.
From Stdlib Require Import String Ascii List Lia Bool.
From stdpp Require Import base gmap sets list strings pretty.

Open Scope string_scope.
Open Scope nat_scope.
Open Scope list_scope.

(** ** Python built-ins on strings *)

Module Py.

Definition isspace (c : ascii) : bool :=
  let n := nat_of_ascii c in
  ((9 <=? n) && (n <=? 13)) || ((28 <=? n) && (n <=? 32))
  || (n =? 133) || (n =? 160).

Definition isdigit (c : ascii) : bool :=
  let n := nat_of_ascii c in (48 <=? n) && (n <=? 57).

(** [\w] of a [str] pattern: alphanumeric or underscore. *)
Definition isword (c : ascii) : bool :=
  let n := nat_of_ascii c in
  isdigit c || ((65 <=? n) && (n <=? 90)) || ((97 <=? n) && (n <=? 122))
  || (n =? 95) || (n =? 170) || (n =? 178) || (n =? 179) || (n =? 181)
  || (n =? 185) || (n =? 186) || ((188 <=? n) && (n <=? 190))
  || ((192 <=? n) && (n <=? 214)) || ((216 <=? n) && (n <=? 246))
  || (248 <=? n).

Definition lower_char (c : ascii) : ascii :=
  let n := nat_of_ascii c in
  if ((65 <=? n) && (n <=? 90))
     || ((192 <=? n) && (n <=? 222) && negb (n =? 215))
  then ascii_of_nat (n + 32) else c.

Fixpoint lower (s : string) : string :=
  match s with
  | EmptyString => EmptyString
  | String c r => String (lower_char c) (lower r)
  end.

Definition len (s : string) : nat := String.length s.

Fixpoint lstrip (s : string) : string :=
  match s with
  | EmptyString => EmptyString
  | String c r => if isspace c then lstrip r else s
  end.

Fixpoint rstrip (s : string) : string :=
  match s with
  | EmptyString => EmptyString
  | String c r =>
      match rstrip r with
      | EmptyString => if isspace c then EmptyString else String c EmptyString
      | r' => String c r'
      end
  end.

Definition strip (s : string) : string := rstrip (lstrip s).

(** [s.startswith(p)] *)
Fixpoint startswith (s p : string) : bool :=
  match p, s with
  | EmptyString, _ => true
  | String _ _, EmptyString => false
  | String a p', String b s' => Ascii.eqb a b && startswith s' p'
  end.

(** [s[n:]] and [s[:n]] for [0 <= n] *)
Fixpoint drop_str (n : nat) (s : string) : string :=
  match n, s with
  | O, _ => s
  | S _, EmptyString => EmptyString
  | S n', String _ r => drop_str n' r
  end.

Definition take_str (n : nat) (s : string) : string := substring 0 n s.

(** [s[:-k]] for [0 < k]: a negative bound is clamped at the start. *)
Definition drop_last (k : nat) (s : string) : string :=
  take_str (len s - k) s.

(** [s.endswith(p)] *)
Definition endswith (s p : string) : bool :=
  (len p <=? len s) && String.eqb (drop_str (len s - len p) s) p.

(** [sub in s] *)
Fixpoint contains (s sub : string) : bool :=
  startswith s sub ||
  match s with
  | EmptyString => false
  | String _ r => contains r sub
  end.

Fixpoint rev_to_string (acc : list ascii) (tl : string) : string :=
  match acc with
  | [] => tl
  | c :: acc' => rev_to_string acc' (String c tl)
  end.

(** [s.split()] : runs of whitespace separate, no empty pieces. *)
Fixpoint split_ws_go (cur : list ascii) (s : string) : list string :=
  match s with
  | EmptyString =>
      match cur with [] => [] | _ => [rev_to_string cur EmptyString] end
  | String c r =>
      if isspace c then
        match cur with
        | [] => split_ws_go [] r
        | _ => rev_to_string cur EmptyString :: split_ws_go [] r
        end
      else split_ws_go (c :: cur) r
  end.

Definition split (s : string) : list string := split_ws_go [] s.

(** [s.split(sep)] for a one-character separator. *)
Fixpoint split_on_go (sep : ascii) (cur : list ascii) (s : string)
  : list string :=
  match s with
  | EmptyString => [rev_to_string cur EmptyString]
  | String c r =>
      if Ascii.eqb c sep
      then rev_to_string cur EmptyString :: split_on_go sep [] r
      else split_on_go sep (c :: cur) r
  end.

Definition split_on (sep : ascii) (s : string) : list string :=
  split_on_go sep [] s.

(** Line boundaries of [str.splitlines]: LF, VT, FF, CR, FS, GS, RS, NEL. *)
Definition islinebreak (c : ascii) : bool :=
  let n := nat_of_ascii c in
  ((10 <=? n) && (n <=? 13)) || ((28 <=? n) && (n <=? 30)) || (n =? 133).

Fixpoint splitlines_go (cur : list ascii) (s : string) : list string :=
  match s with
  | EmptyString =>
      match cur with [] => [] | _ => [rev_to_string cur EmptyString] end
  | String c r =>
      if (nat_of_ascii c =? 13)%nat then
        rev_to_string cur EmptyString ::
        match r with
        | String d r' =>
            if (nat_of_ascii d =? 10)%nat then splitlines_go [] r'
            else splitlines_go [] r
        | EmptyString => []
        end
      else if islinebreak c
      then rev_to_string cur EmptyString :: splitlines_go [] r
      else splitlines_go (c :: cur) r
  end.

Definition splitlines (s : string) : list string := splitlines_go [] s.

(** The newline character as a string. *)
Definition LF : string := String "010" EmptyString.

(** [sep.join(l)] *)
Fixpoint join (sep : string) (l : list string) : string :=
  match l with
  | [] => EmptyString
  | [x] => x
  | x :: rest => x +:+ sep +:+ join sep rest
  end.

(** [str(n)] and the [{n}] of an f-string. *)
Definition str (n : Z) : string := pretty n.

(** [re.search]: the matcher is tried at every position, leftmost first. *)
Fixpoint re_search (m : string -> bool) (s : string) : bool :=
  m s ||
  match s with
  | EmptyString => false
  | String _ r => re_search m r
  end.

(** ** Numbers *)

(** Nearest integer, ties to the even one. *)
Definition round_half_even (q : Q) : Z :=
  let f := Qfloor q in
  match (q - inject_Z f ?= 1 # 2)%Q with
  | Lt => f
  | Gt => (f + 1)%Z
  | Eq => if Z.even f then f else (f + 1)%Z
  end.

Definition pow10 (n : nat) : Z := (10 ^ Z.of_nat n)%Z.

(** *** Floats *)

(** The exponent [e] of the binade of [q]: [2^e <= |q| < 2^(e+1)], for [q]
    other than zero. *)
Definition binade (q : Q) : Z :=
  let e0 := (Z.log2 (Z.abs (Qnum q)) - Z.log2 (Zpos (Qden q)))%Z in
  if Qle_bool (2 ^ e0) (Qabs q) then e0 else (e0 - 1)%Z.

(** The binary64 number nearest to [q], ties to even: 53 significant bits.
    It is the value of a float literal and of [float(n)]. *)
Definition float (q : Q) : Q :=
  if Qeq_bool q 0 then 0%Q
  else let u := (2 ^ (binade q - 52))%Q in
       Qred (inject_Z (round_half_even (q / u)) * u).

(** [a + b], [a * b] and [a / b] on floats; the divisor is not zero. *)
Definition fadd (a b : Q) : Q := float (a + b).
Definition fmul (a b : Q) : Q := float (a * b).
Definition fdiv (a b : Q) : Q := float (a / b).

(** An [int] operand of a float operation is converted first. *)
Definition of_int (n : Z) : Q := float (inject_Z n).

(** [round(x, n)] of a float [x], for [0 <= n]: the decimal number with [n]
    places nearest to the exact value of [x], ties to even, and then the
    float nearest to that decimal. *)
Definition round (x : Q) (n : nat) : Q :=
  float (inject_Z (round_half_even (x * inject_Z (pow10 n)))
         / inject_Z (pow10 n)).

End Py.


(** ** Exceptions and results *)

Inductive exn : Type :=
  | ValueError (msg : string)
  | KeyError (msg : string)
  | TimeoutExpired
  | Exception (msg : string).

(** [str(e)] *)
Definition exn_str (e : exn) : string :=
  match e with
  | ValueError m => m
  | KeyError m => "'" +:+ m +:+ "'"
  | TimeoutExpired => "Command timed out after 60 seconds"
  | Exception m => m
  end.

Inductive outcome (A : Type) : Type :=
  | Ret (a : A)
  | Raise (e : exn).
Arguments Ret {A} a.
Arguments Raise {A} e.

(** ** config.py *)

Module Cfg.

Record RawProject := {
  name : string;
  simulator : string;
  file_ext : string;
  test_dir : string;
  zip_pattern : string;
  chips : list (string * Q);
  deps : list (string * list string)
}.

(** A chip table written with its float literals. *)
Definition literals (l : list (string * Q)) : list (string * Q) :=
  map (fun c => (c.1, Py.float c.2)) l.

Definition project01 : RawProject :=
  {| name := "Logic Gates"; simulator := "HardwareSimulator";
     file_ext := ".hdl"; test_dir := "project01";
     zip_pattern := "HW1_Gates_\w+";
     chips := literals [("Not", 65 # 100); ("And", 65 # 100); ("Or", 65 # 100);
               ("Xor", 65 # 100); ("Mux", 65 # 100); ("DMux", 65 # 100);
               ("Not16", 65 # 100); ("And16", 65 # 100);
               ("Or16", 65 # 100); ("Mux16", 65 # 100);
               ("Or8Way", 70 # 100); ("Mux4Way16", 65 # 100);
               ("Mux8Way16", 75 # 100); ("DMux4Way", 65 # 100);
               ("DMux8Way", 75 # 100)]%Q;
     deps := [("Not", []); ("And", ["Not"]); ("Or", ["Not"]);
              ("Xor", ["Not"; "And"; "Or"]);
              ("Mux", ["Not"; "And"; "Or"]);
              ("DMux", ["Not"; "And"]);
              ("Not16", ["Not"]); ("And16", ["And"]); ("Or16", ["Or"]);
              ("Mux16", ["Mux"]); ("Or8Way", ["Or"]);
              ("Mux4Way16", ["Mux16"]);
              ("Mux8Way16", ["Mux4Way16"; "Mux16"]);
              ("DMux4Way", ["DMux"]);
              ("DMux8Way", ["DMux4Way"; "DMux"])] |}.

Definition project02 : RawProject :=
  {| name := "ALU"; simulator := "HardwareSimulator";
     file_ext := ".hdl"; test_dir := "project02";
     zip_pattern := "HW2_ALU_\w+";
     chips := literals [("HalfAdder", 80 # 100); ("FullAdder", 80 # 100);
               ("Add16", 80 # 100); ("Inc16", 80 # 100);
               ("ALU", 3); ("ALU-nostat", 380 # 100)]%Q;
     deps := [("HalfAdder", []); ("FullAdder", ["HalfAdder"]);
              ("Add16", ["HalfAdder"; "FullAdder"]);
              ("Inc16", ["Add16"]);
              ("ALU", ["Add16"; "Inc16"]);
              ("ALU-nostat", ["Add16"; "Inc16"])] |}.

Definition project03 : RawProject :=
  {| name := "Memory"; simulator := "HardwareSimulator";
     file_ext := ".hdl"; test_dir := "project03";
     zip_pattern := "HW3_Memory_\w+";
     chips := literals [("Bit", 1); ("Register", 1); ("RAM8", 150 # 100);
               ("RAM64", 150 # 100); ("RAM512", 150 # 100);
               ("RAM4K", 150 # 100); ("RAM16K", 1); ("PC", 1)]%Q;
     deps := [("Bit", []); ("Register", ["Bit"]); ("RAM8", ["Register"]);
              ("RAM64", ["RAM8"]); ("RAM512", ["RAM64"]);
              ("RAM4K", ["RAM512"]); ("RAM16K", ["RAM4K"]);
              ("PC", ["Register"])] |}.

Definition project04 : RawProject :=
  {| name := "Machine Language"; simulator := "CPUEmulator";
     file_ext := ".asm"; test_dir := "project04";
     zip_pattern := "HW4_Assembly_\w+";
     chips := literals [("Mult", 5); ("Fill", 5)]%Q;
     deps := [("Mult", []); ("Fill", [])] |}.

Definition project05 : RawProject :=
  {| name := "Computer Architecture"; simulator := "HardwareSimulator";
     file_ext := ".hdl"; test_dir := "project05";
     zip_pattern := "HW5_Computer_\w+";
     chips := literals [("Memory", 3); ("CPU", 4); ("Computer", 3)]%Q;
     deps := [("Memory", []); ("CPU", []);
              ("Computer", ["Memory"; "CPU"])] |}.

Definition PROJECTS : gmap Z RawProject :=
  list_to_map [(1%Z, project01); (2%Z, project02); (3%Z, project03);
               (4%Z, project04); (5%Z, project05)].

(** A project dict with the fields [get_project] computes. *)
Record Project := {
  raw : RawProject;
  number : Z;
  chip_names : list string;
  chip_points : gmap string Q;
  total_points : Q;
  test_path : string;
  simulator_path : string
}.

(** [sum(xs)] of floats, added left to right from [0] (CPython up to 3.11;
    the compensated summation of later versions gives the same totals after
    the rounding of [get_project]). *)
Definition sum (xs : list Q) : Q := fold_left Py.fadd xs 0%Q.

(** [{c[0]: c[1] for c in chips}]: a later entry overwrites an earlier one. *)
Definition points_dict (cs : list (string * Q)) : gmap string Q :=
  fold_left (fun m c => <[c.1 := c.2]> m) cs ∅.

Definition TOOLS_DIR : string := "tools/nand2tetris/tools".
Definition TEST_FILES_DIR : string := "grader_test_files".

Definition sim_map (s : string) : string :=
  if String.eqb s "HardwareSimulator" then TOOLS_DIR +:+ "/HardwareSimulator.sh"
  else if String.eqb s "CPUEmulator" then TOOLS_DIR +:+ "/CPUEmulator.sh"
  else if String.eqb s "VMEmulator" then TOOLS_DIR +:+ "/VMEmulator.sh"
  else TOOLS_DIR +:+ "/HardwareSimulator.sh".

(** The computed fields that [get_project] adds to the entry [proj] of
    number [num]. *)
Definition with_computed (num : Z) (proj : RawProject) : Project :=
  {| raw := proj;
     number := num;
     chip_names := map fst (chips proj);
     chip_points := points_dict (chips proj);
     total_points := Py.round (sum (map snd (chips proj))) 2;
     test_path := TEST_FILES_DIR +:+ "/" +:+ test_dir proj;
     simulator_path := sim_map (simulator proj) |}.

(** [get_project(project_num)]; [None] is the default argument.
    [ACTIVE_PROJECT] is read from the process environment. *)
Definition get_project (ACTIVE_PROJECT : Z) (project_num : option Z)
  : outcome Project :=
  let num := match project_num with
             | Some n => if (n =? 0)%Z then ACTIVE_PROJECT else n
             | None => ACTIVE_PROJECT
             end in
  match PROJECTS !! num with
  | None => Raise (ValueError ("Project " +:+ Py.str num +:+ " not defined"))
  | Some proj => Ret (with_computed num proj)
  end.

End Cfg.

(** ** grading_engine.py: data model *)

Record FileMatch := {
  expected_name : string;
  actual_filename : string;
  match_type : string;  (* exact|case_fix|fuzzy|not_found *)
  issue : string
}.

Record ZipNaming := {
  original_filename : string;
  is_correct : bool;
  expected_pattern : string;
  zip_issue : string
}.

Record ChipResult := {
  name : string;
  passed : bool;
  points : Q;
  max_points : Q;
  error_type : string;
  error_msg : string;
  fail_line : Z;
  expected : string;
  actual : string;
  total_tests : Z;
  passed_tests : Z
}.

Record GradingResult := {
  student_name : string;
  user_id : Z;
  project_num : Z;
  chips : list ChipResult;
  total_earned : Q;
  total_possible : Q;
  warnings : list string;
  file_matches : list FileMatch;
  extra_files : list string;
  zip_naming : option ZipNaming
}.

(** Division of floats: a zero divisor raises [ZeroDivisionError]. *)
Definition truediv (a b : Q) : outcome Q :=
  if Qeq_bool b 0 then Raise (Exception "float division by zero")
  else Ret (Py.fdiv a b).

(** The [percentage] property. *)
Definition percentage (self : GradingResult) : outcome Q :=
  if negb (Qeq_bool (total_possible self) 0) then
    match truediv (total_earned self) (total_possible self) with
    | Ret q => Ret (Py.round (Py.fmul q (Py.of_int 100)) 1)
    | Raise e => Raise e
    end
  else Ret 0%Q.

Definition passed_names (self : GradingResult) : list string :=
  map name (filter (fun c => passed c = true) (chips self)).

Definition failed (self : GradingResult) : list ChipResult :=
  filter (fun c => passed c = false) (chips self).

Definition naming_issues (self : GradingResult) : list FileMatch :=
  filter (fun m => match_type m ≠ "exact") (file_matches self).

Definition has_naming_issues (self : GradingResult) : bool :=
  (0 <? length (naming_issues self)) ||
  match zip_naming self with
  | Some z => negb (is_correct z)
  | None => false
  end.

(** ** Zip naming check *)

(** [(?:hw|homework)\s*{n}], ignoring case, tried at the start of [s]. *)
Definition hw_num_at (n : string) (s : string) : bool :=
  let after kw := Py.startswith (Py.lstrip (Py.drop_str (Py.len kw) s)) n in
  (Py.startswith (Py.lower s) "hw" && after "hw")
  || (Py.startswith (Py.lower s) "homework" && after "homework").

(** The name tokens [(first, last)] of a display name. *)
Definition name_tokens (student_name : string) : string * string :=
  let name_parts := Py.split (Py.strip student_name) in
  match name_parts with
  | [] => ("Unknown", "Student")
  | [only] => (only, "")
  | first :: rest => (first, List.last rest "")
  end.

(** A display name that is one token: not empty, no whitespace in it. *)
Fixpoint no_space (s : string) : bool :=
  match s with
  | EmptyString => true
  | String c r => negb (Py.isspace c) && no_space r
  end.

Definition is_token (t : string) : bool :=
  negb (String.eqb t "") && no_space t.

(** The fixed tag of the [expected_patterns] entry of a project; a number
    without entry gets [HW{project_num}]. *)
Definition hw_tag (project_num : Z) : string :=
  if (project_num =? 1)%Z then "HW1_Gates"
  else if (project_num =? 2)%Z then "HW2_ALU"
  else if (project_num =? 3)%Z then "HW3_Memory"
  else if (project_num =? 4)%Z then "HW4_Assembly"
  else if (project_num =? 5)%Z then "HW5_Computer"
  else "HW" +:+ Py.str project_num.

(** [expected]: the canonical archive name, without extension. *)
Definition expected_zip_name (student_name : string) (project_num : Z)
  : string :=
  let '(first, last) := name_tokens student_name in
  hw_tag project_num +:+ "_" +:+ first +:+ "_" +:+ last.

(** [name_no_ext]: a trailing [.zip], in any case, is cut. *)
Definition zip_stem (filename : string) : string :=
  if Py.endswith (Py.lower filename) ".zip"
  then Py.drop_last 4 filename else filename.

Definition check_zip_naming (ACTIVE_PROJECT : Z)
    (filename student_name : string) (project_num : Z)
  : outcome ZipNaming :=
  match Cfg.get_project ACTIVE_PROJECT (Some project_num) with
  | Raise e => Raise e
  | Ret proj =>
    let pattern := Cfg.zip_pattern (Cfg.raw proj) in
    if String.eqb filename "" then
      Ret {| original_filename := ""; is_correct := false;
             expected_pattern := pattern;
             zip_issue := "No filename available" |}
    else
      let name_no_ext := zip_stem filename in
      let '(first, last) := name_tokens student_name in
      let expected := expected_zip_name student_name project_num in
      if String.eqb name_no_ext expected then
        Ret {| original_filename := filename; is_correct := true;
               expected_pattern := expected +:+ ".zip";
               zip_issue := "" |}
      else
        let hw_num_present :=
          Py.re_search (hw_num_at (Py.str project_num)) name_no_ext in
        let name_present :=
          if negb (String.eqb last "") then
            Py.contains (Py.lower name_no_ext) (Py.lower first)
            || Py.contains (Py.lower name_no_ext) (Py.lower last)
          else Py.contains (Py.lower name_no_ext) (Py.lower first) in
        let issues :=
          (if negb hw_num_present then ["missing homework number"] else [])
          ++ (if negb name_present then ["missing your name"] else []) in
        let issue :=
          match issues with
          | [] => "Zip named '" +:+ filename +:+ "' -- should be '"
                  +:+ expected +:+ ".zip'"
          | _ => "Zip named '" +:+ filename +:+ "' -- should be '"
                 +:+ expected +:+ ".zip' (" +:+ Py.join ", " issues +:+ ")"
          end in
        Ret {| original_filename := filename; is_correct := false;
               expected_pattern := expected +:+ ".zip";
               zip_issue := issue |}
  end.

(** ** File matching *)

(** [re.sub(pattern, '', s)] for a pattern whose matches are never empty:
    [m] gives the length of the match starting at the head of its argument.
    [skip] counts the characters of the current match still to delete. *)
Fixpoint re_delete (m : string -> option nat) (skip : nat) (s : string)
  : string :=
  match s with
  | EmptyString => EmptyString
  | String c r =>
      match skip with
      | S k => re_delete m k r
      | O =>
          match m s with
          | Some n => re_delete m (Nat.pred n) r
          | None => String c (re_delete m 0 r)
          end
      end
  end.

Fixpoint span (p : ascii -> bool) (s : string) : nat * string :=
  match s with
  | String c r => if p c then let '(n, r') := span p r in (S n, r') else (O, s)
  | EmptyString => (O, EmptyString)
  end.

(** [\s*\(\d+\)\s*] *)
Definition m_counter (s : string) : option nat :=
  let '(a, r1) := span Py.isspace s in
  match r1 with
  | String "(" r2 =>
      let '(d, r3) := span Py.isdigit r2 in
      match d, r3 with
      | S _, String ")" r4 =>
          let '(b, _) := span Py.isspace r4 in Some (a + 1 + d + 1 + b)
      | _, _ => None
      end
  | _ => None
  end.

(** [\s*copy\s*\d*], ignoring case *)
Definition m_copy (s : string) : option nat :=
  let '(a, r1) := span Py.isspace s in
  if Py.startswith (Py.lower r1) "copy" then
    let '(b, r2) := span Py.isspace (Py.drop_str 4 r1) in
    let '(d, _) := span Py.isdigit r2 in
    Some (a + 4 + b + d)
  else None.

(** [[\s_\-]+] *)
Definition m_sep (s : string) : option nat :=
  let '(a, _) :=
    span (fun c => Py.isspace c || Ascii.eqb c "_" || Ascii.eqb c "-") s in
  match a with O => None | _ => Some a end.

(** [re.sub(r'\.ext$', '', s, flags=re.IGNORECASE)] *)
Definition cut_suffix (ext : string) (s : string) : string :=
  if Py.endswith (Py.lower s) ext then Py.drop_last (Py.len ext) s else s.

Definition _normalize (s : string) : string :=
  let s := Py.strip s in
  let s := re_delete m_counter 0 s in
  let s := re_delete m_copy 0 s in
  let s := re_delete m_sep 0 s in
  let s := cut_suffix ".hdl" s in
  let s := cut_suffix ".asm" s in
  Py.lower s.

(** The [found] dict: base name to path, in insertion order, keys distinct. *)
Definition found_dict := list (string * string).

Fixpoint dict_get (k : string) (d : found_dict) : option string :=
  match d with
  | [] => None
  | (k', v) :: d' => if String.eqb k k' then Some v else dict_get k d'
  end.

(** [l.remove(x)]: the first occurrence goes.  Python raises [ValueError]
    for an absent [x]; every pass removes only the name it is iterating over,
    taken from a copy of the same list, so [x] is present (lemma
    [match_files_removes_present]). *)
Fixpoint list_remove (x : string) (l : list string) : list string :=
  match l with
  | [] => []
  | y :: l' => if String.eqb x y then l' else y :: list_remove x l'
  end.

(** The locals of [_match_files] that the passes update. *)
Record MatchState := {
  matched : gmap string string;
  matches : list FileMatch;
  used : gset string;
  remaining : list string
}.

Definition Qltb (a b : Q) : bool := negb (Qle_bool b a).

(** Assignment of [orig] to [exp], shared by passes 2 to 4. *)
Definition assign (file_ext : string) (kind msg : string)
    (exp orig path : string) (st : MatchState) : MatchState :=
  {| matched := <[exp := path]> (matched st);
     matches := matches st ++
       [{| expected_name := exp; actual_filename := orig +:+ file_ext;
           match_type := kind; issue := msg |}];
     used := {[orig]} ∪ used st;
     remaining := list_remove exp (remaining st) |}.

Definition case_fix_msg (file_ext exp orig : string) : string :=
  "Named '" +:+ orig +:+ file_ext +:+ "' instead of '"
  +:+ exp +:+ file_ext +:+ "'".

Definition fuzzy_msg (file_ext exp orig : string) : string :=
  "Named '" +:+ orig +:+ file_ext +:+ "' -- assumed to be '"
  +:+ exp +:+ file_ext +:+ "'".

(** Pass 1: exact.  [remaining] is not yet defined in the source here. *)
Definition pass1_step (found : found_dict) (file_ext : string)
    (st : MatchState) (exp : string) : MatchState :=
  match dict_get exp found with
  | Some path =>
      {| matched := <[exp := path]> (matched st);
         matches := matches st ++
           [{| expected_name := exp; actual_filename := exp +:+ file_ext;
               match_type := "exact"; issue := "" |}];
         used := {[exp]} ∪ used st;
         remaining := remaining st |}
  | None => st
  end.

(** Pass 2: case insensitive, against the [found_lower] dict built before
    the loop. *)
Definition build_found_lower (found : found_dict) (used0 : gset string)
  : gmap string (string * string) :=
  fold_left
    (fun m kv => if bool_decide (kv.1 ∈ used0) then m
                 else <[Py.lower kv.1 := kv]> m)
    found ∅.

Definition pass2_step (found_lower : gmap string (string * string))
    (file_ext : string) (st : MatchState) (exp : string) : MatchState :=
  match found_lower !! Py.lower exp with
  | Some (orig, path) =>
      assign file_ext "case_fix" (case_fix_msg file_ext exp orig)
             exp orig path st
  | None => st
  end.

(** Pass 3: normalized, against the [found_norm] dict built at the start. *)
Definition build_found_norm (found : found_dict)
  : gmap string (string * string) :=
  fold_left (fun m kv => <[_normalize kv.1 := kv]> m) found ∅.

Definition pass3_step (found_norm : gmap string (string * string))
    (file_ext : string) (st : MatchState) (exp : string) : MatchState :=
  match found_norm !! _normalize exp with
  | Some (orig, path) =>
      if bool_decide (orig ∈ used st) then st
      else assign file_ext "fuzzy" (fuzzy_msg file_ext exp orig)
                  exp orig path st
  | None => st
  end.

(** Pass 4: substring.  [score] is the source's
    [len(exp_lower) / max(len(nl), 1)]. *)
Definition score (exp_lower nl : string) : Q :=
  (inject_Z (Z.of_nat (Py.len exp_lower))
   / inject_Z (Z.of_nat (Nat.max (Py.len nl) 1)))%Q.

Definition is_candidate (used0 : gset string) (exp_lower : string)
    (kv : string * string) : bool :=
  negb (bool_decide (kv.1 ∈ used0)) &&
  (Py.contains (Py.lower kv.1) exp_lower
   || Py.contains exp_lower (Py.lower kv.1)).

(** The inner loop over [found.items()]: the locals are [best], [best_score]. *)
Definition best_step (used0 : gset string) (exp_lower : string)
    (acc : option (string * string) * Q) (kv : string * string)
  : option (string * string) * Q :=
  if bool_decide (kv.1 ∈ used0) then acc
  else
    let nl := Py.lower kv.1 in
    if Py.contains nl exp_lower || Py.contains exp_lower nl then
      let sc := score exp_lower nl in
      if Qltb acc.2 sc then (Some kv, sc) else acc
    else acc.

Definition find_best (found : found_dict) (used0 : gset string)
    (exp_lower : string) : option (string * string) * Q :=
  fold_left (best_step used0 exp_lower) found (None, 0%Q).

Definition pass4_step (found : found_dict) (file_ext : string)
    (st : MatchState) (exp : string) : MatchState :=
  let exp_lower := Py.lower exp in
  match find_best found (used st) exp_lower with
  | (Some (orig, path), best_score) =>
      if Qltb (4 # 10) best_score
      then assign file_ext "fuzzy" (fuzzy_msg file_ext exp orig)
                  exp orig path st
      else st
  | (None, _) => st
  end.

Definition not_found_match (file_ext exp : string) : FileMatch :=
  {| expected_name := exp; actual_filename := ""; match_type := "not_found";
     issue := "'" +:+ exp +:+ file_ext +:+ "' not found in submission" |}.

(** The state after each pass; every [for exp in remaining[:]] iterates over
    the copy taken when the pass starts. *)
Definition after_pass1 (found : found_dict) (expected_names : list string)
    (file_ext : string) : MatchState :=
  fold_left (pass1_step found file_ext) expected_names
    {| matched := ∅; matches := []; used := ∅; remaining := [] |}.

Definition after_pass2 (found : found_dict) (expected_names : list string)
    (file_ext : string) : MatchState :=
  let st1 := after_pass1 found expected_names file_ext in
  let remaining0 :=
    List.filter (fun n => negb (bool_decide (is_Some (matched st1 !! n))))
                expected_names in
  let found_lower := build_found_lower found (used st1) in
  let st := {| matched := matched st1; matches := matches st1;
               used := used st1; remaining := remaining0 |} in
  fold_left (pass2_step found_lower file_ext) remaining0 st.

Definition after_pass3 (found : found_dict) (expected_names : list string)
    (file_ext : string) : MatchState :=
  let st2 := after_pass2 found expected_names file_ext in
  fold_left (pass3_step (build_found_norm found) file_ext) (remaining st2) st2.

Definition after_pass4 (found : found_dict) (expected_names : list string)
    (file_ext : string) : MatchState :=
  let st3 := after_pass3 found expected_names file_ext in
  fold_left (pass4_step found file_ext) (remaining st3) st3.

Definition _match_files (found : found_dict) (expected_names : list string)
    (file_ext : string)
  : gmap string string * list FileMatch * list string :=
  let st := after_pass4 found expected_names file_ext in
  let matches' := matches st ++ map (not_found_match file_ext) (remaining st) in
  let extra :=
    map (fun kv => kv.1 +:+ file_ext)
        (List.filter (fun kv => negb (bool_decide (kv.1 ∈ used st))) found) in
  (matched st, matches', extra).

(** ** The outside world *)

(** What is found at a path that holds a text file. *)
Inductive file_state : Type :=
  | Missing
  | Unreadable (e : exn)
  | Text (content : string).

(** A directory as [os.walk] sees it: its name, its file names, its
    sub-directories. *)
#[local] Set Warnings "-register-all".
Inductive tree : Type :=
  | Dir (dirname : string) (files : list string) (subdirs : list tree).
#[local] Set Warnings "register-all".

(** What opening and extracting the archive does. *)
Inductive archive : Type :=
  | BadZipFile
  | ExtractError (e : exn)
  | Extracted (t : tree).

(** What lines 381-393 of [_run_one] do: the sandbox is filled, the
    simulator runs.  On completion the sandbox holds the comparison trace and
    the output trace in the given states. *)
Inductive sandbox_run : Type :=
  | BodyRaises (e : exn)
  | Completed (stdout stderr : string) (cmp_file out_file : file_state).

Record Env := {
  ACTIVE_PROJECT : Z;
  (** [tempfile.mkdtemp(prefix=...)] may fail *)
  mkdtemp_error : string -> option exn;
  (** the archive at a path *)
  open_zip : string -> archive;
  (** [Path(path).read_text(encoding='utf-8', errors='ignore')] *)
  read_source : string -> outcome string;
  (** [(tp / f"{chip}.tst").exists()]: [Path.exists] raises the [OSError]
      that is not about a missing path, such as [PermissionError] *)
  tst_exists : string -> string -> outcome bool;
  (** [tp / f"{chip}.cmp"] *)
  cmp_fixture : string -> string -> file_state;
  (** simulator path, chip, matched files *)
  run_sandbox : string -> string -> gmap string string -> sandbox_run
}.

(** The temporary directories that exist. *)
Definition world := gset string.

(** A computation that may raise and that creates and deletes temporary
    directories. *)
Definition M (A : Type) : Type := world -> outcome A * world.

Definition ret {A} (a : A) : M A := fun w => (Ret a, w).
Definition raise {A} (e : exn) : M A := fun w => (Raise e, w).
Definition lift {A} (o : outcome A) : M A := fun w => (o, w).

Definition bind {A B} (m : M A) (k : A -> M B) : M B :=
  fun w => match m w with
           | (Ret a, w') => k a w'
           | (Raise e, w') => (Raise e, w')
           end.

(** [try: m finally: fin], for a [fin] that does not raise. *)
Definition try_finally {A} (m : M A) (fin : world -> world) : M A :=
  fun w => let '(r, w') := m w in (r, fin w').

Notation "x <- m ;; k" := (bind m (fun x => k))
  (at level 100, m at next level, right associativity).

(** [tempfile.mkdtemp]: a directory under a name not in use. *)
Definition mkdtemp (env : Env) (prefix : string) : M string :=
  fun w => match mkdtemp_error env prefix with
           | Some e => (Raise e, w)
           | None => let d := fresh w in (Ret d, {[d]} ∪ w)
           end.

(** [shutil.rmtree(d, ignore_errors=True)] *)
Definition rmtree (d : string) (w : world) : world := w ∖ {[d]}.

(** ** Helpers *)

Definition hidden (f : string) : bool :=
  Py.startswith f "." || Py.startswith f "__".

Definition dirname_of (t : tree) : string :=
  match t with Dir d _ _ => d end.

(** [os.walk(root)], top down, with the hidden directories pruned; the name
    of the top directory itself is not looked at. *)
Fixpoint walk (root : string) (t : tree) : list (string * list string) :=
  match t with
  | Dir _ files subdirs =>
      (root, files) ::
      flat_map (fun d => if hidden (dirname_of d) then []
                         else walk (root +:+ "/" +:+ dirname_of d) d) subdirs
  end.

(** [while name.lower().endswith(file_ext): name = name[:-len(file_ext)]];
    the loop ends because [file_ext] is not empty. *)
Fixpoint strip_ext (fuel : nat) (file_ext : string) (nm : string) : string :=
  match fuel with
  | O => nm
  | S fuel' =>
      if Py.endswith (Py.lower nm) file_ext
      then strip_ext fuel' file_ext (Py.drop_last (Py.len file_ext) nm)
      else nm
  end.

Definition add_found (file_ext root : string) (found : found_dict)
    (f : string) : found_dict :=
  if hidden f then found
  else
    let nm := strip_ext (S (Py.len f)) file_ext f in
    if Py.endswith (Py.lower f) file_ext && negb (String.eqb nm "") then
      match dict_get nm found with
      | None => found ++ [(nm, root +:+ "/" +:+ f)]
      | Some _ => found
      end
    else found.

Definition collect_found (file_ext : string)
    (entries : list (string * list string)) : found_dict :=
  fold_left (fun found rf => fold_left (add_found file_ext rf.1) rf.2 found)
            entries [].

Definition _extract_zip (env : Env) (zip_path file_ext : string)
  : M (string * found_dict) :=
  tmp <- mkdtemp env "n2t_" ;;
  match open_zip env zip_path with
  | BadZipFile => ret (tmp, [])
  | ExtractError e => raise e
  | Extracted t => ret (tmp, collect_found file_ext (walk tmp t))
  end.

(** [\bBUILTIN\b], ignoring case; [prev] tells whether the character before
    the position is a word character. *)
Fixpoint builtin_search (prev : bool) (s : string) : bool :=
  (negb prev && Py.startswith (Py.lower s) "builtin" &&
   match Py.drop_str 7 s with
   | String c _ => negb (Py.isword c)
   | EmptyString => true
   end)
  || match s with
     | EmptyString => false
     | String c r => builtin_search (Py.isword c) r
     end.

Definition _check_builtin (env : Env) (path : string) : bool :=
  match read_source env path with
  | Ret text => builtin_search false text
  | Raise _ => false
  end.

(** The index of the first occurrence of [sub] in [s]. *)
Fixpoint find_str (s sub : string) : option nat :=
  if Py.startswith s sub then Some 0
  else match s with
       | EmptyString => None
       | String _ r => option_map S (find_str r sub)
       end.

(** [//.*] : up to the end of the line. *)
Definition m_line_comment (s : string) : option nat :=
  if Py.startswith s "//" then
    let '(n, _) := span (fun c => negb (nat_of_ascii c =? 10)) (Py.drop_str 2 s)
    in Some (2 + n)
  else None.

(** [/\*.*?\*/] with [re.DOTALL] *)
Definition m_block_comment (s : string) : option nat :=
  if Py.startswith s "/*" then
    match find_str (Py.drop_str 2 s) "*/" with
    | Some i => Some (2 + i + 2)
    | None => None
    end
  else None.

(** Group 1 of [PARTS:\s*(.*?)(?:\})] with [re.DOTALL]. *)
Definition parts_body (text : string) : option string :=
  match find_str text "PARTS:" with
  | None => None
  | Some i =>
      let rest := Py.lstrip (Py.drop_str (i + 6) text) in
      match find_str rest "}" with
      | None => None
      | Some j => Some (Py.take_str j rest)
      end
  end.

Definition _has_work (env : Env) (path ext : string) : bool :=
  match read_source env path with
  | Raise _ => false
  | Ret text =>
      if String.eqb ext ".hdl" then
        match parts_body text with
        | Some body =>
            let parts := re_delete m_line_comment 0 body in
            let parts := re_delete m_block_comment 0 parts in
            0 <? Py.len (Py.strip parts)
        | None => false
        end
      else if String.eqb ext ".asm" then
        let lines :=
          List.filter
            (fun l => negb (String.eqb (Py.strip l) "")
                      && negb (Py.startswith (Py.strip l) "//"))
            (Py.splitlines text) in
        2 <? length lines
      else false
  end.

(** The loop of [_partial_credit]; the locals are [passed], [fl], [fe], [fa]. *)
Definition credit_step (cmp out : list string)
    (acc : Z * Z * string * string) (i : nat) : Z * Z * string * string :=
  let '(passed, fl, fe, fa) := acc in
  let c := if i <? length cmp then Py.strip (nth i cmp "") else "" in
  let o := if i <? length out then Py.strip (nth i out "") else "" in
  if String.eqb c o then ((passed + 1)%Z, fl, fe, fa)
  else if (fl =? 0)%Z then (passed, Z.of_nat i, c, o)
  else acc.

Definition no_credit : Q * Z * Z * Z * string * string :=
  (0%Q, 0%Z, 0%Z, 0%Z, "", "").

Definition _partial_credit (cmp_file out_file : file_state) (max_pts : Q)
  : Q * Z * Z * Z * string * string :=
  match cmp_file, out_file with
  | Missing, _ | _, Missing => no_credit
  | Unreadable _, _ | _, Unreadable _ => no_credit
  | Text cmp_text, Text out_text =>
      let cmp := Py.splitlines cmp_text in
      let out := Py.splitlines out_text in
      if length cmp <? 2 then no_credit
      else
        let total := (Z.of_nat (length cmp) - 1)%Z in
        let '(passed, fl, fe, fa) :=
          fold_left (credit_step cmp out) (seq 1 (length cmp - 1))
                    (0%Z, 0%Z, "", "") in
        let pts :=
          if negb (total =? 0)%Z
          then Py.round (Py.fdiv (Py.fmul max_pts (Py.of_int passed))
                                 (Py.of_int total)) 2
          else 0%Q in
        (pts, passed, total, fl, fe, fa)
  end.

Definition _clean_err (raw_out : string) : string :=
  let keep (l : string) : bool :=
    negb (String.eqb l "" || Py.startswith l "at "
          || Py.contains (Py.lower l) "java.")
    && negb (Py.contains l "Exception in thread") in
  let lines := List.filter keep (map Py.strip (Py.split_on "010" raw_out)) in
  match lines with
  | [] => "Unknown error"
  | _ => Py.take_str 200 (Py.join "; " (firstn 3 lines))
  end.

(** ** Test runner *)

(** [ChipResult(name, passed, points, max_points, error_type, error_msg)]
    with the defaults of the dataclass for the other fields. *)
Definition chip_result (nm : string) (ok : bool) (pts mx : Q)
    (etype emsg : string) : ChipResult :=
  {| name := nm; passed := ok; points := pts; max_points := mx;
     error_type := etype; error_msg := emsg; fail_line := 0%Z;
     expected := ""; actual := ""; total_tests := 0%Z; passed_tests := 0%Z |}.

Definition success_marker (out : string) : bool :=
  Py.contains out "Comparison ended successfully"
  || Py.contains out "End of script - Comparison ended successfully".

(** [[Cc]omparison failure at line (\d+)], tried at the start of [s]. *)
Definition failure_at (s : string) : bool :=
  (Py.startswith s "Comparison failure at line "
   || Py.startswith s "comparison failure at line ")
  && match Py.drop_str 27 s with
     | String c _ => Py.isdigit c
     | EmptyString => false
     end.

Definition failure_marker (out : string) : bool := Py.re_search failure_at out.

(** The [try] block of [_run_one] with its [except] clauses. *)
Definition run_in_sandbox (env : Env) (chip : string)
    (matched : gmap string string) (project : Cfg.Project)
    (mx : Q) (work : bool) : ChipResult :=
  let tp := Cfg.test_path project in
  let sim := Cfg.simulator_path project in
  match run_sandbox env sim chip matched with
  | BodyRaises TimeoutExpired =>
      let ep := if work then Py.round (Py.fmul mx (Py.float (1 # 10))) 2
                else 0%Q in
      chip_result chip false ep mx "timeout" "Timed out (possible loop)"
  | BodyRaises e =>
      chip_result chip false 0 mx "internal" (Py.take_str 150 (exn_str e))
  | Completed stdout stderr cmp_file out_file =>
      let out := Py.strip (stdout +:+ Py.LF +:+ stderr) in
      if success_marker out then
        match cmp_fixture env tp chip with
        | Unreadable e =>
            chip_result chip false 0 mx "internal"
                        (Py.take_str 150 (exn_str e))
        | Missing =>
            {| name := chip; passed := true; points := mx; max_points := mx;
               error_type := "pass"; error_msg := ""; fail_line := 0%Z;
               expected := ""; actual := "";
               total_tests := 0%Z; passed_tests := 0%Z |}
        | Text content =>
            let tests := Z.max 0 (Z.of_nat (length (Py.splitlines content)) - 1) in
            {| name := chip; passed := true; points := mx; max_points := mx;
               error_type := "pass"; error_msg := ""; fail_line := 0%Z;
               expected := ""; actual := "";
               total_tests := tests; passed_tests := tests |}
        end
      else if failure_marker out then
        let '(p, ps, tests, fl, fe, fa) := _partial_credit cmp_file out_file mx in
        {| name := chip; passed := false; points := p; max_points := mx;
           error_type := "mismatch";
           error_msg := Py.str ps +:+ "/" +:+ Py.str tests
                        +:+ " tests passed (first fail line "
                        +:+ Py.str fl +:+ ")";
           fail_line := fl; expected := fe; actual := fa;
           total_tests := tests; passed_tests := ps |}
      else
        let ce := _clean_err out in
        if work then
          chip_result chip false
                      (Py.round (Py.fmul mx (Py.float (15 # 100))) 2) mx
                      "syntax" ("Syntax error (effort credit): " +:+ ce)
        else chip_result chip false 0 mx "syntax" ce
  end.

Definition _run_one (env : Env) (chip : string)
    (matched : gmap string string) (project : Cfg.Project) : M ChipResult :=
  let pts := Cfg.chip_points project in
  let mx := default 1%Q (pts !! chip) in
  let tp := Cfg.test_path project in
  let ext := Cfg.file_ext (Cfg.raw project) in
  match matched !! chip with
  | None => ret (chip_result chip false 0 mx "missing" "Not submitted")
  | Some src =>
      if String.eqb ext ".hdl" && _check_builtin env src then
        ret (chip_result chip false 0 mx "builtin" "Uses BUILTIN (not allowed)")
      else
        let work := _has_work env src ext in
        match tst_exists env tp chip with
        | Raise e => raise e
        | Ret false =>
            ret (chip_result chip false 0 mx "internal"
                             (chip +:+ ".tst not found"))
        | Ret true =>
            sb <- mkdtemp env ("c_" +:+ chip +:+ "_") ;;
            try_finally (ret (run_in_sandbox env chip matched project mx work))
                        (rmtree sb)
        end
  end.

(** [deps.get(name, [])] on the dict literal of the project. *)
Definition deps_get (deps : list (string * list string)) (nm : string)
  : list string :=
  default [] (fold_left (fun m kv => <[kv.1 := kv.2]> m) deps
                (∅ : gmap string (list string)) !! nm).

Definition _cascades (results : list ChipResult)
    (deps : list (string * list string)) : list string :=
  let failed_names : gset string :=
    list_to_set (map name (List.filter (fun c => negb (passed c)) results)) in
  if bool_decide (failed_names = ∅) then []
  else
    flat_map
      (fun c =>
         if negb (bool_decide (name c ∈ failed_names)) then []
         else
           let bd := List.filter (fun d => bool_decide (d ∈ failed_names))
                                 (deps_get deps (name c)) in
           match bd with
           | [] => []
           | _ => [name c +:+ " likely fails because " +:+ Py.join ", " bd
                   +:+ " also broken"]
           end)
      results.

(** ** Main pipeline *)

(** [for c in chips:] of the early return: [pts[c]] raises [KeyError] for a
    name without points. *)
Fixpoint missing_chips (pts : gmap string Q) (ext : string)
    (cs : list string) : outcome (list ChipResult) :=
  match cs with
  | [] => Ret []
  | c :: cs' =>
      match pts !! c with
      | None => Raise (KeyError c)
      | Some mx =>
          match missing_chips pts ext cs' with
          | Raise e => Raise e
          | Ret rs =>
              Ret (chip_result c false 0 mx "missing"
                     ("No " +:+ ext +:+ " files in submission") :: rs)
          end
      end
  end.

(** [for c in chips:] of the run phase; the accumulators are [result.chips]
    and [result.total_earned]. *)
Fixpoint run_chips (env : Env) (matched : gmap string string)
    (project : Cfg.Project) (cs : list string)
    (acc : list ChipResult * Q) : M (list ChipResult * Q) :=
  match cs with
  | [] => ret acc
  | c :: cs' =>
      cr <- _run_one env c matched project ;;
      run_chips env matched project cs'
                (acc.1 ++ [cr], Py.fadd acc.2 (points cr))
  end.

Definition is_fixed (m : FileMatch) : bool :=
  String.eqb (match_type m) "case_fix" || String.eqb (match_type m) "fuzzy".

Definition grade_student (env : Env) (zip_path student_name : string)
    (user_id : Z) (project_num : option Z) (zip_filename : string)
  : M GradingResult :=
  project <- lift (Cfg.get_project (ACTIVE_PROJECT env) project_num) ;;
  let chip_list := Cfg.chip_names project in
  let pts := Cfg.chip_points project in
  let ext := Cfg.file_ext (Cfg.raw project) in
  let deps := Cfg.deps (Cfg.raw project) in
  extracted <- _extract_zip env zip_path ext ;;
  let '(tmp, raw_found) := extracted in
  try_finally
    (zn <- lift (check_zip_naming (ACTIVE_PROJECT env) zip_filename
                   student_name (Cfg.number project)) ;;
     match raw_found with
     | [] =>
         rs <- lift (missing_chips pts ext chip_list) ;;
         ret {| student_name := student_name; user_id := user_id;
                project_num := Cfg.number project;
                chips := rs;
                total_earned := 0%Q;
                total_possible := Cfg.total_points project;
                warnings := ["No " +:+ ext +:+ " files found in zip"];
                file_matches :=
                  map (fun c => {| expected_name := c; actual_filename := "";
                                   match_type := "not_found";
                                   issue := "No " +:+ ext +:+ " files in zip" |})
                      chip_list;
                extra_files := [];
                zip_naming := Some zn |}
     | _ :: _ =>
         let '(matched, fmatches, extra) :=
           _match_files raw_found chip_list ext in
         let naming_warnings :=
           map (fun m => "Naming: " +:+ issue m)
               (List.filter is_fixed fmatches) in
         ran <- run_chips env matched project chip_list ([], 0%Q) ;;
         ret {| student_name := student_name; user_id := user_id;
                project_num := Cfg.number project;
                chips := ran.1;
                total_earned := Py.round ran.2 2;
                total_possible := Cfg.total_points project;
                warnings := naming_warnings ++ _cascades ran.1 deps;
                file_matches := fmatches;
                extra_files := extra;
                zip_naming := Some zn |}
     end)
    (rmtree tmp).

(** ** Notions of the design document *)

(** The line at index [i] of a trace, trimmed; past the end it is empty. *)
Definition trimmed_line (trace : list string) (i : nat) : string :=
  Py.strip (nth i trace "").

(** Expected and actual line [i] agree verbatim after trimming. *)
Definition line_matches (cmp out : list string) (i : nat) : bool :=
  String.eqb (trimmed_line cmp i) (trimmed_line out i).

(** The number of matching lines among the lines after the header. *)
Definition matching_lines (cmp out : list string) : Z :=
  Z.of_nat (length (List.filter (line_matches cmp out)
                                (seq 1 (length cmp - 1)))).

(** The relative error of one float operation is at most [2^-53]. *)
Definition eps : Q := 1 # 9007199254740992.

(** A point value of the project table is well formed when it is not
    negative and [round(., 2)] takes every number from the value up to two
    rounding errors above it to at most the value. *)
Definition cents_ok (mx : Q) : bool :=
  Qle_bool 0 mx && Qle_bool (Py.round (mx * (1 + eps) * (1 + eps)) 2) mx.

(** Two rationals are the same fraction. *)
Definition Qsame (a b : Q) : bool :=
  (Qnum a =? Qnum b)%Z && (Qden a =? Qden b)%positive.

(** With [k] cents earned out of 10 points, the percentage is [k / 10]. *)
Definition percent_ok (k : Z) : bool :=
  Qsame (Py.round (Py.fmul (Py.fdiv (Py.float (inject_Z k / 100)) 10)
                           (Py.of_int 100)) 1)
        (Py.float (inject_Z k / 10)).

(** The cents that a total of at most 10 points can have. *)
Definition cents_range : list Z := map Z.of_nat (seq 0 1001).

(** No two chip names of a project agree when letter case is ignored. *)
Definition names_distinct (rp : Cfg.RawProject) : bool :=
  bool_decide (NoDup (map Py.lower (map fst (Cfg.chips rp)))).

(** A project of the table is well formed when its chip names are distinct
    and its point values are well formed. *)
Definition project_ok (rp : Cfg.RawProject) : bool :=
  bool_decide (NoDup (map fst (Cfg.chips rp)))
  && forallb (fun c => cents_ok c.2) (Cfg.chips rp).

(** The found files that pass 4 considers for [exp]: not consumed, and one
    of the two names, ignoring case, is a substring of the other. *)
Definition candidates (found : found_dict) (used0 : gset string)
    (exp : string) : found_dict :=
  List.filter (is_candidate used0 (Py.lower exp)) found.

(** [len(expected) / len(found)] *)
Definition length_ratio (exp fnd : string) : Q :=
  (inject_Z (Z.of_nat (Py.len exp)) / inject_Z (Z.of_nat (Py.len fnd)))%Q.

(** The file names that a list of matches assigns, one entry per
    assignment; a [not_found] match assigns nothing. *)
Definition assigned_files (ms : list FileMatch) : list string :=
  map actual_filename
      (List.filter (fun m => negb (String.eqb (match_type m) "not_found")) ms).

(** ** Invariants of the matcher loops *)

(** What the inner loop of pass 4 has after the items [l]: the best score
    so far bounds the score of every candidate of [l], and [best] is a
    candidate of [l] that reaches it. *)
Definition best_inv (used0 : gset string) (el : string) (l : found_dict)
    (acc : option (string * string) * Q) : Prop :=
  (forall kv, In kv l -> is_candidate used0 el kv = true ->
              (score el (Py.lower kv.1) <= acc.2)%Q) /\
  match acc.1 with
  | Some kv => In kv l /\ is_candidate used0 el kv = true /\
               acc.2 = score el (Py.lower kv.1) /\ (0 < acc.2)%Q
  | None => acc.2 = 0%Q
  end.

(** Pass 4 finds nothing acceptable for [exp] among the files outside
    [used0]. *)
Definition fails (found : found_dict) (used0 : gset string) (exp : string)
  : Prop :=
  forall kv, In kv (candidates found used0 exp) ->
             (score (Py.lower exp) (Py.lower kv.1) <= 4 # 10)%Q.

(** The matches made so far are assignments, no file is assigned twice, and
    [used] holds exactly the names of the assigned files. *)
Definition match_inv (file_ext : string) (st : MatchState) : Prop :=
  Forall (fun m => String.eqb (match_type m) "not_found" = false) (matches st) /\
  NoDup (map actual_filename (matches st)) /\
  (forall f, In f (map actual_filename (matches st)) ->
             exists n, n ∈ used st /\ f = n +:+ file_ext) /\
  (forall n, n ∈ used st ->
             In (n +:+ file_ext) (map actual_filename (matches st))).

(** A loop [for x in l: st = step(st, x)] in which every step that changes
    the state finds [x] in [remaining]: its [remaining.remove(x)] does not
    raise. *)
Inductive removes_present (step : MatchState -> string -> MatchState)
  : list string -> MatchState -> Prop :=
  | removes_nil (st : MatchState) : removes_present step [] st
  | removes_cons (x : string) (l : list string) (st : MatchState) :
      step st x = st \/ In x (remaining st) ->
      removes_present step l (step st x) ->
      removes_present step (x :: l) st.

(** ** Example submissions *)

Definition asm_source : string :=
  "@R0" +:+ Py.LF +:+ "D=M" +:+ Py.LF +:+ "// loop" +:+ Py.LF
  +:+ "@R2" +:+ Py.LF +:+ "M=D" +:+ Py.LF.

Definition cmp_trace : string :=
  "| a | out |" +:+ Py.LF +:+ "| 0 | 1 |" +:+ Py.LF +:+ "| 1 | 0 |" +:+ Py.LF
  +:+ "| 2 | 0 |" +:+ Py.LF +:+ "| 3 | 1 |" +:+ Py.LF.

Definition out_trace : string :=
  "| a | out |" +:+ Py.LF +:+ "| 0 | 1 |  " +:+ Py.LF +:+ "| 1 | 0 |" +:+ Py.LF
  +:+ "| 2 | 1 |" +:+ Py.LF +:+ "| 3 | 1 |" +:+ Py.LF.

(** A submission for project 4 with [Mult.asm] and a misnamed [fill.ASM]:
    [Mult] fails the comparison at its third test, [Fill] runs into the
    timeout. *)
Definition demo_env : Env := {|
  ACTIVE_PROJECT := 4;
  mkdtemp_error := fun _ => None;
  open_zip := fun _ =>
    Extracted (Dir "" ["Mult.asm"; ".DS_Store"; "notes.txt"]
                   [Dir "__MACOSX" ["Fill.asm"] [];
                    Dir "src" ["fill.ASM"; "Mult.asm"] []]);
  read_source := fun _ => Ret asm_source;
  tst_exists := fun _ _ => Ret true;
  cmp_fixture := fun _ _ => Text cmp_trace;
  run_sandbox := fun _ chip _ =>
    if String.eqb chip "Mult"
    then Completed "End of script - Comparison failure at line 4" ""
                   (Text cmp_trace) (Text out_trace)
    else BodyRaises TimeoutExpired
|}.

(** The same submission when the simulator prints a Java stack trace for
    [Mult] and cannot be started for [Fill]. *)
Definition broken_tool_env : Env := {|
  ACTIVE_PROJECT := 4;
  mkdtemp_error := fun _ => None;
  open_zip := open_zip demo_env;
  read_source := fun _ => Ret asm_source;
  tst_exists := fun _ _ => Ret true;
  cmp_fixture := fun _ _ => Text cmp_trace;
  run_sandbox := fun _ chip _ =>
    if String.eqb chip "Mult"
    then Completed "" ("In line 3, Expression expected" +:+ Py.LF
                       +:+ "  at Hack.Assembler.parse(java.lang.String)")
                   Missing Missing
    else BodyRaises (Exception "[Errno 13] Permission denied: 'CPUEmulator.sh'")
|}.

(** A password-protected archive: [ZipFile] opens it and [extractall]
    raises [RuntimeError]. *)
Definition encrypted_env : Env := {|
  ACTIVE_PROJECT := 4;
  mkdtemp_error := fun _ => None;
  open_zip := fun _ =>
    ExtractError (Exception "File 'Mult.asm' is encrypted, password required");
  read_source := fun _ => Ret asm_source;
  tst_exists := fun _ _ => Ret true;
  cmp_fixture := fun _ _ => Text cmp_trace;
  run_sandbox := fun _ _ _ => BodyRaises TimeoutExpired
|}.

(** A gate of project 1 with one part. *)
Definition hdl_source : string :=
  "CHIP Not {" +:+ Py.LF +:+ "    IN in;" +:+ Py.LF +:+ "    OUT out;" +:+ Py.LF
  +:+ "    PARTS:" +:+ Py.LF +:+ "    Nand(a=in, b=in, out=out);" +:+ Py.LF
  +:+ "}" +:+ Py.LF.

(** A submission for project 1 with [Not.hdl] and [And.hdl], two chips of
    0.65 points: [Not] runs into the timeout, and the simulator stops on
    [And] without comparing anything. *)
Definition gates_env : Env := {|
  ACTIVE_PROJECT := 1;
  mkdtemp_error := fun _ => None;
  open_zip := fun _ => Extracted (Dir "" ["Not.hdl"; "And.hdl"] []);
  read_source := fun _ => Ret hdl_source;
  tst_exists := fun _ _ => Ret true;
  cmp_fixture := fun _ _ => Text cmp_trace;
  run_sandbox := fun _ chip _ =>
    if String.eqb chip "Not" then BodyRaises TimeoutExpired
    else Completed "" "In HDL file And.hdl, Line 5, A pin name is expected"
                   Missing Missing
|}.

(** The first example when the directory of the test scripts may not be
    searched: [Path.exists] raises [PermissionError]. *)
Definition locked_tests_env : Env := {|
  ACTIVE_PROJECT := 4;
  mkdtemp_error := fun _ => None;
  open_zip := open_zip demo_env;
  read_source := fun _ => Ret asm_source;
  tst_exists := fun _ chip =>
    Raise (Exception ("[Errno 13] Permission denied: '" +:+ chip +:+ ".tst'"));
  cmp_fixture := fun _ _ => Text cmp_trace;
  run_sandbox := run_sandbox demo_env
|}.

(** The result of grading the first example. *)
Definition demo_result : GradingResult :=
  {| student_name := "Ada Lovelace"; user_id := 7; project_num := 4;
     chips :=
       [{| name := "Mult"; passed := false; points := 15 # 4;
           max_points := 5; error_type := "mismatch";
           error_msg := "3/4 tests passed (first fail line 3)";
           fail_line := 3; expected := "| 2 | 0 |"; actual := "| 2 | 1 |";
           total_tests := 4; passed_tests := 3 |};
        {| name := "Fill"; passed := false; points := 1 # 2;
           max_points := 5; error_type := "timeout";
           error_msg := "Timed out (possible loop)";
           fail_line := 0; expected := ""; actual := "";
           total_tests := 0; passed_tests := 0 |}];
     total_earned := 17 # 4;
     total_possible := 10;
     warnings := ["Naming: Named 'fill.asm' instead of 'Fill.asm'"];
     file_matches :=
       [{| expected_name := "Mult"; actual_filename := "Mult.asm";
           match_type := "exact"; issue := "" |};
        {| expected_name := "Fill"; actual_filename := "fill.asm";
           match_type := "case_fix";
           issue := "Named 'fill.asm' instead of 'Fill.asm'" |}];
     extra_files := [];
     zip_naming :=
       Some {| original_filename := "HW4_Assembly_Ada_Lovelace.zip";
               is_correct := true;
               expected_pattern := "HW4_Assembly_Ada_Lovelace.zip";
               zip_issue := "" |} |}.

(** ** config.py: project detection *)

(** [PROJECT_KEYWORDS], in the order of the dict literal. *)
Definition PROJECT_KEYWORDS : list (Z * list string) :=
  [(1%Z, ["logic gate"; "nand"; "basic gate"; "gates from nand";
          "not.hdl"; "mux"; "dmux"]);
   (2%Z, ["alu"; "arithmetic"; "adder"; "halfadder"; "fulladder"]);
   (3%Z, ["memory"; "ram"; "register"; "sequential"; "program counter"]);
   (4%Z, ["machine language"; "assembly"; "mult.asm"; "fill.asm"]);
   (5%Z, ["computer architecture"; "cpu"; "computer.hdl"])].

(** The value of a string of decimal digits, most significant first. *)
Fixpoint digits_value (acc : Z) (s : string) : Z :=
  match s with
  | EmptyString => acc
  | String c r => digits_value (10 * acc + Z.of_nat (nat_of_ascii c - 48))%Z r
  end.

(** The message of the [ValueError] that [int] raises for a digit string
    longer than the interpreter converts. *)
Definition int_limit_msg (max_str_digits digits : nat) : string :=
  "Exceeds the limit (" +:+ Py.str (Z.of_nat max_str_digits)
  +:+ " digits) for integer string conversion: value has "
  +:+ Py.str (Z.of_nat digits)
  +:+ " digits; use sys.set_int_max_str_digits() to increase the limit".

(** [int(s)] for a non-empty string of decimal digits.  The interpreter
    refuses more than [max_str_digits] digits
    ([sys.get_int_max_str_digits()], 4300 by default; 0 means no limit). *)
Definition py_int (max_str_digits : nat) (s : string) : outcome Z :=
  if negb (max_str_digits =? 0) && (max_str_digits <? Py.len s)
  then Raise (ValueError (int_limit_msg max_str_digits (Py.len s)))
  else Ret (digits_value 0 s).

(** Group 1 of [(?:homework|hw|project)\s*#?\s*(\d+)] tried at the start of
    [s]. *)
Definition hw_number_at (s : string) : option string :=
  let after (kw : string) : option string :=
    if Py.startswith s kw then
      let r1 := Py.lstrip (Py.drop_str (Py.len kw) s) in
      let r2 := match r1 with
                | String c r => if Ascii.eqb c "#" then r else r1
                | EmptyString => r1
                end in
      let r3 := Py.lstrip r2 in
      let '(d, _) := span Py.isdigit r3 in
      match d with
      | O => None
      | S _ => Some (Py.take_str d r3)
      end
    else None in
  match after "homework" with
  | Some g => Some g
  | None => match after "hw" with
            | Some g => Some g
            | None => after "project"
            end
  end.

(** [re.search] with a group: the leftmost position where [m] matches. *)
Fixpoint re_search_group (m : string -> option string) (s : string)
  : option string :=
  match m s with
  | Some g => Some g
  | None => match s with
            | EmptyString => None
            | String _ r => re_search_group m r
            end
  end.

(** The keyword scan of [detect_project]: the first project, in dict order,
    one of whose keywords occurs in the name. *)
Definition keyword_project (name_lower : string) : option Z :=
  option_map fst
    (List.find (fun nk => existsb (fun kw => Py.contains name_lower kw) nk.2)
               PROJECT_KEYWORDS).

(** [detect_project(assignment_name)] *)
Definition detect_project (ACTIVE_PROJECT : Z) (max_str_digits : nat)
    (assignment_name : string) : outcome (option Cfg.Project) :=
  let name_lower := Py.lower assignment_name in
  let project (num : Z) : outcome (option Cfg.Project) :=
    match Cfg.get_project ACTIVE_PROJECT (Some num) with
    | Ret p => Ret (Some p)
    | Raise e => Raise e
    end in
  let by_keyword : outcome (option Cfg.Project) :=
    match keyword_project name_lower with
    | Some num => project num
    | None => Ret None
    end in
  match re_search_group hw_number_at name_lower with
  | Some g =>
      match py_int max_str_digits g with
      | Raise e => Raise e
      | Ret num =>
          if bool_decide (is_Some (Cfg.PROJECTS !! num)) then project num
          else by_keyword
      end
  | None => by_keyword
  end.

(** ** Further notions *)

(** Every character of [s] satisfies [p]. *)
Fixpoint all_chars (p : ascii -> bool) (s : string) : bool :=
  match s with
  | EmptyString => true
  | String c r => p c && all_chars p r
  end.

(** A separator that [_normalize] removes: whitespace, underscore, hyphen. *)
Definition is_separator (c : ascii) : bool :=
  Py.isspace c || Ascii.eqb c "_" || Ascii.eqb c "-".

(** The error categories of a [ChipResult]. *)
Definition categories : list string :=
  ["pass"; "missing"; "builtin"; "mismatch"; "syntax"; "timeout"; "internal"].

(** What holds of every entry of the [found] dict that [_extract_zip]
    builds from the [(root, files)] pairs of the walk: the key is not empty,
    is not a hidden name and has no extension left; it comes from a visible
    file of the walk whose lowered name ends with the extension. *)
Definition found_entry_ok (file_ext : string)
    (entries : list (string * list string)) (kv : string * string) : Prop :=
  kv.1 <> "" /\ hidden kv.1 = false /\
  Py.endswith (Py.lower kv.1) file_ext = false /\
  exists root files f,
    In (root, files) entries /\ In f files /\
    kv.2 = root +:+ "/" +:+ f /\
    kv.1 = strip_ext (S (Py.len f)) file_ext f /\
    hidden f = false /\ Py.endswith (Py.lower f) file_ext = true.

(** The match that pass 1 records for [exp]. *)
Definition exact_match (file_ext exp : string) : FileMatch :=
  {| expected_name := exp; actual_filename := exp +:+ file_ext;
     match_type := "exact"; issue := "" |}.

(** The match types under which a file is assigned. *)
Definition assigns (kind : string) : Prop :=
  kind = "exact" \/ kind = "case_fix" \/ kind = "fuzzy".

(** An iteration of passes 2 to 4: nothing happens, or a found file is
    assigned to the name at hand. *)
Definition assigning_step (found : found_dict) (file_ext : string)
    (step : MatchState -> string -> MatchState) : Prop :=
  forall s x,
    step s x = s \/
    exists kind msg orig path,
      In (orig, path) found /\ (kind = "case_fix" \/ kind = "fuzzy") /\
      step s x = assign file_ext kind msg x orig path s.

(** Every entry of [matched] is backed by a found file and by a match of
    the list, and the names still to match are expected names. *)
Definition link_inv (found : found_dict) (file_ext : string)
    (names : list string) (st : MatchState) : Prop :=
  (forall exp path, matched st !! exp = Some path ->
     In exp names /\
     exists orig m, In (orig, path) found /\ In m (matches st) /\
       expected_name m = exp /\ actual_filename m = orig +:+ file_ext /\
       assigns (match_type m)) /\
  (forall x, In x (remaining st) -> In x names).

(** Passes 2 to 4 leave what pass 1 did for the names outside [R]. *)
Definition frame_inv (st1 : MatchState) (R : list string) (st : MatchState)
  : Prop :=
  (forall k, ~ In k R -> matched st !! k = matched st1 !! k) /\
  (forall m, In m (matches st) -> In m (matches st1) \/ In (expected_name m) R) /\
  (forall m, In m (matches st1) -> In m (matches st)) /\
  (forall x, In x (remaining st) -> In x R).

(** What holds of every [ChipResult] that the grader builds: its category
    is one of the seven; it passed exactly in category [pass], and then it
    has the full points and every test passed; the categories [missing],
    [builtin] and [internal] give no points; the passed tests are among the
    tests; only a mismatch carries a failing line. *)
Definition chip_ok (cr : ChipResult) : Prop :=
  In (error_type cr) categories /\
  (passed cr = true <-> error_type cr = "pass") /\
  (passed cr = true ->
     points cr = max_points cr /\ passed_tests cr = total_tests cr) /\
  (In (error_type cr) ["missing"; "builtin"; "internal"] -> points cr = 0%Q) /\
  (0 <= passed_tests cr <= total_tests cr)%Z /\
  (error_type cr <> "mismatch" ->
     fail_line cr = 0%Z /\ expected cr = "" /\ actual cr = "").

(** The text starts, or ends, at a word boundary: there is no word
    character next to the position. *)
Definition starts_nonword (s : string) : bool :=
  match s with
  | String c _ => negb (Py.isword c)
  | EmptyString => true
  end.

Fixpoint ends_nonword (s : string) : bool :=
  match s with
  | EmptyString => true
  | String c EmptyString => negb (Py.isword c)
  | String _ r => ends_nonword r
  end.

(** A chip of [results] with the name [d] did not pass. *)
Definition is_failed (results : list ChipResult) (d : string) : bool :=
  existsb (fun c => negb (passed c) && String.eqb (name c) d) results.

(** The dependencies of [c] that failed, in the order of the table. *)
Definition broken_deps (results : list ChipResult)
    (deps : list (string * list string)) (c : ChipResult) : list string :=
  List.filter (is_failed results) (deps_get deps (name c)).

(** The warning of [_cascades] for [c]. *)
Definition cascade_warning (results : list ChipResult)
    (deps : list (string * list string)) (c : ChipResult) : string :=
  name c +:+ " likely fails because "
  +:+ Py.join ", " (broken_deps results deps c) +:+ " also broken".

(** [project_num or ACTIVE_PROJECT] *)
Definition effective_project (ACTIVE_PROJECT : Z) (project_num : option Z) : Z :=
  match project_num with
  | Some n => if (n =? 0)%Z then ACTIVE_PROJECT else n
  | None => ACTIVE_PROJECT
  end.

(** A file that is not a zip archive. *)
Definition corrupt_env : Env := {|
  ACTIVE_PROJECT := 4;
  mkdtemp_error := fun _ => None;
  open_zip := fun _ => BadZipFile;
  read_source := fun _ => Ret asm_source;
  tst_exists := fun _ _ => Ret true;
  cmp_fixture := fun _ _ => Text cmp_trace;
  run_sandbox := fun _ _ _ => BodyRaises TimeoutExpired
|}.

(** Three found files for the expected names [Not], [And], [Or8Way]. *)
Definition gates_found : found_dict :=
  [("Not", "n2t/Not.hdl"); ("and_gate", "n2t/and_gate.hdl");
   ("MyOr8Way", "n2t/MyOr8Way.hdl")].

(** What justifies a match of the list: an exact match has a found file of
    the expected name; a case_fix match has a found file whose name differs
    from the expected one in letter case only; a fuzzy match has a found file
    with the same normal form, or one whose name contains the expected name
    or is contained in it, ignoring case, with a length ratio above 0.4; a
    not_found match has no file, and no found file has the expected name. *)
Definition sound_match (found : found_dict) (file_ext : string)
    (m : FileMatch) : Prop :=
  let exp := expected_name m in
  (match_type m = "exact" /\ actual_filename m = exp +:+ file_ext /\
   issue m = "" /\ is_Some (dict_get exp found)) \/
  (match_type m = "case_fix" /\
   exists orig path, In (orig, path) found /\
     actual_filename m = orig +:+ file_ext /\
     issue m = case_fix_msg file_ext exp orig /\
     Py.lower orig = Py.lower exp /\ orig <> exp) \/
  (match_type m = "fuzzy" /\
   exists orig path, In (orig, path) found /\
     actual_filename m = orig +:+ file_ext /\
     issue m = fuzzy_msg file_ext exp orig /\
     (_normalize orig = _normalize exp \/
      (Py.contains (Py.lower orig) (Py.lower exp)
       || Py.contains (Py.lower exp) (Py.lower orig) = true /\
       (4 # 10 < score (Py.lower exp) (Py.lower orig))%Q))) \/
  (match_type m = "not_found" /\ actual_filename m = "" /\
   issue m = "'" +:+ exp +:+ file_ext +:+ "' not found in submission" /\
   dict_get exp found = None).

(** An iteration of passes 2 to 4 on a name without a file of its own:
    nothing happens, or one justified match is appended. *)
Definition sound_step (found : found_dict) (file_ext : string)
    (step : MatchState -> string -> MatchState) : Prop :=
  forall s x, dict_get x found = None ->
    step s x = s \/
    exists m, sound_match found file_ext m /\
              matches (step s x) = matches s ++ [m] /\
              remaining (step s x) = list_remove x (remaining s).

(** The first example when the simulator reports success for every chip. *)
Definition passing_env : Env := {|
  ACTIVE_PROJECT := 4;
  mkdtemp_error := fun _ => None;
  open_zip := open_zip demo_env;
  read_source := fun _ => Ret asm_source;
  tst_exists := fun _ _ => Ret true;
  cmp_fixture := fun _ _ => Text cmp_trace;
  run_sandbox := fun _ _ _ =>
    Completed "End of script - Comparison ended successfully" ""
              (Text cmp_trace) (Text cmp_trace)
|}.

(** The names that pass 1 leaves over, and the state in which pass 2
    starts. *)
Definition pass1_leftover (found : found_dict) (expected_names : list string)
    (file_ext : string) : list string :=
  List.filter
    (fun n => negb (bool_decide
       (is_Some (matched (after_pass1 found expected_names file_ext) !! n))))
    expected_names.

Definition pass2_start (found : found_dict) (expected_names : list string)
    (file_ext : string) : MatchState :=
  let st1 := after_pass1 found expected_names file_ext in
  {| matched := matched st1; matches := matches st1; used := used st1;
     remaining := pass1_leftover found expected_names file_ext |}.

(** ** Proof automation *)

Ltac ascii_cases c := destruct c as [[] [] [] [] [] [] [] []].

Ltac in_list := repeat first [left; reflexivity | right].

Ltac chip_ok_tac :=
  unfold chip_ok, categories; cbn;
  repeat split; try discriminate; try reflexivity; try lia; try in_list;
  try (intros H; repeat destruct H as [H | H]; try discriminate H;
       try contradiction; try reflexivity);
  try congruence.

(** * Properties *)

(** ** Rounding *)

Section RoundFacts.
Local Open Scope Q_scope.

Lemma rhe_cases (q : Q) :
  (Py.round_half_even q = Qfloor q \/ Py.round_half_even q = (Qfloor q + 1)%Z).
Proof.
  unfold Py.round_half_even.
  destruct (q - inject_Z (Qfloor q) ?= 1 # 2); [destruct (Z.even _)|..]; auto.
Qed.

Lemma rhe_compat (x y : Q) : x == y -> Py.round_half_even x = Py.round_half_even y.
Proof.
  intros E. unfold Py.round_half_even.
  rewrite (Qfloor_comp _ _ E).
  assert (H : (x - inject_Z (Qfloor y) ?= 1 # 2) = (y - inject_Z (Qfloor y) ?= 1 # 2)).
  { apply Qcompare_comp; [rewrite E|]; reflexivity. }
  now rewrite H.
Qed.

Lemma rhe_mono (x y : Q) : x <= y -> (Py.round_half_even x <= Py.round_half_even y)%Z.
Proof.
  intros L.
  pose proof (Qfloor_resp_le _ _ L) as Hf.
  pose proof (Qfloor_le x) as Hx1. pose proof (Qlt_floor x) as Hx2.
  pose proof (Qfloor_le y) as Hy1. pose proof (Qlt_floor y) as Hy2.
  rewrite inject_Z_plus in Hx2, Hy2.
  destruct (Z.eq_dec (Qfloor x) (Qfloor y)) as [E|N].
  - unfold Py.round_half_even. rewrite <- E in *.
    destruct (Qcompare_spec (x - inject_Z (Qfloor x)) (1 # 2)) as [Cx|Cx|Cx];
    destruct (Qcompare_spec (y - inject_Z (Qfloor x)) (1 # 2)) as [Cy|Cy|Cy];
    try (destruct (Z.even (Qfloor x))); try lia; exfalso; lra.
  - destruct (rhe_cases x) as [-> | ->], (rhe_cases y) as [-> | ->]; lia.
Qed.

Lemma rhe_inject (z : Z) : Py.round_half_even (inject_Z z) = z.
Proof.
  unfold Py.round_half_even. rewrite Qfloor_Z.
  assert (H : (inject_Z z - inject_Z z ?= 1 # 2) = Lt).
  { rewrite <- Qlt_alt. lra. }
  now rewrite H.
Qed.

(** The rounded integer is within one half of the number. *)
Lemma rhe_upper (x : Q) : inject_Z (Py.round_half_even x) <= x + (1 # 2).
Proof.
  unfold Py.round_half_even.
  pose proof (Qfloor_le x) as H1.
  destruct (Qcompare_spec (x - inject_Z (Qfloor x)) (1 # 2)) as [C|C|C].
  - destruct (Z.even _); [lra|]. rewrite inject_Z_plus. change (inject_Z 1) with 1. lra.
  - lra.
  - rewrite inject_Z_plus. change (inject_Z 1) with 1. lra.
Qed.

Lemma pow2_pos (e : Z) : 0 < 2 ^ e.
Proof. apply Qpower_0_lt. reflexivity. Qed.

Lemma pow2_succ (e : Z) : 2 ^ (e + 1) == 2 * 2 ^ e.
Proof.
  rewrite Qpower_plus by discriminate. change (2 ^ 1) with 2. ring.
Qed.

Lemma pow2_le (a b : Z) : (a <= b)%Z -> 2 ^ a <= 2 ^ b.
Proof. intros H. apply Qpower_le_compat_l; [exact H | discriminate]. Qed.

Lemma pow2_inject (n : Z) : (0 <= n)%Z -> inject_Z (2 ^ n) == 2 ^ n.
Proof. intros H. now rewrite Zpower_Qpower. Qed.

Lemma Qdiv_le_cross (a b c d : Q) :
  0 < b -> 0 < d -> a * d <= c * b -> a / b <= c / d.
Proof.
  intros Hb Hd H. apply Qle_shift_div_l; [exact Hd|].
  setoid_replace (a / b * d) with (a * d / b) using relation Qeq
    by (field; lra).
  now apply Qle_shift_div_r.
Qed.

Lemma Qdiv_lt_cross (a b c d : Q) :
  0 < b -> 0 < d -> a * d < c * b -> a / b < c / d.
Proof.
  intros Hb Hd H. apply Qlt_shift_div_l; [exact Hd|].
  setoid_replace (a / b * d) with (a * d / b) using relation Qeq
    by (field; lra).
  now apply Qlt_shift_div_r.
Qed.

(** [binade q] is the exponent of the power of two at or below [q]. *)
Lemma binade_spec (q : Q) :
  0 < q -> 2 ^ Py.binade q <= q /\ q < 2 ^ (Py.binade q + 1).
Proof.
  intros Hq. unfold Py.binade.
  destruct q as [a b]. cbn [Qnum Qden].
  assert (Ha : (0 < a)%Z) by (unfold Qlt in Hq; cbn in Hq; lia).
  rewrite (Z.abs_eq a) by lia.
  assert (Habs : Qabs (a # b) == a # b).
  { apply Qabs_pos. now apply Qlt_le_weak. }
  set (la := Z.log2 a). set (lb := Z.log2 (Z.pos b)).
  destruct (Z.log2_spec a Ha) as [A1 A2].
  destruct (Z.log2_spec (Z.pos b) eq_refl) as [B1 B2].
  fold la in A1, A2. fold lb in B1, B2.
  assert (Hla : (0 <= la)%Z) by apply Z.log2_nonneg.
  assert (Hlb : (0 <= lb)%Z) by apply Z.log2_nonneg.
  rewrite Zle_Qle, pow2_inject in A1, B1 by lia.
  rewrite Zlt_Qlt, pow2_inject in A2, B2 by lia.
  replace (Z.succ la) with (la + 1)%Z in A2 by lia.
  replace (Z.succ lb) with (lb + 1)%Z in B2 by lia.
  rewrite pow2_succ in A2, B2.
  pose proof (pow2_pos la) as Px. pose proof (pow2_pos lb) as Py.
  assert (Hq' : a # b == inject_Z a / inject_Z (Z.pos b)) by apply Qmake_Qdiv.
  assert (He : 2 ^ (la - lb) == 2 ^ la / 2 ^ lb).
  { unfold Z.sub. rewrite Qpower_plus, Qpower_opp by discriminate. reflexivity. }
  set (A := inject_Z a) in *. set (B := inject_Z (Z.pos b)) in *.
  set (x := 2 ^ la) in *. set (y := 2 ^ lb) in *.
  assert (HB : 0 < B) by lra.
  assert (Hlow : x / (2 * y) <= A / B).
  { apply Qdiv_le_cross; [lra | exact HB | nra]. }
  assert (Hhigh : A / B < 2 * x / y).
  { apply Qdiv_lt_cross; [exact HB | lra | nra]. }
  destruct (Qle_bool (2 ^ (la - lb)) (Qabs (a # b))) eqn:E.
  - apply Qle_bool_iff in E. rewrite Habs in E. split; [exact E|].
    rewrite pow2_succ, He, Hq'. unfold Qdiv in *. lra.
  - assert (E' : a # b < 2 ^ (la - lb)).
    { apply Qnot_le_lt. intros H. rewrite <- Habs in H.
      apply Qle_bool_iff in H. congruence. }
    replace (la - lb - 1 + 1)%Z with (la - lb)%Z by lia. split; [|exact E'].
    assert (He1 : 2 ^ (la - lb) == 2 * 2 ^ (la - lb - 1)).
    { rewrite <- pow2_succ. now replace (la - lb - 1 + 1)%Z with (la - lb)%Z by lia. }
    rewrite Hq'.
    assert (x / (2 * y) == 2 ^ (la - lb - 1)).
    { apply (Qmult_inj_l _ _ 2); [discriminate|]. rewrite <- He1, He. field. lra. }
    lra.
Qed.

Lemma pow2_lt_inv (a b : Z) : 2 ^ a < 2 ^ b -> (a < b)%Z.
Proof. intros H. apply (Qpower_lt_compat_l_inv 2); [exact H | reflexivity]. Qed.

Lemma binade_unique (q : Q) (e : Z) :
  2 ^ e <= q -> q < 2 ^ (e + 1) -> Py.binade q = e.
Proof.
  intros H1 H2.
  assert (Hq : 0 < q) by (pose proof (pow2_pos e); lra).
  destruct (binade_spec q Hq) as [B1 B2].
  assert (L1 : (e < Py.binade q + 1)%Z) by (apply pow2_lt_inv; lra).
  assert (L2 : (Py.binade q < e + 1)%Z) by (apply pow2_lt_inv; lra).
  lia.
Qed.

Lemma binade_compat (x y : Q) : 0 < x -> x == y -> Py.binade x = Py.binade y.
Proof.
  intros Hx E. destruct (binade_spec x Hx) as [B1 B2].
  symmetry. apply binade_unique; rewrite <- E; assumption.
Qed.

Lemma binade_mono (x y : Q) : 0 < x -> x <= y -> (Py.binade x <= Py.binade y)%Z.
Proof.
  intros Hx L. assert (Hy : 0 < y) by lra.
  destruct (binade_spec x Hx) as [X1 X2], (binade_spec y Hy) as [Y1 Y2].
  assert (H : (Py.binade x < Py.binade y + 1)%Z) by (apply pow2_lt_inv; lra).
  lia.
Qed.

Lemma binade_abs (q : Q) : Py.binade q = Py.binade (Qabs q).
Proof.
  unfold Py.binade. destruct q as [a b]. cbn [Qabs Qnum Qden].
  now rewrite (Z.abs_eq (Z.abs a)) by apply Z.abs_nonneg.
Qed.

Lemma Qabs_pos_iff (q : Q) : ~ q == 0 -> 0 < Qabs q.
Proof.
  intros H. destruct (Qlt_le_dec 0 (Qabs q)) as [L|L]; [exact L|].
  exfalso. apply H.
  pose proof (Qabs_nonneg q) as N.
  assert (E : Qabs q == 0) by lra.
  destruct (Qlt_le_dec q 0) as [C|C].
  - rewrite (Qabs_neg q) in E by lra. lra.
  - rewrite (Qabs_pos q) in E by lra. exact E.
Qed.

Lemma float_zero (x : Q) : x == 0 -> Py.float x = 0.
Proof. intros E. unfold Py.float. apply Qeq_bool_iff in E. now rewrite E. Qed.

(** The value of [Py.float] at a positive number. *)
Lemma float_pos_eq (q : Q) :
  0 < q ->
  Py.float q == inject_Z (Py.round_half_even (q / 2 ^ (Py.binade q - 52)))
          * 2 ^ (Py.binade q - 52).
Proof.
  intros Hq. unfold Py.float.
  destruct (Qeq_bool q 0) eqn:E; [apply Qeq_bool_iff in E; lra|].
  apply Qred_correct.
Qed.

Lemma float_compat (x y : Q) : x == y -> Py.float x = Py.float y.
Proof.
  intros E. unfold Py.float.
  destruct (Qeq_bool x 0) eqn:Ex.
  - apply Qeq_bool_iff in Ex. rewrite E in Ex. apply Qeq_bool_iff in Ex.
    now rewrite Ex.
  - destruct (Qeq_bool y 0) eqn:Ey.
    { apply Qeq_bool_iff in Ey. rewrite <- E in Ey. apply Qeq_bool_iff in Ey.
      congruence. }
    apply Qred_complete.
    assert (Hb : Py.binade x = Py.binade y).
    { rewrite (binade_abs x), (binade_abs y). apply binade_compat.
      - apply Qabs_pos_iff. intros H. apply Qeq_bool_iff in H. congruence.
      - now rewrite E. }
    rewrite Hb.
    rewrite (rhe_compat (x / 2 ^ (Py.binade y - 52)) (y / 2 ^ (Py.binade y - 52)));
      [reflexivity | now rewrite E].
Qed.

(** A positive number and its float lie in the same closed binade. *)
Lemma float_binade (q : Q) :
  0 < q -> 2 ^ Py.binade q <= Py.float q /\ Py.float q <= 2 ^ (Py.binade q + 1).
Proof.
  intros Hq. destruct (binade_spec q Hq) as [B1 B2].
  rewrite (float_pos_eq q Hq).
  set (e := Py.binade q) in *. set (u := 2 ^ (e - 52)).
  assert (Hu : 0 < u) by apply pow2_pos.
  assert (E1 : 2 ^ e == inject_Z (2 ^ 52) * u).
  { unfold u. rewrite pow2_inject by lia. rewrite <- Qpower_plus by discriminate.
    now replace (52 + (e - 52))%Z with e by lia. }
  assert (E2 : 2 ^ (e + 1) == inject_Z (2 ^ 53) * u).
  { unfold u. rewrite pow2_inject by lia. rewrite <- Qpower_plus by discriminate.
    now replace (53 + (e - 52))%Z with (e + 1)%Z by lia. }
  assert (L1 : inject_Z (2 ^ 52) <= q / u).
  { apply Qle_shift_div_l; [exact Hu|]. now rewrite <- E1. }
  assert (L2 : q / u <= inject_Z (2 ^ 53)).
  { apply Qle_shift_div_r; [exact Hu|]. rewrite <- E2. now apply Qlt_le_weak. }
  apply rhe_mono in L1, L2. rewrite rhe_inject in L1, L2.
  rewrite Zle_Qle in L1, L2. rewrite E1, E2.
  split; apply Qmult_le_compat_r; auto using Qlt_le_weak.
Qed.

Lemma float_nonneg (x : Q) : 0 <= x -> 0 <= Py.float x.
Proof.
  intros H. destruct (Qeq_dec x 0) as [E|N].
  - rewrite (float_zero x E). apply Qle_refl.
  - assert (Hx : 0 < x).
    { apply Qnot_le_lt. intros L. apply N. lra. }
    destruct (float_binade x Hx) as [B _]. pose proof (pow2_pos (Py.binade x)). lra.
Qed.

(** Rounding to the nearest float is monotone. *)
Lemma float_mono (x y : Q) : 0 <= x -> x <= y -> Py.float x <= Py.float y.
Proof.
  intros H0 L. destruct (Qeq_dec x 0) as [E|N].
  - rewrite (float_zero x E). apply float_nonneg. lra.
  - assert (Hx : 0 < x).
    { apply Qnot_le_lt. intros L'. apply N. lra. }
    assert (Hy : 0 < y) by lra.
    pose proof (binade_mono x y Hx L) as Hb.
    destruct (Z.eq_dec (Py.binade x) (Py.binade y)) as [Eb|Nb].
    + rewrite (float_pos_eq x Hx), (float_pos_eq y Hy), Eb.
      set (u := 2 ^ (Py.binade y - 52)).
      assert (Hu : 0 < u) by apply pow2_pos.
      apply Qmult_le_compat_r; [|now apply Qlt_le_weak].
      rewrite <- Zle_Qle. apply rhe_mono.
      apply Qmult_le_compat_r; [exact L|].
      apply Qlt_le_weak, Qinv_lt_0_compat, Hu.
    + destruct (float_binade x Hx) as [_ X], (float_binade y Hy) as [Y _].
      assert (P : 2 ^ (Py.binade x + 1) <= 2 ^ Py.binade y) by (apply pow2_le; lia).
      lra.
Qed.

(** The relative error of rounding is at most [2^-53]. *)
Lemma float_upper (q : Q) : 0 <= q -> Py.float q <= q * (1 + eps).
Proof.
  intros H0. destruct (Qeq_dec q 0) as [E|N].
  - rewrite (float_zero q E), E. discriminate.
  - assert (Hq : 0 < q).
    { apply Qnot_le_lt. intros L'. apply N. lra. }
    destruct (binade_spec q Hq) as [B1 _].
    rewrite (float_pos_eq q Hq).
    set (e := Py.binade q) in *. set (u := 2 ^ (e - 52)).
    assert (Hu : 0 < u) by apply pow2_pos.
    pose proof (rhe_upper (q / u)) as R.
    assert (E1 : 2 ^ e == inject_Z (2 ^ 52) * u).
    { unfold u. rewrite pow2_inject by lia. rewrite <- Qpower_plus by discriminate.
      now replace (52 + (e - 52))%Z with e by lia. }
    assert (M : inject_Z (Py.round_half_even (q / u)) * u <= (q / u + (1 # 2)) * u).
    { apply Qmult_le_compat_r; [exact R | now apply Qlt_le_weak]. }
    assert (D : (q / u + (1 # 2)) * u == q + (1 # 2) * u) by (field; lra).
    rewrite D in M. rewrite E1 in B1.
    change (inject_Z (2 ^ 52)) with (4503599627370496 # 1) in B1.
    unfold eps. lra.
Qed.

Lemma pow10_pos (n : nat) : (0 < Py.pow10 n)%Z.
Proof. unfold Py.pow10. apply Z.pow_pos_nonneg; lia. Qed.

Lemma pow10_Qpos (n : nat) : 0 < inject_Z (Py.pow10 n).
Proof.
  replace 0 with (inject_Z 0) by reflexivity. rewrite <- Zlt_Qlt.
  apply pow10_pos.
Qed.

Lemma round_compat (x y : Q) (n : nat) : x == y -> Py.round x n = Py.round y n.
Proof.
  intros E. unfold Py.round.
  rewrite (rhe_compat (x * inject_Z (Py.pow10 n)) (y * inject_Z (Py.pow10 n)));
    [reflexivity | now rewrite E].
Qed.

(** The decimal that [round] passes to [float]. *)
Lemma decimal_nonneg (x : Q) (n : nat) :
  0 <= x ->
  0 <= inject_Z (Py.round_half_even (x * inject_Z (Py.pow10 n)))
       / inject_Z (Py.pow10 n).
Proof.
  intros H. pose proof (pow10_Qpos n) as Hq.
  apply Qle_shift_div_l; [exact Hq|]. rewrite Qmult_0_l.
  replace 0 with (inject_Z 0) by reflexivity. rewrite <- Zle_Qle.
  rewrite <- (rhe_inject 0). apply rhe_mono. change (inject_Z 0) with 0.
  apply Qmult_le_0_compat; [exact H | now apply Qlt_le_weak].
Qed.

Lemma round_mono (x y : Q) (n : nat) :
  0 <= x -> x <= y -> Py.round x n <= Py.round y n.
Proof.
  intros H0 L. unfold Py.round. pose proof (pow10_Qpos n) as Hq.
  apply float_mono; [now apply decimal_nonneg|].
  apply Qmult_le_compat_r.
  - rewrite <- Zle_Qle. apply rhe_mono.
    apply Qmult_le_compat_r; [exact L | now apply Qlt_le_weak].
  - apply Qlt_le_weak, Qinv_lt_0_compat, Hq.
Qed.

Lemma round_zero (n : nat) : Py.round 0 n = 0.
Proof.
  unfold Py.round.
  rewrite (rhe_compat (0 * inject_Z (Py.pow10 n)) (inject_Z 0))
    by (rewrite Qmult_0_l; reflexivity).
  rewrite rhe_inject. apply float_zero. unfold Qdiv. apply Qmult_0_l.
Qed.

Lemma round_nonneg (x : Q) (n : nat) : 0 <= x -> 0 <= Py.round x n.
Proof.
  intros H. unfold Py.round. apply float_nonneg. now apply decimal_nonneg.
Qed.

(** Float operations on numbers that are not negative. *)
Lemma fmul_nonneg (a b : Q) : 0 <= a -> 0 <= b -> 0 <= Py.fmul a b.
Proof. intros. apply float_nonneg. now apply Qmult_le_0_compat. Qed.

Lemma fadd_nonneg (a b : Q) : 0 <= a -> 0 <= b -> 0 <= Py.fadd a b.
Proof. intros. apply float_nonneg. lra. Qed.

Lemma fadd_mono (a b c d : Q) :
  0 <= a -> 0 <= b -> a <= c -> b <= d -> Py.fadd a b <= Py.fadd c d.
Proof. intros. apply float_mono; lra. Qed.

Lemma fdiv_nonneg (a b : Q) : 0 <= a -> 0 < b -> 0 <= Py.fdiv a b.
Proof.
  intros Ha Hb. apply float_nonneg. apply Qle_shift_div_l; [exact Hb|]. lra.
Qed.

Lemma of_int_pos (n : Z) : (1 <= n)%Z -> 1 <= Py.of_int n.
Proof.
  intros H. unfold Py.of_int.
  change 1 with (Py.float 1) at 1. apply float_mono; [discriminate|].
  change 1 with (inject_Z 1). now rewrite <- Zle_Qle.
Qed.

Lemma of_int_mono (a b : Z) :
  (0 <= a <= b)%Z -> 0 <= Py.of_int a <= Py.of_int b.
Proof.
  intros [H0 H1]. unfold Py.of_int.
  assert (Ha : 0 <= inject_Z a).
  { change 0 with (inject_Z 0). now rewrite <- Zle_Qle. }
  split; [now apply float_nonneg|].
  apply float_mono; [exact Ha|]. now rewrite <- Zle_Qle.
Qed.
End RoundFacts.

(** ** The percentage property *)

(** C10: [percentage] never raises: it is [0.0] when [total_possible] is
    zero, and [round(total_earned / total_possible * 100, 1)] otherwise. *)
Theorem percentage_total (r : GradingResult) :
  exists q, percentage r = Ret q /\
    ((total_possible r == 0 /\ q = 0)%Q \/
     (~ (total_possible r == 0)%Q /\
      q = Py.round (Py.fmul (Py.fdiv (total_earned r) (total_possible r))
                            (Py.of_int 100)) 1)).
Proof.
  unfold percentage, truediv.
  destruct (Qeq_bool (total_possible r) 0) eqn:E; simpl.
  - exists 0%Q. split; [reflexivity|]. left. split; [|reflexivity].
    now apply Qeq_bool_iff.
  - eexists. split; [reflexivity|]. right. split; [|reflexivity].
    intros H. apply Qeq_bool_iff in H. congruence.
Qed.

(** ** Scoring *)

Section Scoring.
Variables cmp out : list string.

Lemma credit_step_line (acc : Z * Z * string * string) (i : nat) :
  credit_step cmp out acc i =
    let '(passed, fl, fe, fa) := acc in
    if line_matches cmp out i then ((passed + 1)%Z, fl, fe, fa)
    else if (fl =? 0)%Z
         then (passed, Z.of_nat i, trimmed_line cmp i, trimmed_line out i)
         else acc.
Proof.
  assert (T : forall l : list string,
             (if i <? length l then Py.strip (nth i l "") else "")
             = trimmed_line l i).
  { intros l. unfold trimmed_line. destruct (Nat.ltb_spec i (length l)) as [H|H].
    - reflexivity.
    - now rewrite nth_overflow by lia. }
  destruct acc as [[[p fl] fe] fa]. unfold credit_step, line_matches.
  now rewrite !T.
Qed.

(** Once a mismatch is recorded the record stays. *)
Lemma credit_fold_recorded (idxs : list nat) (p fl : Z) (fe fa : string) :
  fl <> 0%Z ->
  fold_left (credit_step cmp out) idxs (p, fl, fe, fa) =
    ((p + Z.of_nat (length (List.filter (line_matches cmp out) idxs)))%Z,
     fl, fe, fa).
Proof.
  intros Hfl. revert p. induction idxs as [|i idxs IH]; intros p;
    cbn [fold_left List.filter].
  - do 3 f_equal. simpl. lia.
  - rewrite credit_step_line.
    destruct (line_matches cmp out i); cbv iota.
    + rewrite IH. do 3 f_equal. simpl length. lia.
    + destruct (Z.eqb_spec fl 0) as [E|_]; [contradiction|]. apply IH.
Qed.

Lemma credit_fold (idxs : list nat) (p : Z) :
  Forall (fun i => 1 <= i) idxs ->
  fold_left (credit_step cmp out) idxs (p, 0%Z, "", "") =
    let n := (p + Z.of_nat (length (List.filter (line_matches cmp out) idxs)))%Z in
    match List.find (fun i => negb (line_matches cmp out i)) idxs with
    | Some i => (n, Z.of_nat i, trimmed_line cmp i, trimmed_line out i)
    | None => (n, 0%Z, "", "")
    end.
Proof.
  intros Hpos. revert p. induction Hpos as [|i idxs Hi Hpos IH]; intros p;
    cbn [fold_left List.filter List.find].
  - cbv zeta. do 3 f_equal. simpl. lia.
  - rewrite credit_step_line.
    destruct (line_matches cmp out i); cbn [negb]; cbv iota.
    + rewrite IH. cbv zeta. destruct (List.find _ idxs); do 3 f_equal; simpl length; lia.
    + change (0 =? 0)%Z with true. cbv iota.
      rewrite credit_fold_recorded by lia. reflexivity.
Qed.

End Scoring.

Lemma find_seq_first (f : nat -> bool) (n a i : nat) :
  List.find f (seq a n) = Some i ->
  a <= i < a + n /\ f i = true /\ forall j, a <= j < i -> f j = false.
Proof.
  revert a. induction n as [|n IH]; intros a; simpl; [discriminate|].
  destruct (f a) eqn:Fa.
  - intros [= <-]. repeat split; [lia | lia | exact Fa | intros j Hj; lia].
  - intros H. destruct (IH _ H) as (Hr & Hf & Hfirst).
    repeat split; [lia | lia | exact Hf |].
    intros j Hj. destruct (Nat.eq_dec j a) as [-> | Hne]; [exact Fa|].
    apply Hfirst. lia.
Qed.

Lemma find_seq_none (f : nat -> bool) (n a : nat) :
  List.find f (seq a n) = None -> forall j, a <= j < a + n -> f j = false.
Proof.
  intros H j Hj. apply (find_none f _ H). apply in_seq. lia.
Qed.

Lemma filter_length_le {A} (f : A -> bool) (l : list A) :
  length (List.filter f l) <= length l.
Proof.
  induction l as [|x l IH]; simpl; [lia|]. destruct (f x); simpl; lia.
Qed.

(** The result for two readable traces when the comparison trace has a
    header and at least one more line. *)
Lemma partial_credit_text (cmp_text out_text : string) (max_pts : Q) :
  let cmp := Py.splitlines cmp_text in
  let out := Py.splitlines out_text in
  2 <= length cmp ->
  exists fl fe fa,
    let total := (Z.of_nat (length cmp) - 1)%Z in
    let passed := matching_lines cmp out in
    _partial_credit (Text cmp_text) (Text out_text) max_pts =
      (Py.round (Py.fdiv (Py.fmul max_pts (Py.of_int passed))
                         (Py.of_int total)) 2,
       passed, total, fl, fe, fa) /\
    (0 <= passed <= total)%Z /\
    ((fl = 0%Z /\ fe = "" /\ fa = "" /\
      forall j, 1 <= j < length cmp -> line_matches cmp out j = true) \/
     (exists i, 1 <= i < length cmp /\ fl = Z.of_nat i /\
        fe = trimmed_line cmp i /\ fa = trimmed_line out i /\
        line_matches cmp out i = false /\
        forall j, 1 <= j < i -> line_matches cmp out j = true)).
Proof.
  intros cmp out Hlen.
  unfold _partial_credit. fold cmp out.
  destruct (Nat.ltb_spec (length cmp) 2) as [H|_]; [lia|].
  rewrite credit_fold by (apply List.Forall_forall; intros i Hi; apply in_seq in Hi; lia).
  assert (Htot : ((Z.of_nat (length cmp) - 1 =? 0)%Z = false))
    by (apply Z.eqb_neq; lia).
  assert (Hcnt : (0 <= matching_lines cmp out <= Z.of_nat (length cmp) - 1)%Z).
  { unfold matching_lines.
    pose proof (filter_length_le (line_matches cmp out) (seq 1 (length cmp - 1))) as L.
    rewrite length_seq in L. lia. }
  destruct (List.find _ _) as [i|] eqn:F; cbv zeta; rewrite Htot; simpl negb; cbv iota.
  - destruct (find_seq_first _ _ _ _ F) as (Hr & Hf & Hfirst).
    exists (Z.of_nat i), (trimmed_line cmp i), (trimmed_line out i).
    split; [reflexivity|]. split; [exact Hcnt|]. right. exists i.
    repeat split; try lia.
    + now apply negb_true_iff in Hf.
    + intros j Hj. specialize (Hfirst j Hj). now apply negb_false_iff in Hfirst.
  - exists 0%Z, "", "". split; [reflexivity|]. split; [exact Hcnt|]. left.
    repeat split. intros j Hj.
    pose proof (find_seq_none _ _ _ F j) as Hn. apply negb_false_iff, Hn. lia.
Qed.

(** C2 (as amended): with a readable comparison trace of at least two lines
    and a readable output trace, line 0 is skipped, [total] is the line
    count minus one, [passed] counts the lines that agree after trimming
    (an absent output line counts as empty), the points are
    [round(max_pts * passed / total, 2)] in float arithmetic, and only the
    first mismatch is recorded, with both trimmed lines; when a trace file
    is missing or cannot be read, or the comparison trace has fewer than two
    lines, every field is zero. *)
Theorem partial_credit_spec (cmp_file out_file : file_state) (max_pts : Q) :
  (forall cmp_text out_text,
     cmp_file = Text cmp_text -> out_file = Text out_text ->
     let cmp := Py.splitlines cmp_text in
     let out := Py.splitlines out_text in
     2 <= length cmp ->
     exists fl fe fa,
       let total := (Z.of_nat (length cmp) - 1)%Z in
       let passed := matching_lines cmp out in
       _partial_credit cmp_file out_file max_pts =
         (Py.round (Py.fdiv (Py.fmul max_pts (Py.of_int passed))
                            (Py.of_int total)) 2,
          passed, total, fl, fe, fa) /\
       (0 <= passed <= total)%Z /\
       ((fl = 0%Z /\ fe = "" /\ fa = "" /\
         forall j, 1 <= j < length cmp -> line_matches cmp out j = true) \/
        (exists i, 1 <= i < length cmp /\ fl = Z.of_nat i /\
           fe = trimmed_line cmp i /\ fa = trimmed_line out i /\
           line_matches cmp out i = false /\
           forall j, 1 <= j < i -> line_matches cmp out j = true))) /\
  ((cmp_file = Missing \/ out_file = Missing \/
    (exists e, cmp_file = Unreadable e) \/
    (exists e, out_file = Unreadable e) \/
    exists cmp_text, cmp_file = Text cmp_text /\
                     length (Py.splitlines cmp_text) < 2) ->
   _partial_credit cmp_file out_file max_pts = (0%Q, 0%Z, 0%Z, 0%Z, "", "")).
Proof.
  split.
  - intros cmp_text out_text -> ->. apply partial_credit_text.
  - intros [-> | [-> | [[e ->] | [[e ->] | (t & -> & Hlen)]]]].
    + now destruct out_file.
    + now destruct cmp_file.
    + now destruct out_file.
    + now destruct cmp_file.
    + unfold _partial_credit. destruct out_file; try reflexivity.
      destruct (Nat.ltb_spec (length (Py.splitlines t)) 2); [reflexivity | lia].
Qed.

(** C2, as first stated, fails: an output trace that exists but cannot be
    read, for instance because it is not valid UTF-8, gives zero on every
    field although the comparison trace has a header and four more lines. *)
Lemma unreadable_output_scores_zero :
  length (Py.splitlines cmp_trace) = 5 /\
  _partial_credit
    (Text cmp_trace)
    (Unreadable (Exception "'utf-8' codec can't decode byte 0xff in position 0: invalid start byte"))
    (Py.float (80 # 100))
  = (0%Q, 0%Z, 0%Z, 0%Z, "", "").
Proof. split; reflexivity. Qed.

(** The scoring example of the design document: four tests, three pass,
    0.80 points at most. *)
Example partial_credit_example :
  _partial_credit (Text cmp_trace) (Text out_trace) (Py.float (80 # 100))
  = (Py.float (60 # 100), 3%Z, 4%Z, 3%Z, "| 2 | 0 |", "| 2 | 1 |").
Proof. vm_compute. reflexivity. Qed.

(** The program's value for 0.65 points and one of two tests is the float
    0.33, although the exact quotient is 0.325. *)
Example partial_credit_rounds_floats :
  Py.round (Py.fdiv (Py.fmul (Py.float (65 # 100)) (Py.of_int 1))
                    (Py.of_int 2)) 2
  = Py.float (33 # 100).
Proof. vm_compute. reflexivity. Qed.

(** ** Effort credit of the runner *)

(** C3: a run that completes with neither marker in its output is graded
    [syntax], a run that times out is graded [timeout]; the points are
    [round(mx * 0.15, 2)], respectively [round(mx * 0.1, 2)], in float
    arithmetic when the source shows work, and zero otherwise. *)
Theorem run_one_effort_credit (env : Env) (chip : string)
    (matched : gmap string string) (project : Cfg.Project) (src : string)
    (w : world) :
  let ext := Cfg.file_ext (Cfg.raw project) in
  let mx := default 1%Q (Cfg.chip_points project !! chip) in
  let work := _has_work env src ext in
  let run := run_sandbox env (Cfg.simulator_path project) chip matched in
  matched !! chip = Some src ->
  String.eqb ext ".hdl" && _check_builtin env src = false ->
  tst_exists env (Cfg.test_path project) chip = Ret true ->
  mkdtemp_error env ("c_" +:+ chip +:+ "_") = None ->
  (forall stdout stderr cmp_file out_file,
     run = Completed stdout stderr cmp_file out_file ->
     success_marker (Py.strip (stdout +:+ Py.LF +:+ stderr)) = false ->
     failure_marker (Py.strip (stdout +:+ Py.LF +:+ stderr)) = false ->
     exists cr, (_run_one env chip matched project w).1 = Ret cr /\
       error_type cr = "syntax" /\ max_points cr = mx /\
       points cr = if work
                   then Py.round (Py.fmul mx (Py.float (15 # 100))) 2
                   else 0%Q) /\
  (run = BodyRaises TimeoutExpired ->
     exists cr, (_run_one env chip matched project w).1 = Ret cr /\
       error_type cr = "timeout" /\ max_points cr = mx /\
       points cr = if work
                   then Py.round (Py.fmul mx (Py.float (1 # 10))) 2
                   else 0%Q).
Proof.
  intros ext mx work run Hm Hb Ht Hd.
  assert (Hrun : (_run_one env chip matched project w).1 =
                 Ret (run_in_sandbox env chip matched project mx work)).
  { unfold _run_one. rewrite Hm. fold ext. rewrite Hb. rewrite Ht.
    unfold bind, mkdtemp, try_finally, ret. rewrite Hd. reflexivity. }
  split.
  - intros stdout stderr cf outf Hr Hs Hf. eexists. split; [exact Hrun|].
    unfold run_in_sandbox. fold run. rewrite Hr, Hs, Hf.
    destruct work; simpl; repeat split; reflexivity.
  - intros Hr. eexists. split; [exact Hrun|].
    unfold run_in_sandbox. fold run. rewrite Hr.
    destruct work; simpl; repeat split; reflexivity.
Qed.

(** ** The naming check *)

Lemma projects_zero : Cfg.PROJECTS !! 0%Z = None.
Proof. reflexivity. Qed.

Lemma get_project_some (active : Z) (n : Z) (rp : Cfg.RawProject) :
  Cfg.PROJECTS !! n = Some rp ->
  exists p, Cfg.get_project active (Some n) = Ret p /\
            Cfg.raw p = rp /\ Cfg.number p = n.
Proof.
  intros H. unfold Cfg.get_project.
  destruct (Z.eqb_spec n 0) as [-> | _].
  - rewrite projects_zero in H. discriminate.
  - rewrite H. eexists. repeat split.
Qed.

Lemma get_project_ret (active : Z) (pn : option Z) (p : Cfg.Project) :
  Cfg.get_project active pn = Ret p ->
  Cfg.PROJECTS !! Cfg.number p = Some (Cfg.raw p) /\
  Cfg.chip_names p = map fst (Cfg.chips (Cfg.raw p)) /\
  Cfg.chip_points p = Cfg.points_dict (Cfg.chips (Cfg.raw p)) /\
  Cfg.total_points p = Py.round (Cfg.sum (map snd (Cfg.chips (Cfg.raw p)))) 2.
Proof.
  unfold Cfg.get_project.
  destruct (Cfg.PROJECTS !! _) as [rp|] eqn:E; [|discriminate].
  intros [= <-]. simpl. auto.
Qed.

Lemma expected_zip_name_nonempty (student_name : string) (n : Z) :
  expected_zip_name student_name n <> "".
Proof.
  unfold expected_zip_name, hw_tag. destruct (name_tokens student_name).
  repeat destruct (_ =? _)%Z; discriminate.
Qed.

(** The flag of the naming check tells whether the stem is the canonical
    name. *)
Lemma check_zip_naming_flag (active : Z) (filename student_name : string)
    (n : Z) (z : ZipNaming) :
  check_zip_naming active filename student_name n = Ret z ->
  is_correct z =
    String.eqb (zip_stem filename) (expected_zip_name student_name n).
Proof.
  unfold check_zip_naming.
  destruct (Cfg.get_project active (Some n)) as [p|e]; [|discriminate].
  destruct (String.eqb_spec filename "") as [-> | Hne].
  - intros [= <-]. simpl is_correct. symmetry.
    apply String.eqb_neq. intros E. symmetry in E.
    now apply expected_zip_name_nonempty in E.
  - destruct (name_tokens student_name) as [first last].
    destruct (String.eqb (zip_stem filename) _) eqn:E;
      intros [= <-]; reflexivity.
Qed.

(** The naming check raises only for an undefined project. *)
Lemma check_zip_naming_defined (active : Z) (filename student_name : string)
    (n : Z) (rp : Cfg.RawProject) :
  Cfg.PROJECTS !! n = Some rp ->
  exists z, check_zip_naming active filename student_name n = Ret z.
Proof.
  intros H. destruct (get_project_some active n rp H) as (p & Hp & _).
  unfold check_zip_naming. rewrite Hp.
  destruct (String.eqb filename ""); [eauto|].
  destruct (name_tokens student_name) as [first last].
  destruct (String.eqb (zip_stem filename) _); eauto.
Qed.

(** A token splits into itself. *)
Lemma lstrip_no_space (t : string) : no_space t = true -> Py.lstrip t = t.
Proof.
  destruct t as [|c r]; simpl; [reflexivity|].
  intros H. apply andb_true_iff in H as [H _].
  apply negb_true_iff in H. now rewrite H.
Qed.

Lemma rstrip_no_space (t : string) : no_space t = true -> Py.rstrip t = t.
Proof.
  induction t as [|c r IH]; simpl; [reflexivity|].
  intros H. apply andb_true_iff in H as [Hc Hr]. apply negb_true_iff in Hc.
  rewrite (IH Hr), Hc. now destruct r.
Qed.

Lemma split_ws_go_no_space (t : string) (cur : list ascii) :
  no_space t = true -> cur <> [] \/ t <> "" ->
  Py.split_ws_go cur t = [Py.rev_to_string cur t].
Proof.
  revert cur. induction t as [|c r IH]; intros cur Hs Hne; simpl.
  - destruct cur; [destruct Hne; contradiction | reflexivity].
  - simpl in Hs. apply andb_true_iff in Hs as [Hc Hr]. apply negb_true_iff in Hc.
    rewrite Hc. rewrite IH; [reflexivity | exact Hr | left; discriminate].
Qed.

Lemma split_token (t : string) :
  is_token t = true -> Py.split (Py.strip t) = [t].
Proof.
  unfold is_token. intros H. apply andb_true_iff in H as [Hne Hs].
  apply negb_true_iff, String.eqb_neq in Hne.
  unfold Py.strip, Py.split. rewrite lstrip_no_space, rstrip_no_space by exact Hs.
  rewrite split_ws_go_no_space; [reflexivity | exact Hs | now right].
Qed.

(** C8 (as amended): a display name of a single token gives [first] that
    token and [last] the empty string, so the canonical name ends in an
    underscore; a name without tokens gives the placeholder [Unknown],
    [Student]; the flag is true exactly when the file name with [.zip] cut
    is the canonical name. *)
Theorem zip_naming_canonical (active : Z) (filename student_name : string)
    (n : Z) :
  (forall t, Py.split (Py.strip student_name) = [t] ->
     name_tokens student_name = (t, "") /\
     expected_zip_name student_name n = hw_tag n +:+ "_" +:+ t +:+ "_") /\
  (is_token student_name = true ->
     name_tokens student_name = (student_name, "") /\
     expected_zip_name student_name n
     = hw_tag n +:+ "_" +:+ student_name +:+ "_") /\
  (Py.split (Py.strip student_name) = [] ->
     name_tokens student_name = ("Unknown", "Student") /\
     expected_zip_name student_name n = hw_tag n +:+ "_Unknown_Student") /\
  (forall z, check_zip_naming active filename student_name n = Ret z ->
     (is_correct z = true <->
      zip_stem filename = expected_zip_name student_name n)).
Proof.
  split; [|split; [|split]].
  - intros t Ht. unfold expected_zip_name, name_tokens. rewrite Ht.
    split; reflexivity.
  - intros Ht. apply split_token in Ht.
    unfold expected_zip_name, name_tokens. rewrite Ht. split; reflexivity.
  - intros Ht. unfold expected_zip_name, name_tokens. rewrite Ht.
    split; reflexivity.
  - intros z Hz. rewrite (check_zip_naming_flag _ _ _ _ _ Hz).
    apply String.eqb_eq.
Qed.

(** C8, as first stated, fails: for the one-token name [Alice] the archive
    named with [first = last = Alice] is not the canonical one. *)
Lemma single_token_last_is_empty :
  expected_zip_name "Alice" 1 = "HW1_Gates_Alice_" /\
  check_zip_naming 1 "HW1_Gates_Alice_Alice.zip" "Alice" 1 =
    Ret {| original_filename := "HW1_Gates_Alice_Alice.zip";
           is_correct := false;
           expected_pattern := "HW1_Gates_Alice_.zip";
           zip_issue := "Zip named 'HW1_Gates_Alice_Alice.zip' -- should be 'HW1_Gates_Alice_.zip'" |}.
Proof. split; reflexivity. Qed.

(** The canonical name for the one-token display name [Alice]. *)
Lemma zip_naming_canonical_witness :
  is_token "Alice" = true /\
  name_tokens "Alice" = ("Alice", "") /\
  expected_zip_name "Alice" 1 = hw_tag 1 +:+ "_" +:+ "Alice" +:+ "_".
Proof.
  split; [reflexivity|].
  apply (proj1 (proj2 (zip_naming_canonical 1 "HW1_Gates_Alice_.zip" "Alice" 1))).
  reflexivity.
Defined.

(** ** The naming check and the score *)

(** C9: two runs that differ only in the archive file name end in the same
    state and either raise the same exception or return results with the
    same chips (hence the same points), [total_earned] and
    [total_possible]. *)
Theorem naming_does_not_affect_score (env : Env)
    (zip_path student_name : string) (user_id : Z) (project_num : option Z)
    (f1 f2 : string) (w : world) :
  let r1 := grade_student env zip_path student_name user_id project_num f1 w in
  let r2 := grade_student env zip_path student_name user_id project_num f2 w in
  r1.2 = r2.2 /\
  match r1.1, r2.1 with
  | Ret g1, Ret g2 =>
      chips g1 = chips g2 /\
      map points (chips g1) = map points (chips g2) /\
      total_earned g1 = total_earned g2 /\
      total_possible g1 = total_possible g2
  | Raise e1, Raise e2 => e1 = e2
  | _, _ => False
  end.
Proof.
  cbv zeta. unfold grade_student, bind, lift.
  destruct (Cfg.get_project (ACTIVE_PROJECT env) project_num) as [p|e] eqn:Hp;
    [|simpl; auto].
  destruct (get_project_ret _ _ _ Hp) as (Hdef & _).
  destruct (_extract_zip env zip_path _ w) as [[[tmp raw_found]|e] w1];
    [|simpl; auto].
  unfold try_finally, bind, lift.
  destruct (check_zip_naming_defined (ACTIVE_PROJECT env) f1 student_name _ _ Hdef)
    as [z1 ->].
  destruct (check_zip_naming_defined (ACTIVE_PROJECT env) f2 student_name _ _ Hdef)
    as [z2 ->].
  destruct raw_found as [|kv raw_found].
  - destruct (missing_chips _ _ _) as [rs|e]; simpl; auto.
  - destruct (_match_files _ _ _) as [[matched fmatches] extra].
    destruct (run_chips env matched p _ _ w1) as [[ran|e] w2]; simpl; auto.
Qed.

(** ** Exceptions and temporary directories *)

Lemma mkdtemp_rmtree (w : world) : rmtree (fresh w) ({[fresh w]} ∪ w) = w.
Proof.
  unfold rmtree. pose proof (is_fresh w) as Hf.
  apply set_eq. intros x.
  rewrite elem_of_difference, elem_of_union, elem_of_singleton.
  split; [tauto|]. intros Hx. split; [auto | congruence].
Qed.

(** A chip run leaves no directory behind, and raises only when the check
    for its test script raises or its sandbox cannot be created. *)
Lemma run_one_world (env : Env) (chip : string) (matched : gmap string string)
    (project : Cfg.Project) (w : world) :
  (_run_one env chip matched project w).2 = w /\
  forall e, (_run_one env chip matched project w).1 = Raise e ->
            tst_exists env (Cfg.test_path project) chip = Raise e \/
            mkdtemp_error env ("c_" +:+ chip +:+ "_") = Some e.
Proof.
  unfold _run_one.
  destruct (matched !! chip) as [src|]; [|split; [reflexivity | discriminate]].
  destruct (_ && _); [split; [reflexivity | discriminate]|].
  destruct (tst_exists env _ chip) as [[|]|e0];
    [|split; [reflexivity | discriminate]
     |split; [reflexivity | intros e [= <-]; now left]].
  unfold bind, mkdtemp, try_finally, ret.
  destruct (mkdtemp_error env _) as [e'|].
  - split; [reflexivity|]. intros e [= <-]. now right.
  - split; [apply mkdtemp_rmtree | discriminate].
Qed.

Lemma run_chips_world (env : Env) (matched : gmap string string)
    (project : Cfg.Project) (cs : list string) (acc : list ChipResult * Q)
    (w : world) :
  (run_chips env matched project cs acc w).2 = w /\
  forall e, (run_chips env matched project cs acc w).1 = Raise e ->
            exists chip, In chip cs /\
              (tst_exists env (Cfg.test_path project) chip = Raise e \/
               mkdtemp_error env ("c_" +:+ chip +:+ "_") = Some e).
Proof.
  revert acc. induction cs as [|c cs IH]; intros acc; simpl.
  - split; [reflexivity | discriminate].
  - unfold bind.
    destruct (run_one_world env c matched project w) as [Hw He].
    destruct (_run_one env c matched project w) as [[cr|e] w1]; simpl in *; subst w1.
    + destruct (IH (acc.1 ++ [cr], Py.fadd acc.2 (points cr))) as [IHw IHe].
      split; [exact IHw|]. intros e Hr. destruct (IHe e Hr) as (chip & Hin & Hm).
      exists chip. auto.
    + split; [reflexivity|]. intros e' [= <-]. exists c. auto.
Qed.

Lemma points_dict_lookup (cs : list (string * Q)) (m : gmap string Q)
    (c : string) :
  In c (map fst cs) \/ is_Some (m !! c) ->
  is_Some (fold_left (fun m c => <[c.1 := c.2]> m) cs m !! c).
Proof.
  revert m. induction cs as [|[k v] cs IH]; intros m; simpl.
  - intros [H | H]; [destruct H | exact H].
  - intros H. apply IH.
    destruct (decide (k = c)) as [-> | Hne].
    + right. rewrite lookup_insert_eq. eauto.
    + destruct H as [[H | H] | H]; [congruence | auto |].
      right. now rewrite lookup_insert_ne.
Qed.

Lemma missing_chips_ret (pts : gmap string Q) (ext : string)
    (cs : list string) :
  Forall (fun c => is_Some (pts !! c)) cs ->
  exists rs, missing_chips pts ext cs = Ret rs /\
             Forall (fun r => points r = 0%Q /\ is_Some (pts !! name r)
                              /\ pts !! name r = Some (max_points r)) rs /\
             map name rs = cs.
Proof.
  induction 1 as [|c cs [mx Hc] _ (rs & Hr & Hrs & Hn)]; simpl.
  - exists []. auto.
  - rewrite Hc, Hr. eexists. split; [reflexivity|]. split.
    + constructor; [|exact Hrs]. simpl. rewrite Hc. eauto.
    + simpl. now rewrite Hn.
Qed.

Lemma chip_names_have_points (active : Z) (pn : option Z) (p : Cfg.Project) :
  Cfg.get_project active pn = Ret p ->
  Forall (fun c => is_Some (Cfg.chip_points p !! c)) (Cfg.chip_names p).
Proof.
  intros H. destruct (get_project_ret _ _ _ H) as (_ & -> & -> & _).
  apply List.Forall_forall. intros c Hc. apply points_dict_lookup. now left.
Qed.

Lemma missing_chips_shape (pts : gmap string Q) (ext : string)
    (cs : list string) :
  Forall (fun c => is_Some (pts !! c)) cs ->
  exists rs, missing_chips pts ext cs = Ret rs /\
             map name rs = cs /\
             Forall (fun c => passed c = false /\ points c = 0%Q /\
                              error_type c = "missing" /\
                              error_msg c = "No " +:+ ext +:+ " files in submission")
                    rs.
Proof.
  induction 1 as [|c cs [mx Hc] _ (rs & Hr & Hn & Hrs)]; simpl.
  - exists []. auto.
  - rewrite Hc, Hr. eexists. split; [reflexivity|]. split.
    + simpl. now rewrite Hn.
    + constructor; [|exact Hrs]. simpl. auto.
Qed.

(** When a chip run raises, the run phase raises. *)
Lemma run_chips_raises (env : Env) (matched : gmap string string)
    (project : Cfg.Project) (cs : list string) (acc : list ChipResult * Q)
    (w : world) (c : string) (e : exn) :
  In c cs -> (_run_one env c matched project w).1 = Raise e ->
  exists e', (run_chips env matched project cs acc w).1 = Raise e'.
Proof.
  revert acc. induction cs as [|x cs IH]; intros acc Hin Hr; [destruct Hin|].
  simpl. unfold bind.
  destruct (run_one_world env x matched project w) as [Hw _].
  destruct (_run_one env x matched project w) as [[cr|e0] w1] eqn:E;
    [|now exists e0].
  simpl in Hw. subst w1. destruct Hin as [-> | Hin].
  - rewrite E in Hr. discriminate.
  - now apply IH.
Qed.

(** A chip run raises when the check for its test script raises, or when
    the script exists and the sandbox cannot be created. *)
Lemma run_one_raises (env : Env) (chip : string)
    (matched : gmap string string) (project : Cfg.Project) (w : world)
    (src : string) (e : exn) :
  matched !! chip = Some src ->
  String.eqb (Cfg.file_ext (Cfg.raw project)) ".hdl"
    && _check_builtin env src = false ->
  tst_exists env (Cfg.test_path project) chip = Raise e \/
  (tst_exists env (Cfg.test_path project) chip = Ret true /\
   mkdtemp_error env ("c_" +:+ chip +:+ "_") = Some e) ->
  (_run_one env chip matched project w).1 = Raise e.
Proof.
  intros Hm Hb H. unfold _run_one. rewrite Hm, Hb.
  destruct H as [-> | [-> Hd]]; [reflexivity|].
  unfold bind, mkdtemp. now rewrite Hd.
Qed.

(** C6 (as amended): an exception other than a timeout raised by the
    sandboxed run of a chip is caught and gives that chip zero points with
    category [internal], and a corrupt archive gives the result in which
    every chip is missing; an exception of the project lookup, of the
    archive extraction, of the creation of a temporary directory or of the
    check for a chip's test script is propagated by [grade_student], and it
    raises no other. *)
Theorem grade_student_exceptions (env : Env) (zip_path student_name : string)
    (user_id : Z) (project_num : option Z) (zip_filename : string)
    (w : world) :
  let run :=
    grade_student env zip_path student_name user_id project_num zip_filename w
  in
  (forall e, run.1 = Raise e ->
     Cfg.get_project (ACTIVE_PROJECT env) project_num = Raise e \/
     mkdtemp_error env "n2t_" = Some e \/
     open_zip env zip_path = ExtractError e \/
     exists p chip,
       Cfg.get_project (ACTIVE_PROJECT env) project_num = Ret p /\
       In chip (Cfg.chip_names p) /\
       (tst_exists env (Cfg.test_path p) chip = Raise e \/
        mkdtemp_error env ("c_" +:+ chip +:+ "_") = Some e)) /\
  (forall e, Cfg.get_project (ACTIVE_PROJECT env) project_num = Raise e ->
     run.1 = Raise e) /\
  (forall p e, Cfg.get_project (ACTIVE_PROJECT env) project_num = Ret p ->
     mkdtemp_error env "n2t_" = Some e ->
     run.1 = Raise e) /\
  (forall p e, Cfg.get_project (ACTIVE_PROJECT env) project_num = Ret p ->
     mkdtemp_error env "n2t_" = None ->
     open_zip env zip_path = ExtractError e ->
     run.1 = Raise e) /\
  (forall p, Cfg.get_project (ACTIVE_PROJECT env) project_num = Ret p ->
     mkdtemp_error env "n2t_" = None ->
     open_zip env zip_path = BadZipFile ->
     exists r, run = (Ret r, w) /\ total_earned r = 0%Q /\
       map name (chips r) = Cfg.chip_names p /\
       Forall (fun c => passed c = false /\ points c = 0%Q /\
                        error_type c = "missing") (chips r)) /\
  (forall p t chip e,
     Cfg.get_project (ACTIVE_PROJECT env) project_num = Ret p ->
     mkdtemp_error env "n2t_" = None ->
     open_zip env zip_path = Extracted t ->
     let ext := Cfg.file_ext (Cfg.raw p) in
     let found := collect_found ext (walk (fresh w) t) in
     let matched := (_match_files found (Cfg.chip_names p) ext).1.1 in
     found <> [] -> In chip (Cfg.chip_names p) ->
     (_run_one env chip matched p ({[fresh w]} ∪ w)).1 = Raise e ->
     exists e', run.1 = Raise e') /\
  (forall chip matched project w0 src e,
     matched !! chip = Some src ->
     String.eqb (Cfg.file_ext (Cfg.raw project)) ".hdl"
       && _check_builtin env src = false ->
     tst_exists env (Cfg.test_path project) chip = Raise e \/
     (tst_exists env (Cfg.test_path project) chip = Ret true /\
      mkdtemp_error env ("c_" +:+ chip +:+ "_") = Some e) ->
     (_run_one env chip matched project w0).1 = Raise e) /\
  (forall chip matched project mx work e,
     run_sandbox env (Cfg.simulator_path project) chip matched = BodyRaises e ->
     e <> TimeoutExpired ->
     run_in_sandbox env chip matched project mx work =
       chip_result chip false 0 mx "internal" (Py.take_str 150 (exn_str e))).
Proof.
  cbv zeta. unfold grade_student, bind, lift.
  split; [|split; [|split; [|split; [|split; [|split; [|split]]]]]].
  - intros e.
    destruct (Cfg.get_project (ACTIVE_PROJECT env) project_num) as [p|e0] eqn:Hp;
      [|intros [= <-]; auto].
    destruct (get_project_ret _ _ _ Hp) as (Hdef & _).
    unfold _extract_zip, bind, mkdtemp.
    destruct (mkdtemp_error env "n2t_") as [e1|]; [intros [= <-]; auto|].
    destruct (open_zip env zip_path) as [|e1|t]; unfold ret, raise;
      [|intros [= <-]; auto|];
      unfold try_finally, bind, lift;
      destruct (check_zip_naming_defined (ACTIVE_PROJECT env) zip_filename
                  student_name _ _ Hdef) as [z ->].
    + destruct (missing_chips_ret _ (Cfg.file_ext (Cfg.raw p)) _
                  (chip_names_have_points _ _ _ Hp)) as (rs & -> & _).
      discriminate.
    + destruct (collect_found _ _) as [|kv fd].
      * destruct (missing_chips_ret _ (Cfg.file_ext (Cfg.raw p)) _
                    (chip_names_have_points _ _ _ Hp)) as (rs & -> & _).
        discriminate.
      * destruct (_match_files _ _ _) as [[matched fmatches] extra].
        match goal with
        | |- context [run_chips ?a ?b ?c ?d ?f ?g] =>
            destruct (run_chips_world a b c d f g) as [_ He];
            destruct (run_chips a b c d f g) as [[ran|e2] w2]
        end; [discriminate|].
        intros [= <-]. destruct (He e2 eq_refl) as (chip & Hin & Hm).
        right. right. right. exists p, chip. auto.
  - intros e ->. reflexivity.
  - intros p e -> Hd. unfold _extract_zip, bind, mkdtemp. now rewrite Hd.
  - intros p e -> Hd Hz. unfold _extract_zip, bind, mkdtemp, raise.
    now rewrite Hd, Hz.
  - intros p Hp Hd Hz. rewrite Hp.
    destruct (get_project_ret _ _ _ Hp) as (Hdef & _).
    unfold _extract_zip, bind, mkdtemp. rewrite Hd, Hz. unfold ret.
    unfold try_finally, bind, lift.
    destruct (check_zip_naming_defined (ACTIVE_PROJECT env) zip_filename
                student_name _ _ Hdef) as [z ->].
    destruct (missing_chips_shape _ (Cfg.file_ext (Cfg.raw p)) _
                (chip_names_have_points _ _ _ Hp)) as (rs & -> & Hn & Hrs).
    unfold ret. eexists. split; [f_equal; apply mkdtemp_rmtree|].
    cbn [total_earned chips]. repeat split; auto.
    eapply Forall_impl; [exact Hrs|]. cbv beta. tauto.
  - intros p t chip e Hp Hd Hz Hne Hin Hr. rewrite Hp.
    destruct (get_project_ret _ _ _ Hp) as (Hdef & _).
    unfold _extract_zip, bind, mkdtemp. rewrite Hd, Hz. unfold ret.
    unfold try_finally, bind, lift.
    destruct (check_zip_naming_defined (ACTIVE_PROJECT env) zip_filename
                student_name _ _ Hdef) as [z ->].
    destruct (collect_found _ _) as [|kv fd]; [contradiction|].
    destruct (_match_files _ _ _) as [[matched fmatches] extra].
    cbn [fst] in Hr.
    destruct (run_chips_raises env matched p (Cfg.chip_names p) ([], 0%Q)
                ({[fresh w]} ∪ w) chip e Hin Hr) as [e' He'].
    exists e'.
    destruct (run_chips env matched p _ _ _) as [[ran|e2] w2];
      [discriminate|]. cbn in He'. cbn. congruence.
  - intros chip matched project w0 src e. apply run_one_raises.
  - intros chip matched project mx work e Hr Hne. unfold run_in_sandbox.
    rewrite Hr. destruct e; [reflexivity | reflexivity | contradiction | reflexivity].
Qed.

(** With an archive that extracts, or that is a bad zip, every temporary
    directory made by the run is gone when it ends, whatever the outcome. *)
Lemma grade_student_cleans_up (env : Env) (zip_path student_name : string)
    (user_id : Z) (project_num : option Z) (zip_filename : string)
    (w : world) :
  (forall e, open_zip env zip_path <> ExtractError e) ->
  (grade_student env zip_path student_name user_id project_num zip_filename w).2
  = w.
Proof.
  intros Hz. unfold grade_student, bind, lift.
  destruct (Cfg.get_project (ACTIVE_PROJECT env) project_num) as [p|e0];
    [|reflexivity].
  unfold _extract_zip, bind, mkdtemp.
  destruct (mkdtemp_error env "n2t_") as [e1|]; [reflexivity|].
  destruct (open_zip env zip_path) as [|e1|t]; unfold ret, raise;
    [|now destruct (Hz e1)|]; unfold try_finally, bind, lift;
    destruct (check_zip_naming _ _ _ _) as [z|e2];
    try apply mkdtemp_rmtree.
  - destruct (missing_chips _ _ _); apply mkdtemp_rmtree.
  - destruct (collect_found _ _) as [|kv fd].
    + destruct (missing_chips _ _ _); apply mkdtemp_rmtree.
    + destruct (_match_files _ _ _) as [[matched fmatches] extra].
      match goal with
      | |- context [run_chips ?a ?b ?c ?d ?f ?g] =>
          destruct (run_chips_world a b c d f g) as [Hw _];
          destruct (run_chips a b c d f g) as [[ran|e2] w2]
      end; simpl in Hw; subst w2; apply mkdtemp_rmtree.
Qed.

(** C7 fails when the extraction raises: the directory that [_extract_zip]
    has just made is still there when [grade_student] raises. *)
Theorem extraction_error_leaks_directory (env : Env)
    (zip_path student_name : string) (user_id : Z) (project_num : option Z)
    (zip_filename : string) (w : world) (p : Cfg.Project) (e : exn) :
  Cfg.get_project (ACTIVE_PROJECT env) project_num = Ret p ->
  mkdtemp_error env "n2t_" = None ->
  open_zip env zip_path = ExtractError e ->
  grade_student env zip_path student_name user_id project_num zip_filename w
  = (Raise e, {[fresh w]} ∪ w) /\ fresh w ∉ w.
Proof.
  intros Hp Hd Hz. split; [|apply is_fresh].
  unfold grade_student, bind, lift. rewrite Hp.
  unfold _extract_zip, bind, mkdtemp, raise. now rewrite Hd, Hz.
Qed.

(** ** The totals of a grading result *)

Lemma projects_ok (n : Z) (rp : Cfg.RawProject) :
  Cfg.PROJECTS !! n = Some rp -> project_ok rp = true.
Proof.
  intros H. apply elem_of_list_to_map_2 in H.
  repeat (apply elem_of_cons in H as [H | H];
          [injection H as -> ->; vm_compute; reflexivity|]).
  now apply elem_of_nil in H.
Qed.

Lemma project_ok_chips (rp : Cfg.RawProject) :
  project_ok rp = true ->
  NoDup (map fst (Cfg.chips rp)) /\
  Forall (fun c => cents_ok c.2 = true) (Cfg.chips rp).
Proof.
  unfold project_ok. intros H. apply andb_true_iff in H as [Hn Hc].
  split; [now apply bool_decide_eq_true_1 in Hn|].
  apply List.Forall_forall. intros c Hin.
  rewrite forallb_forall in Hc. exact (Hc c Hin).
Qed.

Lemma cents_ok_nonneg (mx : Q) : cents_ok mx = true -> (0 <= mx)%Q.
Proof.
  unfold cents_ok. intros H. apply andb_true_iff in H as [H _].
  now apply Qle_bool_iff.
Qed.

Section PointsDict.
Local Abbreviation ins := (fun (m : gmap string Q) (c : string * Q) => <[c.1 := c.2]> m).

Lemma points_fold_other (cs : list (string * Q)) (m : gmap string Q) (k : string) :
  ~ In k (map fst cs) -> fold_left ins cs m !! k = m !! k.
Proof.
  revert m. induction cs as [|[k0 v0] cs IH]; intros m Hk; simpl; [reflexivity|].
  simpl in Hk. rewrite IH by tauto. apply lookup_insert_ne. tauto.
Qed.

Lemma points_fold_nodup (cs : list (string * Q)) (m : gmap string Q) :
  NoDup (map fst cs) ->
  Forall (fun c => fold_left ins cs m !! c.1 = Some c.2) cs.
Proof.
  revert m. induction cs as [|[k0 v0] cs IH]; intros m Hnd; simpl; [constructor|].
  simpl in Hnd. apply NoDup_cons in Hnd as [Hk Hnd]. constructor.
  - simpl. rewrite points_fold_other by (now rewrite <- list_elem_of_In).
    apply lookup_insert_eq.
  - apply IH, Hnd.
Qed.

End PointsDict.

Lemma fold_fadd_le (xs ys : list Q) (a b : Q) :
  Forall2 (fun x y => (0 <= x <= y)%Q) xs ys -> (0 <= a <= b)%Q ->
  (0 <= fold_left Py.fadd xs a <= fold_left Py.fadd ys b)%Q.
Proof.
  intros H. revert a b.
  induction H as [|x y xs ys [Hx Hxy] _ IH]; intros a b [Ha Hab]; simpl.
  - auto.
  - apply IH. split; [now apply fadd_nonneg | now apply fadd_mono].
Qed.

Lemma fold_fadd_nonneg (xs : list Q) (a : Q) :
  Forall (fun x => (0 <= x)%Q) xs -> (0 <= a)%Q ->
  (0 <= fold_left Py.fadd xs a)%Q.
Proof.
  intros H. revert a. induction H as [|x xs Hx _ IH]; intros a Ha; simpl.
  - exact Ha.
  - apply IH. now apply fadd_nonneg.
Qed.

Lemma fold_fadd_zeros (xs : list Q) :
  Forall (fun x => x = 0%Q) xs -> fold_left Py.fadd xs 0%Q = 0%Q.
Proof.
  intros H. induction H as [|x xs -> _ IH]; simpl; [reflexivity|].
  exact IH.
Qed.

Lemma run_in_sandbox_name (env : Env) (chip : string)
    (matched : gmap string string) (project : Cfg.Project) (mx : Q)
    (work : bool) :
  let cr := run_in_sandbox env chip matched project mx work in
  name cr = chip /\ max_points cr = mx.
Proof.
  cbv zeta. unfold run_in_sandbox.
  destruct (run_sandbox env _ chip matched) as [e|so se cf outf].
  - destruct e; simpl; auto.
  - destruct (success_marker _).
    + destruct (cmp_fixture env _ chip); simpl; auto.
    + destruct (failure_marker _).
      * destruct (_partial_credit cf outf mx) as [[[[[p ps] tests] fl] fe] fa].
        simpl; auto.
      * destruct work; simpl; auto.
Qed.

Section PointBounds.
Local Open Scope Q_scope.
Variable mx : Q.
Hypothesis mx_ok : cents_ok mx = true.

Lemma mx_nonneg : 0 <= mx.
Proof. now apply cents_ok_nonneg. Qed.

Lemma eps_nonneg : 0 <= eps.
Proof. discriminate. Qed.

(** Rounding to cents takes a number that is at most two rounding errors
    above [mx] to at most [mx]. *)
Lemma fraction_bounds (x : Q) :
  0 <= x -> x <= mx * (1 + eps) * (1 + eps) -> 0 <= Py.round x 2 <= mx.
Proof.
  intros H0 H1. split; [now apply round_nonneg|].
  apply Qle_trans with (Py.round (mx * (1 + eps) * (1 + eps)) 2).
  - now apply round_mono.
  - pose proof mx_ok as H. unfold cents_ok in H.
    apply andb_true_iff in H as [_ H]. now apply Qle_bool_iff.
Qed.

Lemma zero_bounds : 0 <= 0 <= mx.
Proof. split; [apply Qle_refl | exact mx_nonneg]. Qed.

(** The product of [mx] and a factor of at most 1. *)
Lemma fmul_bounds (c : Q) :
  0 <= c -> c <= 1 -> 0 <= Py.fmul mx c <= mx * (1 + eps).
Proof.
  intros H0 H1. pose proof mx_nonneg as Hm. pose proof eps_nonneg as He.
  split; [now apply fmul_nonneg|].
  unfold Py.fmul.
  apply Qle_trans with (mx * c * (1 + eps)).
  - apply float_upper. now apply Qmult_le_0_compat.
  - apply Qmult_le_compat_r; [|lra].
    rewrite <- (Qmult_1_r mx) at 2. rewrite !(Qmult_comm mx).
    now apply Qmult_le_compat_r.
Qed.

(** The share of [mx] for [passed] of [total] tests. *)
Lemma share_bounds (passed total : Q) :
  0 <= passed -> passed <= total -> 0 < total ->
  0 <= Py.fdiv (Py.fmul mx passed) total <= mx * (1 + eps) * (1 + eps).
Proof.
  intros Hp Hpt Ht. pose proof mx_nonneg as Hm. pose proof eps_nonneg as He.
  assert (Hf0 : 0 <= Py.fmul mx passed) by now apply fmul_nonneg.
  assert (Hf1 : Py.fmul mx passed <= mx * passed * (1 + eps)).
  { apply float_upper. now apply Qmult_le_0_compat. }
  split; [now apply fdiv_nonneg|].
  unfold Py.fdiv.
  assert (Hq0 : 0 <= Py.fmul mx passed / total).
  { apply Qle_shift_div_l; [exact Ht|]. now rewrite Qmult_0_l. }
  assert (Hq1 : Py.fmul mx passed / total <= mx * (1 + eps)).
  { apply Qle_shift_div_r; [exact Ht|].
    apply Qle_trans with (mx * passed * (1 + eps)); [exact Hf1|].
    setoid_replace (mx * passed * (1 + eps)) with (mx * (1 + eps) * passed)
      using relation Qeq by ring.
    rewrite !(Qmult_comm (mx * (1 + eps))).
    apply Qmult_le_compat_r; [exact Hpt|].
    apply Qmult_le_0_compat; lra. }
  apply Qle_trans with (Py.fmul mx passed / total * (1 + eps)).
  - now apply float_upper.
  - apply Qmult_le_compat_r; [exact Hq1 | lra].
Qed.

Lemma partial_credit_bounds (cmp_file out_file : file_state) :
  0 <= (_partial_credit cmp_file out_file mx).1.1.1.1.1 <= mx.
Proof.
  destruct cmp_file as [|e|ct]; try apply zero_bounds;
    destruct out_file as [|e'|ot]; try apply zero_bounds.
  destruct (Nat.ltb_spec (length (Py.splitlines ct)) 2) as [Hs|Hl].
  - unfold _partial_credit.
    destruct (Nat.ltb_spec (length (Py.splitlines ct)) 2); [apply zero_bounds | lia].
  - destruct (partial_credit_text ct ot mx Hl) as (fl & fe & fa & -> & Hp & _).
    cbn [fst]. set (passed := matching_lines _ _) in *.
    set (total := (Z.of_nat (length (Py.splitlines ct)) - 1)%Z) in *.
    destruct (of_int_mono passed total) as [Hp0 Hpt]; [lia|].
    pose proof (of_int_pos total ltac:(lia)) as Ht.
    apply fraction_bounds; apply share_bounds; auto; lra.
Qed.

Lemma effort_bounds (c : Q) :
  0 <= c -> c <= 1 -> 0 <= Py.round (Py.fmul mx c) 2 <= mx.
Proof.
  intros H0 H1. destruct (fmul_bounds c H0 H1) as [Ha Hb].
  pose proof mx_nonneg as Hm. pose proof eps_nonneg as He.
  apply fraction_bounds; [exact Ha|].
  apply Qle_trans with (mx * (1 + eps)); [exact Hb|].
  rewrite <- (Qmult_1_r (mx * (1 + eps))) at 1.
  rewrite !(Qmult_comm (mx * (1 + eps))).
  apply Qmult_le_compat_r; [lra|].
  apply Qmult_le_0_compat; lra.
Qed.

Lemma run_in_sandbox_points (env : Env) (chip : string)
    (matched : gmap string string) (project : Cfg.Project) (work : bool) :
  let cr := run_in_sandbox env chip matched project mx work in
  0 <= points cr <= mx.
Proof.
  assert (Hfull : 0 <= mx <= mx) by (split; [exact mx_nonneg | apply Qle_refl]).
  assert (H15 : 0 <= Py.round (Py.fmul mx (Py.float (15 # 100))) 2 <= mx)
    by (apply effort_bounds; apply Qle_bool_iff; vm_compute; reflexivity).
  assert (H10 : 0 <= Py.round (Py.fmul mx (Py.float (1 # 10))) 2 <= mx)
    by (apply effort_bounds; apply Qle_bool_iff; vm_compute; reflexivity).
  cbv zeta. unfold run_in_sandbox.
  destruct (run_sandbox env _ chip matched) as [e|so se cf outf].
  - destruct e, work; simpl; auto using zero_bounds.
  - destruct (success_marker _).
    + destruct (cmp_fixture env _ chip); simpl; auto using zero_bounds.
    + destruct (failure_marker _).
      * pose proof (partial_credit_bounds cf outf) as Hb.
        destruct (_partial_credit cf outf mx) as [[[[[p ps] tests] fl] fe] fa].
        simpl in *. auto.
      * destruct work; simpl; auto using zero_bounds.
Qed.

End PointBounds.

Lemma run_one_points (env : Env) (chip : string) (matched : gmap string string)
    (project : Cfg.Project) (w : world) (cr : ChipResult) :
  (_run_one env chip matched project w).1 = Ret cr ->
  let mx := default 1%Q (Cfg.chip_points project !! chip) in
  name cr = chip /\ max_points cr = mx /\
  (cents_ok mx = true -> (0 <= points cr <= mx)%Q).
Proof.
  cbv zeta. unfold _run_one.
  destruct (matched !! chip) as [src|];
    [|intros [= <-]; simpl; auto using zero_bounds].
  destruct (_ && _); [intros [= <-]; simpl; auto using zero_bounds|].
  destruct (tst_exists env _ chip) as [[|]|e]; [| |discriminate];
    [|intros [= <-]; simpl; auto using zero_bounds].
  unfold bind, mkdtemp, try_finally, ret.
  destruct (mkdtemp_error env _); [discriminate|]. intros [= <-].
  set (mx := default 1%Q _).
  destruct (run_in_sandbox_name env chip matched project mx
              (_has_work env src (Cfg.file_ext (Cfg.raw project)))) as [Hn Hm].
  split; [exact Hn|]. split; [exact Hm|].
  intros H0. now apply run_in_sandbox_points.
Qed.

(** The run phase appends one result per chip, in order, and adds up their
    points from left to right. *)
Lemma run_chips_results (env : Env) (matched : gmap string string)
    (project : Cfg.Project) (cs : list string) (acc : list ChipResult * Q)
    (w w' : world) (ran : list ChipResult * Q) :
  run_chips env matched project cs acc w = (Ret ran, w') ->
  exists rs,
    ran.1 = acc.1 ++ rs /\
    ran.2 = fold_left Py.fadd (map points rs) acc.2 /\
    Forall2 (fun c r => (_run_one env c matched project w).1 = Ret r) cs rs.
Proof.
  revert acc. induction cs as [|c cs IH]; intros acc; simpl.
  - intros [= <- <-]. exists []. rewrite app_nil_r. auto.
  - unfold bind.
    destruct (run_one_world env c matched project w) as [Hw _].
    destruct (_run_one env c matched project w) as [[cr|e] w1] eqn:E;
      [|discriminate].
    simpl in Hw. subst w1. intros H.
    destruct (IH _ H) as (rs & H1 & H2 & H3). exists (cr :: rs).
    simpl in *. rewrite H1, H2, <- app_assoc. repeat split.
    constructor; [now rewrite E | exact H3].
Qed.

(** C1: in every result that [grade_student] returns, [total_earned] is the
    sum of the chips' points rounded to two decimals, it lies between zero
    and [total_possible], and no chip has more points than its maximum. *)
Theorem grading_result_totals (env : Env) (zip_path student_name : string)
    (user_id : Z) (project_num : option Z) (zip_filename : string)
    (w w' : world) (r : GradingResult) :
  grade_student env zip_path student_name user_id project_num zip_filename w
  = (Ret r, w') ->
  total_earned r = Py.round (Cfg.sum (map points (chips r))) 2 /\
  (0 <= total_earned r)%Q /\
  (total_earned r <= total_possible r)%Q /\
  Forall (fun c => (points c <= max_points c)%Q) (chips r).
Proof.
  unfold grade_student, bind, lift.
  destruct (Cfg.get_project (ACTIVE_PROJECT env) project_num) as [p|e0] eqn:Hp;
    [|discriminate].
  destruct (get_project_ret _ _ _ Hp) as (Hdef & Hnames & Hpts & Htot).
  destruct (project_ok_chips _ (projects_ok _ _ Hdef)) as [Hnd Hok].
  pose proof (points_fold_nodup _ ∅ Hnd) as Hlook.
  fold (Cfg.points_dict (Cfg.chips (Cfg.raw p))) in Hlook. rewrite <- Hpts in Hlook.
  (* every chip name has its own table value as maximum *)
  assert (Hmx : Forall2 (fun c v => Cfg.chip_points p !! c = Some v
                                    /\ cents_ok v = true)
                        (Cfg.chip_names p) (map snd (Cfg.chips (Cfg.raw p)))).
  { rewrite Hnames. clear -Hok Hlook.
    induction (Cfg.chips (Cfg.raw p)) as [|[k v] cs IH]; simpl; [constructor|].
    inversion Hok; subst. inversion Hlook; subst. constructor; auto. }
  assert (Hsum0 : (0 <= Cfg.sum (map snd (Cfg.chips (Cfg.raw p))))%Q).
  { apply fold_fadd_nonneg; [|apply Qle_refl].
    clear -Hok. induction Hok as [|c cs H0 _ IH]; simpl; constructor; auto.
    now apply cents_ok_nonneg. }
  destruct (_extract_zip env zip_path _ w) as [[[tmp raw_found]|e] w1];
    [|discriminate].
  unfold try_finally, bind, lift.
  destruct (check_zip_naming _ _ _ _) as [z|e]; [|discriminate].
  destruct raw_found as [|kv raw_found].
  - (* no files: every chip is missing *)
    destruct (missing_chips_ret _ (Cfg.file_ext (Cfg.raw p)) _
                (chip_names_have_points _ _ _ Hp)) as (rs & -> & Hrs & Hn).
    intros [= <- _]. cbn [total_earned total_possible chips].
    assert (Hz : Forall (fun x => x = 0%Q) (map points rs)).
    { clear -Hrs. induction Hrs as [|x l [H _] _ IH]; simpl; constructor; auto. }
    repeat split.
    + unfold Cfg.sum. rewrite (fold_fadd_zeros _ Hz). symmetry. apply round_zero.
    + apply Qle_refl.
    + rewrite Htot, <- (round_zero 2).
      apply round_mono; [apply Qle_refl | exact Hsum0].
    + clear Hz. revert Hmx. rewrite <- Hn. clear -Hrs.
      generalize (map snd (Cfg.chips (Cfg.raw p))) as vs.
      induction Hrs as [|x l (H0 & _ & Hx) _ IH]; intros vs Hmx; [constructor|].
      simpl in Hmx. inversion Hmx as [|? v ? vs' (Hv & Hv0) Hrest]; subst.
      constructor; [|eapply IH; exact Hrest].
      rewrite H0. rewrite Hx in Hv. injection Hv as ->.
      now apply cents_ok_nonneg.
  - destruct (_match_files _ _ _) as [[matched fmatches] extra].
    destruct (run_chips env matched p _ _ w1) as [[ran|e] w2] eqn:Hrun;
      [|discriminate].
    intros [= <- _]. cbn [total_earned total_possible chips].
    destruct (run_chips_results _ _ _ _ _ _ _ _ Hrun) as (rs & -> & H2 & Hall).
    cbn [fst snd app] in *.
    (* each result is bounded by the table value of its chip *)
    assert (Hb : Forall2 (fun r v => max_points r = v /\ (0 <= points r <= v)%Q)
                         rs (map snd (Cfg.chips (Cfg.raw p)))).
    { clear -Hall Hmx. revert Hmx.
      generalize (map snd (Cfg.chips (Cfg.raw p))) as vs.
      induction Hall as [|c cr cs rs Hc _ IH]; intros vs Hmx;
        inversion Hmx as [|? v ? vs' (Hv & Hv0) Hrest]; subst;
        constructor; [|now apply IH].
      destruct (run_one_points _ _ _ _ _ _ Hc) as (_ & Hm & Hbd).
      rewrite Hv in Hm, Hbd. simpl in Hm, Hbd. auto. }
    assert (Hle : Forall2 (fun x y => (0 <= x <= y)%Q)
                          (map points rs) (map snd (Cfg.chips (Cfg.raw p)))).
    { clear -Hb. induction Hb as [|r v rs vs (_ & H) _ IH]; simpl; constructor; auto. }
    destruct (fold_fadd_le _ _ 0%Q 0%Q Hle) as [Hs0 Hs1];
      [split; apply Qle_refl|].
    repeat split.
    + now rewrite H2.
    + rewrite H2. now apply round_nonneg.
    + rewrite H2, Htot. now apply round_mono.
    + clear -Hb. induction Hb as [|r v rs vs (Hm & _ & H) _ IH]; constructor; auto.
      now rewrite Hm.
Qed.

(** Every expected chip gets exactly one result, in the order of the project
    table. *)
Lemma one_result_per_chip (env : Env) (zip_path student_name : string)
    (user_id : Z) (project_num : option Z) (zip_filename : string)
    (w w' : world) (r : GradingResult) (p : Cfg.Project) :
  Cfg.get_project (ACTIVE_PROJECT env) project_num = Ret p ->
  grade_student env zip_path student_name user_id project_num zip_filename w
  = (Ret r, w') ->
  map name (chips r) = Cfg.chip_names p.
Proof.
  intros Hp. unfold grade_student, bind, lift. rewrite Hp.
  destruct (_extract_zip env zip_path _ w) as [[[tmp raw_found]|e] w1];
    [|discriminate].
  unfold try_finally, bind, lift.
  destruct (check_zip_naming _ _ _ _) as [z|e]; [|discriminate].
  destruct raw_found as [|kv raw_found].
  - destruct (missing_chips_ret _ (Cfg.file_ext (Cfg.raw p)) _
                (chip_names_have_points _ _ _ Hp)) as (rs & -> & _ & Hn).
    now intros [= <- _].
  - destruct (_match_files _ _ _) as [[matched fmatches] extra].
    destruct (run_chips env matched p _ _ w1) as [[ran|e] w2] eqn:Hrun;
      [|discriminate].
    intros [= <- _]. cbn [chips].
    destruct (run_chips_results _ _ _ _ _ _ _ _ Hrun) as (rs & -> & _ & Hall).
    cbn [fst app]. clear -Hall.
    induction Hall as [|c cr cs rs Hc _ IH]; simpl; [reflexivity|].
    destruct (run_one_points _ _ _ _ _ _ Hc) as (-> & _). now f_equal.
Qed.


Lemma run_in_sandbox_category (env : Env) (chip : string)
    (matched : gmap string string) (project : Cfg.Project) (mx : Q)
    (work : bool) :
  error_type (run_in_sandbox env chip matched project mx work) <> "missing".
Proof.
  unfold run_in_sandbox.
  destruct (run_sandbox env _ chip matched) as [e|so se cf outf].
  - destruct e; simpl; discriminate.
  - destruct (success_marker _).
    + destruct (cmp_fixture env _ chip); simpl; discriminate.
    + destruct (failure_marker _).
      * destruct (_partial_credit cf outf mx) as [[[[[p ps] tests] fl] fe] fa].
        simpl; discriminate.
      * destruct work; simpl; discriminate.
Qed.

(** A chip is graded [missing] exactly when no found file was matched to
    it; its result then has zero points and the message [Not submitted],
    and no temporary directory was made on the way. *)
Lemma missing_iff_unmatched (env : Env) (chip : string)
    (matched : gmap string string) (project : Cfg.Project) (w : world)
    (cr : ChipResult) :
  (_run_one env chip matched project w).1 = Ret cr ->
  (error_type cr = "missing" <-> matched !! chip = None) /\
  (matched !! chip = None ->
   _run_one env chip matched project w
   = (Ret (chip_result chip false 0
             (default 1%Q (Cfg.chip_points project !! chip))
             "missing" "Not submitted"), w)).
Proof.
  unfold _run_one.
  destruct (matched !! chip) as [src|] eqn:Hm.
  2:{ intros [= <-]. repeat split; reflexivity. }
  intros H. split; [|discriminate]. split; [|discriminate].
  revert H. destruct (_ && _); [intros [= <-]; discriminate|].
  destruct (tst_exists env _ chip) as [[|]|e]; [| |discriminate];
    [|intros [= <-]; discriminate].
  unfold bind, mkdtemp, try_finally, ret.
  destruct (mkdtemp_error env _); [discriminate|]. intros [= <-] Hc.
  now apply run_in_sandbox_category in Hc.
Qed.


(** ** Pass 4 of the matcher *)

Lemma Qltb_lt (a b : Q) : Qltb a b = true <-> (a < b)%Q.
Proof.
  unfold Qltb. rewrite negb_true_iff. split.
  - intros H. apply Qnot_le_lt. intros L. apply Qle_bool_iff in L. congruence.
  - intros H. destruct (Qle_bool b a) eqn:E; [|reflexivity].
    apply Qle_bool_iff in E. exfalso. now apply (Qlt_not_le _ _ H).
Qed.

Lemma Qltb_ge (a b : Q) : Qltb a b = false <-> (b <= a)%Q.
Proof.
  unfold Qltb. rewrite negb_false_iff. apply Qle_bool_iff.
Qed.

Lemma len_lower (s : string) : Py.len (Py.lower s) = Py.len s.
Proof. induction s as [|c s IH]; simpl; [reflexivity | now f_equal]. Qed.

Lemma score_length_ratio (exp fnd : string) :
  fnd <> "" -> score (Py.lower exp) (Py.lower fnd) = length_ratio exp fnd.
Proof.
  intros H. unfold score, length_ratio. rewrite !len_lower.
  destruct fnd as [|c fnd]; [contradiction|]. simpl Py.len.
  now rewrite Nat.max_l by lia.
Qed.

Lemma length_append (a b : string) :
  String.length (a +:+ b) = String.length a + String.length b.
Proof. induction a as [|c a IH]; simpl; [reflexivity | now rewrite IH]. Qed.

Lemma append_inj_r (a b e : string) : a +:+ e = b +:+ e -> a = b.
Proof.
  revert b. induction a as [|c a IH]; intros [|d b] H.
  - reflexivity.
  - apply (f_equal String.length) in H.
    rewrite !length_append in H. simpl in H. lia.
  - apply (f_equal String.length) in H.
    rewrite !length_append in H. simpl in H. lia.
  - change (String c (a +:+ e) = String d (b +:+ e)) in H.
    injection H as -> H. f_equal. now apply IH.
Qed.

Section Pass4.
Variable found : found_dict.
Variable file_ext : string.

Lemma best_step_inv (used0 : gset string) (el : string) (l : found_dict)
    (acc : option (string * string) * Q) (kv : string * string) :
  best_inv used0 el l acc ->
  best_inv used0 el (l ++ [kv]) (best_step used0 el acc kv).
Proof.
  intros [Hmax Hbest].
  assert (Hold : match acc.1 with
                 | Some kv0 => In kv0 (l ++ [kv]) /\
                     is_candidate used0 el kv0 = true /\
                     acc.2 = score el (Py.lower kv0.1) /\ (0 < acc.2)%Q
                 | None => acc.2 = 0%Q
                 end).
  { destruct acc.1 as [kv0|]; [|exact Hbest].
    destruct Hbest as (H1 & H2 & H3 & H4). repeat split; auto.
    apply in_or_app. now left. }
  assert (Hkeep : is_candidate used0 el kv = false ->
                  best_inv used0 el (l ++ [kv]) acc).
  { intros Hn. split; [|exact Hold]. intros kv' Hin Hc.
    apply in_app_or in Hin as [Hin | [<- | []]]; [now apply Hmax | congruence]. }
  unfold best_step.
  destruct (bool_decide (kv.1 ∈ used0)) eqn:Hu.
  { apply Hkeep. unfold is_candidate. now rewrite Hu. }
  destruct (_ || _) eqn:Hsub;
    [|apply Hkeep; unfold is_candidate; now rewrite Hu, Hsub].
  destruct (Qltb acc.2 (score el (Py.lower kv.1))) eqn:Hlt.
  - apply Qltb_lt in Hlt. split.
    + intros kv' Hin Hc. simpl.
      apply in_app_or in Hin as [Hin | [<- | []]]; [|apply Qle_refl].
      apply Qle_trans with acc.2; [now apply Hmax | now apply Qlt_le_weak].
    + simpl. repeat split.
      * apply in_or_app. right. now left.
      * unfold is_candidate. now rewrite Hu, Hsub.
      * apply Qle_lt_trans with acc.2; [|exact Hlt].
        destruct acc.1; [apply Qlt_le_weak; tauto|].
        rewrite Hbest. apply Qle_refl.
  - apply Qltb_ge in Hlt. split; [|exact Hold].
    intros kv' Hin Hc.
    apply in_app_or in Hin as [Hin | [<- | []]]; [now apply Hmax | exact Hlt].
Qed.

Lemma find_best_inv (used0 : gset string) (el : string) :
  best_inv used0 el found (find_best found used0 el).
Proof.
  unfold find_best.
  assert (G : forall l2 l1 acc, best_inv used0 el l1 acc ->
                best_inv used0 el (l1 ++ l2)
                         (fold_left (best_step used0 el) l2 acc)).
  { induction l2 as [|kv l2 IH]; intros l1 acc H; simpl.
    - now rewrite app_nil_r.
    - replace (l1 ++ kv :: l2) with ((l1 ++ [kv]) ++ l2)
        by (now rewrite <- app_assoc).
      apply IH. now apply best_step_inv. }
  apply (G found [] (None, 0%Q)). split; [intros kv []|reflexivity].
Qed.

Lemma in_candidates (used0 : gset string) (exp : string) (kv : string * string) :
  In kv (candidates found used0 exp) <->
  In kv found /\ is_candidate used0 (Py.lower exp) kv = true.
Proof. unfold candidates. apply filter_In. Qed.

Lemma fails_mono (u u' : gset string) (exp : string) :
  u ⊆ u' -> fails found u exp -> fails found u' exp.
Proof.
  intros Hsub Hf kv Hin. apply Hf.
  apply in_candidates in Hin as [Hin Hc]. apply in_candidates. split; [exact Hin|].
  unfold is_candidate in *. apply andb_true_iff in Hc as [Hu Hs].
  apply andb_true_iff. split; [|exact Hs].
  apply negb_true_iff, bool_decide_eq_false. intros Hx.
  apply negb_true_iff, bool_decide_eq_false in Hu. apply Hu, Hsub, Hx.
Qed.

(** One iteration of pass 4: either the best candidate is taken, and its
    score is above 0.4, or nothing changes, and no candidate is above 0.4. *)
Lemma pass4_step_cases (st : MatchState) (exp : string) :
  (exists orig path,
     In (orig, path) (candidates found (used st) exp) /\
     (forall kv, In kv (candidates found (used st) exp) ->
        (score (Py.lower exp) (Py.lower kv.1)
         <= score (Py.lower exp) (Py.lower orig))%Q) /\
     (4 # 10 < score (Py.lower exp) (Py.lower orig))%Q /\
     pass4_step found file_ext st exp =
       assign file_ext "fuzzy" (fuzzy_msg file_ext exp orig) exp orig path st)
  \/ (fails found (used st) exp /\ pass4_step found file_ext st exp = st).
Proof.
  unfold pass4_step.
  destruct (find_best_inv (used st) (Py.lower exp)) as [Hmax Hbest].
  destruct (find_best found (used st) (Py.lower exp)) as [[[orig path]|] bs];
    simpl in Hmax, Hbest.
  - destruct Hbest as (Hin & Hc & -> & Hpos).
    destruct (Qltb (4 # 10) _) eqn:Hlt.
    + left. exists orig, path. apply Qltb_lt in Hlt. repeat split; auto.
      * apply in_candidates. auto.
      * intros kv Hk. apply in_candidates in Hk as [Hk1 Hk2]. now apply Hmax.
    + right. apply Qltb_ge in Hlt. split; [|reflexivity].
      intros kv Hk. apply in_candidates in Hk as [Hk1 Hk2].
      apply Qle_trans with (score (Py.lower exp) (Py.lower orig)); auto.
  - right. split; [|reflexivity]. subst bs.
    intros kv Hk. apply in_candidates in Hk as [Hk1 Hk2].
    apply Qle_trans with 0%Q; [now apply Hmax | discriminate].
Qed.

Lemma list_remove_first (x : string) (K l : list string) :
  ~ In x K -> list_remove x (K ++ x :: l) = K ++ l.
Proof.
  induction K as [|k K IH]; simpl; intros Hx.
  - now rewrite String.eqb_refl.
  - destruct (String.eqb_spec x k) as [-> | _]; [tauto|].
    f_equal. apply IH. tauto.
Qed.

(** The outer loop of pass 4 over [pre]: the names kept so far stay in
    [remaining], in front of the names still to come. *)
Lemma pass4_fold_remaining (pre rest K : list string) (st : MatchState) :
  remaining st = K ++ pre ++ rest ->
  (forall k, In k K -> fails found (used st) k) ->
  let st' := fold_left (pass4_step found file_ext) pre st in
  used st ⊆ used st' /\
  exists K2, remaining st' = K ++ K2 ++ rest /\
             forall k, In k (K ++ K2) -> fails found (used st') k.
Proof.
  revert K st. induction pre as [|x pre IH]; intros K st Hrem HK; simpl.
  - split; [reflexivity|]. exists []. split; [exact Hrem|].
    intros k Hk. rewrite app_nil_r in Hk. auto.
  - destruct (pass4_step_cases st x)
      as [(orig & path & Hin & Hmax & Hgt & ->) | [Hf ->]].
    + (* assigned: [x] is not among the kept names, which all fail *)
      assert (HxK : ~ In x K).
      { intros Hx. pose proof (HK x Hx (orig, path) Hin) as Hle.
        simpl in Hle. now apply (Qlt_not_le _ _ Hgt). }
      assert (Hsub : used st ⊆ used (assign file_ext "fuzzy"
                       (fuzzy_msg file_ext x orig) x orig path st)).
      { simpl. apply union_subseteq_r. }
      destruct (IH K (assign file_ext "fuzzy" (fuzzy_msg file_ext x orig)
                             x orig path st)) as (Hu & K2 & Hr & HK2).
      * simpl. rewrite Hrem. now apply list_remove_first.
      * intros k Hk. eapply fails_mono; [exact Hsub | now apply HK].
      * split; [etransitivity; eassumption|]. exists K2. auto.
    + destruct (IH (K ++ [x]) st) as (Hu & K2 & Hr & HK2).
      * rewrite Hrem, <- app_assoc. reflexivity.
      * intros k Hk. apply in_app_or in Hk as [Hk | [<- | []]]; auto.
      * split; [exact Hu|]. exists (x :: K2). split.
        -- rewrite Hr, <- app_assoc. reflexivity.
        -- intros k Hk. apply HK2. rewrite <- app_assoc. exact Hk.
Qed.

(** The loop of pass 4 only appends matches and only adds to [used]. *)
Lemma pass4_fold_grows (l : list string) (st : MatchState) :
  let st' := fold_left (pass4_step found file_ext) l st in
  used st ⊆ used st' /\ exists ms, matches st' = matches st ++ ms.
Proof.
  revert st. induction l as [|x l IH]; intros st; simpl.
  - split; [reflexivity|]. exists []. now rewrite app_nil_r.
  - destruct (IH (pass4_step found file_ext st x)) as (Hu & ms & Hm).
    destruct (pass4_step_cases st x)
      as [(orig & path & _ & _ & _ & E) | [_ E]]; rewrite E in *.
    + split.
      * etransitivity; [|exact Hu]. simpl. apply union_subseteq_r.
      * eexists. rewrite Hm. simpl. rewrite <- app_assoc. reflexivity.
    + split; [exact Hu|]. now exists ms.
Qed.

End Pass4.

(** C5: when pass 4 reaches an expected name [exp] left over by passes 1 to
    3, it looks at exactly the candidates (files not consumed, one name a
    substring of the other ignoring case).  Either a candidate whose length
    ratio is maximal among them and above 0.4 is assigned: its path is
    stored for [exp], its name is marked as consumed, [exp] leaves the
    remaining names, and a [fuzzy] match with the naming issue is appended,
    which is in the returned list, while the file is not among the extra
    files.  Or no candidate is above 0.4: nothing is assigned, and [exp] is
    recorded as not found. *)
Theorem pass4_spec (found : found_dict) (expected_names : list string)
    (file_ext : string) (pre post : list string) (exp : string) :
  Forall (fun kv => kv.1 <> "") found ->
  remaining (after_pass3 found expected_names file_ext) = pre ++ exp :: post ->
  let st := fold_left (pass4_step found file_ext) pre
                      (after_pass3 found expected_names file_ext) in
  let st' := pass4_step found file_ext st exp in
  let cands := candidates found (used st) exp in
  let result := _match_files found expected_names file_ext in
  (exists orig path,
     In (orig, path) cands /\
     (forall kv, In kv cands ->
        (length_ratio exp kv.1 <= length_ratio exp orig)%Q) /\
     (4 # 10 < length_ratio exp orig)%Q /\
     let m := {| expected_name := exp; actual_filename := orig +:+ file_ext;
                 match_type := "fuzzy";
                 issue := "Named '" +:+ orig +:+ file_ext
                          +:+ "' -- assumed to be '" +:+ exp +:+ file_ext
                          +:+ "'" |} in
     matched st' = <[exp := path]> (matched st) /\
     (orig ∉ used st) /\
     used st' = {[orig]} ∪ used st /\
     remaining st' = list_remove exp (remaining st) /\
     matches st' = matches st ++ [m] /\
     In m result.1.2 /\
     ~ In (orig +:+ file_ext) result.2)
  \/
  ((forall kv, In kv cands -> (length_ratio exp kv.1 <= 4 # 10)%Q) /\
   st' = st /\
   In (not_found_match file_ext exp) result.1.2).
Proof.
  intros Hne Hrem st st' cands result.
  assert (Hratio : forall kv, In kv cands ->
            score (Py.lower exp) (Py.lower kv.1) = length_ratio exp kv.1).
  { intros kv Hk. apply score_length_ratio.
    apply in_candidates in Hk as [Hk _].
    rewrite List.Forall_forall in Hne. now apply Hne. }
  assert (Hfinal : after_pass4 found expected_names file_ext
                   = fold_left (pass4_step found file_ext) post st').
  { unfold after_pass4. rewrite Hrem, fold_left_app. reflexivity. }
  destruct (pass4_step_cases found file_ext st exp)
    as [(orig & path & Hin & Hmax & Hgt & Hstep) | [Hf Hstep]].
  - left. exists orig, path. pose proof (Hratio _ Hin) as Ho. simpl in Ho.
    destruct (pass4_fold_grows found file_ext post st') as (Hu & ms & Hms).
    rewrite <- Hfinal in Hu, Hms.
    assert (Hout : orig ∉ used st).
    { apply in_candidates in Hin as [_ Hc]. unfold is_candidate in Hc.
      apply andb_true_iff in Hc as [Hc _].
      now apply negb_true_iff, bool_decide_eq_false in Hc. }
    split; [exact Hin|]. split.
    { intros kv Hk. rewrite <- (Hratio _ Hk), <- Ho. now apply Hmax. }
    split; [now rewrite <- Ho|].
    assert (Hst' : st' = assign file_ext "fuzzy" (fuzzy_msg file_ext exp orig)
                                exp orig path st) by exact Hstep.
    cbv zeta. split; [now rewrite Hst'|]. split; [exact Hout|].
    split; [now rewrite Hst'|]. split; [now rewrite Hst'|].
    split; [now rewrite Hst'|]. split.
    + unfold result, _match_files. cbn [fst snd]. rewrite Hms, Hst'.
      cbn [assign matches].
      apply in_or_app. left. apply in_or_app. left. apply in_or_app. right.
      now left.
    + unfold result, _match_files. cbn [fst snd]. intros Hx.
      apply in_map_iff in Hx as (kv & E & Hk).
      apply append_inj_r in E. apply filter_In in Hk as [_ Hk].
      apply negb_true_iff, bool_decide_eq_false in Hk. apply Hk.
      apply Hu. rewrite Hst', E. cbn [assign used].
      apply elem_of_union. left. now apply elem_of_singleton.
  - right. split; [|split; [exact Hstep|]].
    + intros kv Hk. rewrite <- (Hratio _ Hk). now apply Hf.
    + (* [exp] stays in [remaining] to the end of pass 4 *)
      destruct (pass4_fold_remaining found file_ext pre (exp :: post) []
                  (after_pass3 found expected_names file_ext) Hrem
                  ltac:(intros k []))
        as (_ & K1 & Hr1 & HK1).
      fold st in Hr1, HK1. simpl in Hr1, HK1.
      destruct (pass4_fold_remaining found file_ext post [] (K1 ++ [exp]) st)
        as (_ & K2 & Hr2 & _).
      * rewrite Hr1, app_nil_r, <- app_assoc. reflexivity.
      * intros k Hk. apply in_app_or in Hk as [Hk | [<- | []]]; auto.
      * unfold result, _match_files. cbn [fst snd].
        apply in_or_app. right. apply in_map.
        rewrite Hfinal. unfold st'. rewrite Hstep, Hr2.
        apply in_or_app. left. apply in_or_app. right. now left.
Qed.

(** ** Consumption of found files *)

Section Consumption.
Variable found : found_dict.
Variable file_ext : string.

Lemma match_inv_add (st : MatchState) (m : FileMatch) (orig : string)
    (md : gmap string string) (rem : list string) :
  match_inv file_ext st -> orig ∉ used st ->
  actual_filename m = orig +:+ file_ext ->
  String.eqb (match_type m) "not_found" = false ->
  match_inv file_ext {| matched := md; matches := matches st ++ [m];
               used := {[orig]} ∪ used st; remaining := rem |}.
Proof.
  intros (Hty & Hnd & Hsub & Hsup) Hfresh Hact Hkind.
  unfold match_inv. cbn [matches used]. rewrite map_app. cbn [map].
  repeat split.
  - apply Forall_app. split; [exact Hty | now constructor].
  - apply NoDup_app. split; [exact Hnd|]. split; [|apply NoDup_singleton].
    intros f Hf Hf'. apply list_elem_of_In in Hf.
    apply list_elem_of_singleton in Hf'. subst f.
    destruct (Hsub _ Hf) as (n & Hn & E). rewrite Hact in E.
    apply append_inj_r in E. now subst n.
  - intros f Hf. apply in_app_or in Hf as [Hf | [<- | []]].
    + destruct (Hsub _ Hf) as (n & Hn & E). exists n.
      split; [|exact E]. apply elem_of_union. now right.
    + exists orig. split; [|exact Hact]. apply elem_of_union. left.
      now apply elem_of_singleton.
  - intros n Hn. apply in_or_app. apply elem_of_union in Hn as [Hn | Hn].
    + apply elem_of_singleton in Hn. subst n. right. left. exact Hact.
    + left. now apply Hsup.
Qed.

Lemma match_inv_assign (st : MatchState) (kind msg exp orig path : string) :
  match_inv file_ext st -> orig ∉ used st ->
  String.eqb kind "not_found" = false ->
  match_inv file_ext (assign file_ext kind msg exp orig path st).
Proof. intros Hi Hf Hk. unfold assign. now apply match_inv_add. Qed.

(** Pass 1 consumes the file named like the expected name. *)
Lemma pass1_inv (l : list string) (st : MatchState) (seen : gset string) :
  NoDup l -> (forall x, In x l -> x ∉ seen) ->
  match_inv file_ext st -> used st ⊆ seen ->
  match_inv file_ext (fold_left (pass1_step found file_ext) l st).
Proof.
  revert st seen. induction l as [|x l IH]; intros st seen Hnd Hl Hi Hu; simpl.
  - exact Hi.
  - apply NoDup_cons in Hnd as [Hx Hnd].
    apply (IH _ ({[x]} ∪ seen)); [exact Hnd | | |].
    + intros y Hy Hin. apply elem_of_union in Hin as [Hin | Hin].
      * apply elem_of_singleton in Hin. subst y. apply Hx.
        now apply list_elem_of_In.
      * apply (Hl y); [now right | exact Hin].
    + unfold pass1_step. destruct (dict_get x found); [|exact Hi].
      apply match_inv_add; auto.
      intros Hin. apply (Hl x); [now left | now apply Hu].
    + unfold pass1_step. destruct (dict_get x found); cbn [used].
      * apply union_mono_l. exact Hu.
      * etransitivity; [exact Hu | apply union_subseteq_r].
Qed.

(** Every entry of [found_lower] is a file outside [used0], under its
    lower-cased name. *)
Lemma found_lower_entry (used0 : gset string) (k orig path : string) :
  build_found_lower found used0 !! k = Some (orig, path) ->
  Py.lower orig = k /\ orig ∉ used0.
Proof.
  unfold build_found_lower.
  assert (G : forall l (m : gmap string (string * string)),
    (forall k o p, m !! k = Some (o, p) -> Py.lower o = k /\ o ∉ used0) ->
    forall k o p,
      fold_left (fun m kv => if bool_decide (kv.1 ∈ used0) then m
                             else <[Py.lower kv.1 := kv]> m) l m !! k
      = Some (o, p) ->
      Py.lower o = k /\ o ∉ used0).
  { induction l as [|[n q] l IH]; intros m Hm; simpl; [exact Hm|].
    apply IH. destruct (bool_decide (n ∈ used0)) eqn:E; [exact Hm|].
    apply bool_decide_eq_false in E. intros k' o p.
    destruct (decide (Py.lower n = k')) as [<- | Hne].
    - rewrite lookup_insert_eq. now intros [= <- <-].
    - rewrite lookup_insert_ne by exact Hne. apply Hm. }
  apply (G found ∅). intros k' o p. rewrite lookup_empty. discriminate.
Qed.

(** Pass 2 keeps the invariant when no two expected names agree ignoring
    case. *)
Lemma pass2_inv (used0 : gset string) (l : list string) (st : MatchState)
    (seen : gset string) :
  NoDup (map Py.lower l) -> (forall x, In x l -> Py.lower x ∉ seen) ->
  match_inv file_ext st ->
  (forall n, n ∈ used st -> n ∈ used0 \/ Py.lower n ∈ seen) ->
  match_inv file_ext (fold_left (pass2_step (build_found_lower found used0) file_ext)
                       l st).
Proof.
  revert st seen. induction l as [|x l IH]; intros st seen Hnd Hl Hi Hu; simpl.
  - exact Hi.
  - simpl in Hnd. apply NoDup_cons in Hnd as [Hx Hnd].
    assert (Hl' : forall y, In y l -> Py.lower y ∉ {[Py.lower x]} ∪ seen).
    { intros y Hy Hin. apply elem_of_union in Hin as [Hin | Hin].
      - apply elem_of_singleton in Hin. apply Hx. rewrite <- Hin.
        apply list_elem_of_In. now apply in_map.
      - apply (Hl y); [now right | exact Hin]. }
    unfold pass2_step at 2.
    destruct (build_found_lower found used0 !! Py.lower x)
      as [[orig path]|] eqn:E.
    + destruct (found_lower_entry _ _ _ _ E) as [Hlow Hout].
      apply (IH _ ({[Py.lower x]} ∪ seen)); [exact Hnd | exact Hl' | |].
      * apply match_inv_assign; [exact Hi | | reflexivity].
        intros Hin. destruct (Hu _ Hin) as [H | H]; [contradiction|].
        rewrite Hlow in H. apply (Hl x); [now left | exact H].
      * intros n Hn. cbn [assign used] in Hn.
        apply elem_of_union in Hn as [Hn | Hn].
        -- apply elem_of_singleton in Hn. subst n. right.
           rewrite Hlow. apply elem_of_union. left. now apply elem_of_singleton.
        -- destruct (Hu _ Hn) as [H | H]; [now left|]. right.
           apply elem_of_union. now right.
    + apply (IH _ ({[Py.lower x]} ∪ seen)); [exact Hnd | exact Hl' | exact Hi |].
      intros n Hn. destruct (Hu _ Hn) as [H | H]; [now left|]. right.
      apply elem_of_union. now right.
Qed.

Lemma fold_inv (step : MatchState -> string -> MatchState) (l : list string)
    (st : MatchState) :
  (forall s x, match_inv file_ext s -> match_inv file_ext (step s x)) ->
  match_inv file_ext st -> match_inv file_ext (fold_left step l st).
Proof.
  intros Hstep. revert st. induction l as [|x l IH]; intros st Hi; simpl; auto.
Qed.

Lemma pass3_step_inv (st : MatchState) (x : string) :
  match_inv file_ext st ->
  match_inv file_ext (pass3_step (build_found_norm found) file_ext st x).
Proof.
  intros Hi. unfold pass3_step.
  destruct (build_found_norm found !! _normalize x) as [[orig path]|];
    [|exact Hi].
  destruct (bool_decide (orig ∈ used st)) eqn:E; [exact Hi|].
  apply bool_decide_eq_false in E. now apply match_inv_assign.
Qed.

Lemma pass4_step_inv (st : MatchState) (x : string) :
  match_inv file_ext st -> match_inv file_ext (pass4_step found file_ext st x).
Proof.
  intros Hi.
  destruct (pass4_step_cases found file_ext st x)
    as [(orig & path & Hin & _ & _ & ->) | [_ ->]]; [|exact Hi].
  apply match_inv_assign; [exact Hi | | reflexivity].
  apply in_candidates in Hin as [_ Hc]. unfold is_candidate in Hc.
  apply andb_true_iff in Hc as [Hc _].
  now apply negb_true_iff, bool_decide_eq_false in Hc.
Qed.

Lemma NoDup_map_filter (f : string -> string) (p : string -> bool)
    (l : list string) :
  NoDup (map f l) -> NoDup (map f (List.filter p l)).
Proof.
  induction l as [|x l IH]; simpl; intros H; [constructor|].
  apply NoDup_cons in H as [Hx H]. destruct (p x); simpl; [|auto].
  apply NoDup_cons. split; [|auto].
  intros Hin. apply Hx. apply list_elem_of_In in Hin. apply list_elem_of_In.
  apply in_map_iff in Hin as (y & Hy & Hin). apply in_map_iff.
  exists y. split; [exact Hy|]. now apply filter_In in Hin as [Hin _].
Qed.

Lemma NoDup_map_inv (f : string -> string) (l : list string) :
  NoDup (map f l) -> NoDup l.
Proof.
  induction l as [|x l IH]; simpl; intros H; [constructor|].
  apply NoDup_cons in H as [Hx H]. apply NoDup_cons. split; [|auto].
  intros Hin. apply Hx. apply list_elem_of_In. apply in_map.
  now apply list_elem_of_In.
Qed.

Lemma after_pass4_inv (expected_names : list string) :
  NoDup (map Py.lower expected_names) ->
  match_inv file_ext (after_pass4 found expected_names file_ext).
Proof.
  intros Hnd. unfold after_pass4. apply fold_inv; [apply pass4_step_inv|].
  unfold after_pass3. apply fold_inv; [apply pass3_step_inv|].
  unfold after_pass2. cbv zeta.
  set (st1 := after_pass1 found expected_names file_ext).
  assert (H1 : match_inv file_ext st1).
  { unfold st1, after_pass1. apply (pass1_inv _ _ ∅).
    - now apply NoDup_map_inv in Hnd.
    - intros x _. apply not_elem_of_empty.
    - split; [constructor|]. split; [constructor|].
      split; [intros f []|]. intros n Hn. now apply not_elem_of_empty in Hn.
    - reflexivity. }
  apply (pass2_inv (used st1) _ _ ∅).
  - now apply NoDup_map_filter.
  - intros x _. apply not_elem_of_empty.
  - exact H1.
  - intros n Hn. now left.
Qed.

End Consumption.

Lemma assigned_files_app_not_found (file_ext : string) (ms : list FileMatch)
    (l : list string) :
  Forall (fun m => String.eqb (match_type m) "not_found" = false) ms ->
  assigned_files (ms ++ map (not_found_match file_ext) l)
  = map actual_filename ms.
Proof.
  intros H. unfold assigned_files. rewrite List.filter_app, map_app.
  replace (List.filter _ (map (not_found_match file_ext) l)) with (@nil FileMatch).
  - rewrite app_nil_r. f_equal.
    induction H as [|m ms Hm _ IH]; simpl; [reflexivity|].
    rewrite Hm. simpl. now f_equal.
  - induction l as [|x l IH]; simpl; auto.
Qed.

(** When no two expected names agree ignoring case, no found file is
    assigned to two expected names, and every found file is either assigned
    or listed as extra. *)
Lemma match_files_consumption (found : found_dict)
    (expected_names : list string) (file_ext : string) :
  NoDup (map Py.lower expected_names) ->
  let '(_, matches, extra) := _match_files found expected_names file_ext in
  NoDup (assigned_files matches) /\
  forall kv, In kv found ->
    In (kv.1 +:+ file_ext) (assigned_files matches) \/
    In (kv.1 +:+ file_ext) extra.
Proof.
  intros Hnd. unfold _match_files.
  destruct (after_pass4_inv found file_ext expected_names Hnd)
    as (Hty & Hno & _ & Hsup).
  rewrite assigned_files_app_not_found by exact Hty.
  split; [exact Hno|]. intros kv Hin.
  destruct (decide (kv.1 ∈ used (after_pass4 found expected_names file_ext)))
    as [Hu | Hu].
  - left. now apply Hsup.
  - right. apply in_map_iff. exists kv. split; [reflexivity|].
    apply filter_In. split; [exact Hin|].
    now apply negb_true_iff, bool_decide_eq_false.
Qed.

(** Every found file that no pass consumed is listed as extra, whatever the
    expected names are. *)
Lemma unconsumed_files_are_extra (found : found_dict)
    (expected_names : list string) (file_ext : string)
    (kv : string * string) :
  In kv found ->
  kv.1 ∉ used (after_pass4 found expected_names file_ext) ->
  In (kv.1 +:+ file_ext) (_match_files found expected_names file_ext).2.
Proof.
  intros Hin Hu. unfold _match_files. cbn [snd].
  apply in_map_iff. exists kv. split; [reflexivity|].
  apply filter_In. split; [exact Hin|].
  now apply negb_true_iff, bool_decide_eq_false.
Qed.

(** Every [remaining.remove(exp)] of passes 2 to 4 finds [exp]. *)
Lemma count_list_remove (x v : string) (l : list string) :
  In x l ->
  count_occ string_dec l v
  = count_occ string_dec (list_remove x l) v + (if string_dec x v then 1 else 0).
Proof.
  induction l as [|y l IH]; simpl; [intros []|].
  intros Hin. destruct (String.eqb_spec x y) as [<- | Hne].
  - destruct (string_dec x v); lia.
  - destruct Hin as [-> | Hin]; [contradiction|].
    simpl. specialize (IH Hin). destruct (string_dec y v); lia.
Qed.

Lemma removes_present_count (step : MatchState -> string -> MatchState)
    (l : list string) (st : MatchState) :
  (forall s x, step s x = s \/
               remaining (step s x) = list_remove x (remaining s)) ->
  (forall v, count_occ string_dec l v <= count_occ string_dec (remaining st) v) ->
  removes_present step l st.
Proof.
  intros Hstep. revert st. induction l as [|x l IH]; intros st Hc; constructor.
  - right. apply (count_occ_In string_dec). specialize (Hc x). simpl in Hc.
    destruct (string_dec x x); [lia | contradiction].
  - apply IH. intros v.
    assert (Hx : In x (remaining st)).
    { apply (count_occ_In string_dec). specialize (Hc x). simpl in Hc.
      destruct (string_dec x x); [lia | contradiction]. }
    specialize (Hc v). simpl in Hc.
    destruct (Hstep st x) as [-> | ->].
    + destruct (string_dec x v); lia.
    + pose proof (count_list_remove x v _ Hx) as E.
      destruct (string_dec x v); lia.
Qed.

Lemma pass2_step_remaining (found_lower : gmap string (string * string))
    (file_ext : string) (s : MatchState) (x : string) :
  pass2_step found_lower file_ext s x = s \/
  remaining (pass2_step found_lower file_ext s x)
  = list_remove x (remaining s).
Proof.
  unfold pass2_step.
  destruct (found_lower !! Py.lower x) as [[o p]|]; [right|left]; reflexivity.
Qed.

Lemma pass3_step_remaining (found_norm : gmap string (string * string))
    (file_ext : string) (s : MatchState) (x : string) :
  pass3_step found_norm file_ext s x = s \/
  remaining (pass3_step found_norm file_ext s x)
  = list_remove x (remaining s).
Proof.
  unfold pass3_step.
  destruct (found_norm !! _normalize x) as [[o p]|]; [|now left].
  destruct (bool_decide _); [left|right]; reflexivity.
Qed.

Lemma pass4_step_remaining (found : found_dict) (file_ext : string)
    (s : MatchState) (x : string) :
  pass4_step found file_ext s x = s \/
  remaining (pass4_step found file_ext s x) = list_remove x (remaining s).
Proof.
  unfold pass4_step. destruct (find_best _ _ _) as [[[o p]|] bs]; [|now left].
  destruct (Qltb _ _); [right|left]; reflexivity.
Qed.

Lemma match_files_removes_present (found : found_dict)
    (expected_names : list string) (file_ext : string) :
  let st1 := after_pass1 found expected_names file_ext in
  let st2 := after_pass2 found expected_names file_ext in
  let st3 := after_pass3 found expected_names file_ext in
  let remaining0 :=
    List.filter (fun n => negb (bool_decide (is_Some (matched st1 !! n))))
                expected_names in
  removes_present (pass2_step (build_found_lower found (used st1)) file_ext)
    remaining0
    {| matched := matched st1; matches := matches st1; used := used st1;
       remaining := remaining0 |} /\
  removes_present (pass3_step (build_found_norm found) file_ext)
    (remaining st2) st2 /\
  removes_present (pass4_step found file_ext) (remaining st3) st3.
Proof.
  cbv zeta. repeat split; apply removes_present_count; auto using
    pass2_step_remaining, pass3_step_remaining, pass4_step_remaining.
Qed.

Lemma projects_names_distinct (n : Z) (rp : Cfg.RawProject) :
  Cfg.PROJECTS !! n = Some rp ->
  NoDup (map Py.lower (map fst (Cfg.chips rp))).
Proof.
  intros H.
  assert (Hb : names_distinct rp = true).
  { apply elem_of_list_to_map_2 in H.
    repeat (apply elem_of_cons in H as [H | H];
            [injection H as -> ->; vm_compute; reflexivity|]).
    now apply elem_of_nil in H. }
  now apply bool_decide_eq_true_1 in Hb.
Qed.

(** C4: whatever files are found, the matcher assigns no found file to two
    of the expected names of a project, and every found file that no pass
    consumed is in the list of extra files.  The expected names are the
    chip names of a project of the table, as in every call that
    [grade_student] makes. *)
Theorem project_files_assigned_once (active : Z) (project_num : option Z)
    (p : Cfg.Project) (found : found_dict) :
  Cfg.get_project active project_num = Ret p ->
  let file_ext := Cfg.file_ext (Cfg.raw p) in
  let result := _match_files found (Cfg.chip_names p) file_ext in
  let consumed := used (after_pass4 found (Cfg.chip_names p) file_ext) in
  NoDup (assigned_files result.1.2) /\
  (forall kv, In kv found ->
     (kv.1 ∈ consumed <-> In (kv.1 +:+ file_ext) (assigned_files result.1.2)) /\
     (kv.1 ∉ consumed -> In (kv.1 +:+ file_ext) result.2)).
Proof.
  intros Hp file_ext result consumed.
  destruct (get_project_ret _ _ _ Hp) as (Hdef & Hnames & _).
  pose proof (projects_names_distinct _ _ Hdef) as Hnd.
  rewrite <- Hnames in Hnd.
  destruct (after_pass4_inv found file_ext (Cfg.chip_names p) Hnd)
    as (Hty & Hno & Hsub & Hsup).
  unfold result, _match_files. cbn [fst snd].
  rewrite assigned_files_app_not_found by exact Hty.
  split; [exact Hno|]. intros kv Hin. split; [split|].
  - apply Hsup.
  - intros Hf. destruct (Hsub _ Hf) as (n & Hn & E).
    apply append_inj_r in E. now rewrite E.
  - intros Hu. apply in_map_iff. exists kv. split; [reflexivity|].
    apply filter_In. split; [exact Hin|].
    now apply negb_true_iff, bool_decide_eq_false.
Qed.

(** The restriction to the names of a project matters: with the one found
    file [alu] and the expected names [ALU] and [Alu], which no project has,
    pass 2 assigns the file to both. *)
Lemma case_pass_assigns_file_twice :
  let '(matched, matches, extra) :=
    _match_files [("alu", "n2t/alu.hdl")] ["ALU"; "Alu"] ".hdl" in
  matched !! "ALU" = Some "n2t/alu.hdl" /\
  matched !! "Alu" = Some "n2t/alu.hdl" /\
  map (fun m => (expected_name m, actual_filename m, match_type m)) matches
  = [("ALU", "alu.hdl", "case_fix"); ("Alu", "alu.hdl", "case_fix")] /\
  assigned_files matches = ["alu.hdl"; "alu.hdl"] /\
  extra = [].
Proof. vm_compute. repeat split. Qed.

(** ** The theorems at the example submissions *)

(** The totals of the first example submission. *)
Lemma grading_result_totals_witness :
  grade_student demo_env "submission.zip" "Ada Lovelace" 7 None
                "HW4_Assembly_Ada_Lovelace.zip" ∅ = (Ret demo_result, ∅) /\
  total_earned demo_result
  = Py.round (Cfg.sum (map points (chips demo_result))) 2 /\
  (0 <= total_earned demo_result)%Q /\
  (total_earned demo_result <= total_possible demo_result)%Q /\
  Forall (fun c => (points c <= max_points c)%Q) (chips demo_result).
Proof.
  split; [vm_compute; reflexivity|].
  apply (grading_result_totals demo_env "submission.zip" "Ada Lovelace" 7 None
           "HW4_Assembly_Ada_Lovelace.zip" ∅ ∅ demo_result).
  vm_compute. reflexivity.
Defined.

(** The gate example in float arithmetic: 0.07 points for [Not], 0.1 points
    for [And], 0.17 points in total, which is 1.7 percent. *)
Example gates_totals :
  exists r,
    grade_student gates_env "submission.zip" "Ada Lovelace" 7 None
                  "HW1_Gates_Ada_Lovelace.zip" ∅ = (Ret r, ∅) /\
    map points (chips r)
    = Py.float (7 # 100) :: Py.float (10 # 100) :: repeat 0%Q 13 /\
    total_earned r = Py.float (17 # 100) /\
    percentage r = Ret (Py.float (17 # 10)).
Proof.
  eexists. split; [vm_compute; reflexivity|].
  repeat split; vm_compute; reflexivity.
Qed.

(** Scoring of the example traces: four tests, the third one differs. *)
Lemma partial_credit_spec_witness :
  2 <= length (Py.splitlines cmp_trace) /\
  _partial_credit (Text cmp_trace) (Text out_trace) (Py.float (80 # 100)) =
    (Py.float (60 # 100), 3%Z, 4%Z, 3%Z, "| 2 | 0 |", "| 2 | 1 |") /\
  _partial_credit (Text cmp_trace) Missing (Py.float (80 # 100)) =
    (0%Q, 0%Z, 0%Z, 0%Z, "", "").
Proof.
  assert (H : 2 <= length (Py.splitlines cmp_trace)) by (vm_compute; lia).
  split; [exact H|]. split.
  - destruct (proj1 (partial_credit_spec (Text cmp_trace) (Text out_trace)
                       (Py.float (80 # 100)))
                cmp_trace out_trace eq_refl eq_refl H)
      as (fl & fe & fa & E & _ &
          [(_ & _ & _ & Hall) | (i & Hi & -> & -> & -> & Hn & Hfirst)]).
    + specialize (Hall 3 ltac:(vm_compute; lia)). vm_compute in Hall.
      discriminate.
    + rewrite E. clear E.
      assert (Hc : i = 1 \/ i = 2 \/ i = 3 \/ i = 4)
        by (vm_compute in Hi; lia).
      destruct Hc as [-> | [-> | [-> | ->]]].
      * vm_compute in Hn. discriminate.
      * vm_compute in Hn. discriminate.
      * vm_compute. reflexivity.
      * specialize (Hfirst 3 ltac:(lia)). vm_compute in Hfirst.
        discriminate.
  - apply (proj2 (partial_credit_spec (Text cmp_trace) Missing
                    (Py.float (80 # 100)))).
    right. left. reflexivity.
Defined.

(** Two chips of 0.65 points with work in their sources: [And], graded
    [syntax], gets 0.1 points, and [Not], graded [timeout], gets 0.07. *)
Lemma run_one_effort_credit_witness :
  let matched : gmap string string :=
    {[ "Not" := "n2t/Not.hdl"; "And" := "n2t/And.hdl" ]} in
  let project := Cfg.with_computed 1 Cfg.project01 in
  _has_work gates_env "n2t/And.hdl" ".hdl" = true /\
  _has_work gates_env "n2t/Not.hdl" ".hdl" = true /\
  (exists cr, (_run_one gates_env "And" matched project ∅).1 = Ret cr /\
     error_type cr = "syntax" /\ max_points cr = Py.float (65 # 100) /\
     points cr = Py.float (10 # 100)) /\
  (exists cr, (_run_one gates_env "Not" matched project ∅).1 = Ret cr /\
     error_type cr = "timeout" /\ max_points cr = Py.float (65 # 100) /\
     points cr = Py.float (7 # 100)).
Proof.
  intros matched project.
  split; [vm_compute; reflexivity|]. split; [vm_compute; reflexivity|].
  split.
  - destruct (proj1 (run_one_effort_credit gates_env "And" matched project
                       "n2t/And.hdl" ∅ eq_refl eq_refl eq_refl eq_refl)
                "" "In HDL file And.hdl, Line 5, A pin name is expected"
                Missing Missing eq_refl eq_refl eq_refl)
      as (cr & H1 & H2 & H3 & H4).
    exists cr. repeat split; [exact H1 | exact H2 | |].
    + rewrite H3. vm_compute. reflexivity.
    + rewrite H4. vm_compute. reflexivity.
  - destruct (proj2 (run_one_effort_credit gates_env "Not" matched project
                       "n2t/Not.hdl" ∅ eq_refl eq_refl eq_refl eq_refl)
                eq_refl)
      as (cr & H1 & H2 & H3 & H4).
    exists cr. repeat split; [exact H1 | exact H2 | |].
    + rewrite H3. vm_compute. reflexivity.
    + rewrite H4. vm_compute. reflexivity.
Defined.

(** The three found gate files against the chips of project 1: [Not.hdl] and
    [MyOr8Way.hdl] are assigned once each, [and_gate.hdl] is extra. *)
Lemma project_files_assigned_once_witness :
  let result :=
    _match_files gates_found
                 (Cfg.chip_names (Cfg.with_computed 1 Cfg.project01)) ".hdl" in
  Cfg.get_project 1 None = Ret (Cfg.with_computed 1 Cfg.project01) /\
  assigned_files result.1.2 = ["Not.hdl"; "MyOr8Way.hdl"] /\
  NoDup (assigned_files result.1.2) /\
  In "and_gate.hdl" result.2.
Proof.
  intros result. split; [reflexivity|].
  split; [vm_compute; reflexivity|].
  destruct (project_files_assigned_once 1 None
              (Cfg.with_computed 1 Cfg.project01) gates_found eq_refl)
    as [Hnd Hall].
  split; [exact Hnd|].
  apply (proj2 (Hall ("and_gate", "n2t/and_gate.hdl") ltac:(right; now left))).
  apply (bool_decide_eq_false_1
           ("and_gate" ∈ used (after_pass4 gates_found
              (Cfg.chip_names (Cfg.with_computed 1 Cfg.project01)) ".hdl"))).
  vm_compute. reflexivity.
Defined.

(** [and_gate] is a candidate for [And] with ratio 3/8, which is not above
    0.4: [And] is recorded as not found.  [MyOr8Way] is a candidate for
    [Or8Way] with ratio 6/8: it is assigned. *)
Lemma pass4_spec_witness :
  let expected_names := ["Not"; "And"; "Or8Way"] in
  let st3 := after_pass3 gates_found expected_names ".hdl" in
  let result := _match_files gates_found expected_names ".hdl" in
  let m := {| expected_name := "Or8Way"; actual_filename := "MyOr8Way.hdl";
              match_type := "fuzzy";
              issue := "Named 'MyOr8Way.hdl' -- assumed to be 'Or8Way.hdl'" |} in
  Forall (fun kv : string * string => kv.1 <> "") gates_found /\
  remaining st3 = ["And"; "Or8Way"] /\
  In (not_found_match ".hdl" "And") result.1.2 /\
  (let st := pass4_step gates_found ".hdl" st3 "And" in
   let st' := pass4_step gates_found ".hdl" st "Or8Way" in
   matched st' = <["Or8Way" := "n2t/MyOr8Way.hdl"]> (matched st) /\
   used st' = {["MyOr8Way"]} ∪ used st /\
   remaining st' = list_remove "Or8Way" (remaining st) /\
   matches st' = matches st ++ [m] /\
   In m result.1.2 /\
   ~ In "MyOr8Way.hdl" result.2).
Proof.
  intros expected_names st3 result m.
  assert (Hne : Forall (fun kv : string * string => kv.1 <> "") gates_found)
    by (repeat constructor; discriminate).
  assert (Hrem : remaining st3 = [] ++ "And" :: ["Or8Way"])
    by (vm_compute; reflexivity).
  assert (Hrem' : remaining st3 = ["And"] ++ "Or8Way" :: [])
    by (vm_compute; reflexivity).
  split; [exact Hne|]. split; [exact Hrem|]. split.
  - destruct (pass4_spec gates_found expected_names ".hdl" [] ["Or8Way"] "And"
                Hne Hrem)
      as [(orig & path & Hin & _ & Hgt & _) | (_ & _ & H)]; [|exact H].
    exfalso. vm_compute in Hin. destruct Hin as [Hin | []].
    injection Hin as <- <-. vm_compute in Hgt. discriminate.
  - destruct (pass4_spec gates_found expected_names ".hdl" ["And"] [] "Or8Way"
                Hne Hrem')
      as [(orig & path & Hin & _ & _ & H) | (Hf & _)].
    + assert (E : (orig, path) = ("MyOr8Way", "n2t/MyOr8Way.hdl")).
      { vm_compute in Hin. destruct Hin as [Hin | []]. now symmetry. }
      injection E as -> ->.
      destruct H as (H1 & _ & H2 & H3 & H4 & H5 & H6).
      repeat split; assumption.
    + exfalso.
      specialize (Hf ("MyOr8Way", "n2t/MyOr8Way.hdl")
                     ltac:(vm_compute; now left)).
      vm_compute in Hf. now apply Hf.
Defined.

(** A simulator that cannot be started gives [Fill] the category
    [internal]; a file that is not a zip archive gives the result in which
    both chips are missing; a test directory that may not be searched makes
    [grade_student] raise. *)
Lemma grade_student_exceptions_witness :
  (run_sandbox broken_tool_env "tools/nand2tetris/tools/CPUEmulator.sh" "Fill" ∅
   = BodyRaises (Exception "[Errno 13] Permission denied: 'CPUEmulator.sh'") /\
   run_in_sandbox broken_tool_env "Fill" ∅ (Cfg.with_computed 4 Cfg.project04)
                  5 true
   = chip_result "Fill" false 0 5 "internal"
                 "[Errno 13] Permission denied: 'CPUEmulator.sh'") /\
  (exists r,
     grade_student corrupt_env "submission.zip" "Ada Lovelace" 7 None
                   "HW4_Assembly_Ada_Lovelace.zip" ∅ = (Ret r, ∅) /\
     total_earned r = 0%Q /\ map name (chips r) = ["Mult"; "Fill"] /\
     Forall (fun c => passed c = false /\ points c = 0%Q /\
                      error_type c = "missing") (chips r)) /\
  (exists e,
     (grade_student locked_tests_env "submission.zip" "Ada Lovelace" 7 None
                    "HW4_Assembly_Ada_Lovelace.zip" ∅).1 = Raise e).
Proof.
  split; [|split].
  - split; [reflexivity|].
    destruct (grade_student_exceptions broken_tool_env "submission.zip"
                "Ada Lovelace" 7 None "HW4_Assembly_Ada_Lovelace.zip" ∅)
      as (_ & _ & _ & _ & _ & _ & _ & H).
    apply (H "Fill" ∅ (Cfg.with_computed 4 Cfg.project04) 5%Q true
             (Exception "[Errno 13] Permission denied: 'CPUEmulator.sh'"));
      [reflexivity | discriminate].
  - destruct (grade_student_exceptions corrupt_env "submission.zip"
                "Ada Lovelace" 7 None "HW4_Assembly_Ada_Lovelace.zip" ∅)
      as (_ & _ & _ & _ & H & _).
    apply (H (Cfg.with_computed 4 Cfg.project04)); reflexivity.
  - destruct (grade_student_exceptions locked_tests_env "submission.zip"
                "Ada Lovelace" 7 None "HW4_Assembly_Ada_Lovelace.zip" ∅)
      as (_ & _ & _ & _ & _ & H & _).
    apply (H (Cfg.with_computed 4 Cfg.project04)
             (Dir "" ["Mult.asm"; ".DS_Store"; "notes.txt"]
                  [Dir "__MACOSX" ["Fill.asm"] [];
                   Dir "src" ["fill.ASM"; "Mult.asm"] []])
             "Mult"
             (Exception "[Errno 13] Permission denied: 'Mult.tst'"));
      try reflexivity.
    + vm_compute. discriminate.
    + now left.
Defined.

(** C6, as first stated, fails: for a password-protected archive
    [grade_student] raises instead of returning a result. *)
Lemma encrypted_archive_raises :
  (grade_student encrypted_env "submission.zip" "Ada Lovelace" 7 None
                 "HW4_Assembly_Ada_Lovelace.zip" ∅).1
  = Raise (Exception "File 'Mult.asm' is encrypted, password required").
Proof. vm_compute. reflexivity. Qed.

(** The password-protected archive leaves its extraction directory behind. *)
Lemma extraction_error_leaks_directory_witness :
  Cfg.get_project (ACTIVE_PROJECT encrypted_env) None
  = Ret (Cfg.with_computed 4 Cfg.project04) /\
  grade_student encrypted_env "submission.zip" "Ada Lovelace" 7 None
                "HW4_Assembly_Ada_Lovelace.zip" ∅
  = (Raise (Exception "File 'Mult.asm' is encrypted, password required"),
     {[fresh (∅ : world)]} ∪ ∅) /\
  fresh (∅ : world) ∉ (∅ : world).
Proof.
  split; [reflexivity|].
  apply (extraction_error_leaks_directory encrypted_env "submission.zip"
           "Ada Lovelace" 7 None "HW4_Assembly_Ada_Lovelace.zip" ∅
           (Cfg.with_computed 4 Cfg.project04)); reflexivity.
Defined.

(** Three found files against three expected names. *)
Lemma match_files_consumption_witness :
  let found := [("Not", "n2t/Not.hdl"); ("and_gate", "n2t/and_gate.hdl");
                ("MyOr8Way", "n2t/MyOr8Way.hdl")] in
  let expected_names := ["Not"; "And"; "Or8Way"] in
  NoDup (map Py.lower expected_names) /\
  let '(_, matches, extra) := _match_files found expected_names ".hdl" in
  NoDup (assigned_files matches) /\
  forall kv, In kv found ->
    In (kv.1 +:+ ".hdl") (assigned_files matches) \/
    In (kv.1 +:+ ".hdl") extra.
Proof.
  intros found expected_names.
  assert (H : NoDup (map Py.lower expected_names)).
  { apply (bool_decide_unpack (NoDup (map Py.lower expected_names))).
    vm_compute. exact I. }
  split; [exact H|].
  apply (match_files_consumption found expected_names ".hdl" H).
Defined.

(** After grading the first example no temporary directory is left. *)
Lemma grade_student_cleans_up_witness :
  (forall e, open_zip demo_env "submission.zip" <> ExtractError e) /\
  (grade_student demo_env "submission.zip" "Ada Lovelace" 7 None
                 "HW4_Assembly_Ada_Lovelace.zip" ∅).2 = ∅.
Proof.
  assert (H : forall e, open_zip demo_env "submission.zip" <> ExtractError e)
    by (intros e; discriminate).
  split; [exact H|].
  apply (grade_student_cleans_up demo_env "submission.zip" "Ada Lovelace" 7
           None "HW4_Assembly_Ada_Lovelace.zip" ∅ H).
Defined.

(** The chips of the first example, in table order. *)
Lemma one_result_per_chip_witness :
  Cfg.get_project (ACTIVE_PROJECT demo_env) None
  = Ret (Cfg.with_computed 4 Cfg.project04) /\
  map name (chips demo_result) = ["Mult"; "Fill"].
Proof.
  split; [reflexivity|].
  apply (one_result_per_chip demo_env "submission.zip" "Ada Lovelace" 7 None
           "HW4_Assembly_Ada_Lovelace.zip" ∅ ∅ demo_result
           (Cfg.with_computed 4 Cfg.project04)); vm_compute; reflexivity.
Defined.

(** [Fill] with no matched file at all. *)
Lemma missing_iff_unmatched_witness :
  let project := Cfg.with_computed 4 Cfg.project04 in
  let cr := chip_result "Fill" false 0 5 "missing" "Not submitted" in
  (_run_one demo_env "Fill" ∅ project ∅).1 = Ret cr /\
  (error_type cr = "missing" <-> (∅ : gmap string string) !! "Fill" = None) /\
  ((∅ : gmap string string) !! "Fill" = None ->
   _run_one demo_env "Fill" ∅ project ∅
   = (Ret (chip_result "Fill" false 0
             (default 1%Q (Cfg.chip_points project !! "Fill"))
             "missing" "Not submitted"), ∅)).
Proof.
  intros project cr.
  assert (H : (_run_one demo_env "Fill" ∅ project ∅).1 = Ret cr)
    by (vm_compute; reflexivity).
  split; [exact H|].
  apply (missing_iff_unmatched demo_env "Fill" ∅ project ∅ cr H).
Defined.

(** * Further properties *)

(** ** Facts on the string built-ins *)

Lemma len_take_str (n : nat) (s : string) :
  Py.len (Py.take_str n s) = Nat.min n (Py.len s).
Proof.
  unfold Py.take_str, Py.len. revert n.
  induction s as [|c s IH]; intros [|n]; simpl; auto.
Qed.

Lemma len_drop_last (k : nat) (s : string) :
  Py.len (Py.drop_last k s) = Py.len s - k.
Proof. unfold Py.drop_last. rewrite len_take_str. lia. Qed.

Lemma endswith_len (s p : string) :
  Py.endswith s p = true -> Py.len p <= Py.len s.
Proof.
  unfold Py.endswith. intros H. apply andb_true_iff in H as [H _].
  now apply Nat.leb_le in H.
Qed.

Lemma startswith_take_str (n : nat) (s p : string) :
  Py.startswith (Py.take_str n s) p = true -> Py.startswith s p = true.
Proof.
  unfold Py.take_str. revert n s.
  induction p as [|a p IH]; intros n s; [now destruct s|].
  destruct s as [|b s]; destruct n as [|n]; simpl; try discriminate.
  intros H. apply andb_true_iff in H as [H1 H2].
  rewrite H1. simpl. now apply (IH n).
Qed.

Lemma join_nonempty (sep x : string) (l : list string) :
  x <> "" -> Py.join sep (x :: l) <> "".
Proof.
  intros Hx. destruct l as [|y l]; simpl; [exact Hx|].
  destruct x; [contradiction | discriminate].
Qed.

(** ** Error text of a failed run *)

(** The error text that [_clean_err] returns is never empty and never
    longer than 200 characters. *)
Lemma clean_err_length (raw_out : string) :
  1 <= Py.len (_clean_err raw_out) <= 200.
Proof.
  unfold _clean_err.
  set (keep := fun l : string => _).
  destruct (List.filter keep (map Py.strip (Py.split_on "010" raw_out)))
    as [|x lines] eqn:E.
  - simpl. lia.
  - assert (Hx : x <> "").
    { assert (Hin : In x (List.filter keep (map Py.strip (Py.split_on "010" raw_out))))
        by (rewrite E; now left).
      apply filter_In in Hin as [_ Hk]. unfold keep in Hk.
      apply andb_true_iff in Hk as [Hk _]. apply negb_true_iff in Hk.
      apply orb_false_iff in Hk as [Hk _]. apply orb_false_iff in Hk as [Hk _].
      now apply String.eqb_neq in Hk. }
    rewrite len_take_str. simpl firstn.
    pose proof (join_nonempty "; " x (firstn 2 lines) Hx) as Hj.
    destruct (Py.join "; " (x :: firstn 2 lines)) as [|c r] eqn:J;
      [contradiction|].
    simpl Py.len. lia.
Qed.

(** ** The found files of an extracted archive *)

Lemma strip_ext_not_suffix (file_ext : string) (fuel : nat) (nm : string) :
  file_ext <> "" -> Py.len nm < fuel ->
  Py.endswith (Py.lower (strip_ext fuel file_ext nm)) file_ext = false.
Proof.
  intros Hext. revert nm. induction fuel as [|fuel IH]; intros nm Hlen; [lia|].
  simpl. destruct (Py.endswith (Py.lower nm) file_ext) eqn:E; [|exact E].
  apply IH. rewrite len_drop_last.
  apply endswith_len in E. rewrite len_lower in E.
  destruct file_ext; [contradiction|]. simpl in *. lia.
Qed.

Lemma strip_ext_prefix (file_ext : string) (fuel : nat) (nm : string) :
  exists n, strip_ext fuel file_ext nm = Py.take_str n nm.
Proof.
  revert nm. induction fuel as [|fuel IH]; intros nm; simpl.
  - exists (Py.len nm). unfold Py.take_str, Py.len.
    induction nm as [|c nm IHn]; simpl; [reflexivity | now rewrite <- IHn].
  - destruct (Py.endswith (Py.lower nm) file_ext).
    + destruct (IH (Py.drop_last (Py.len file_ext) nm)) as [n ->].
      unfold Py.drop_last, Py.take_str.
      exists (Nat.min n (Py.len nm - Py.len file_ext)).
      generalize (Py.len nm - Py.len file_ext) as k. revert n.
      induction nm as [|c nm IHn]; intros [|n] [|k]; simpl; auto.
      now rewrite IHn.
    + exists (Py.len nm). unfold Py.take_str, Py.len.
      induction nm as [|c nm IHn]; simpl; [reflexivity | now rewrite <- IHn].
Qed.

Lemma hidden_take_str (n : nat) (f : string) :
  hidden (Py.take_str n f) = true -> hidden f = true.
Proof.
  unfold hidden. intros H. apply orb_true_iff in H as [H | H];
    apply startswith_take_str in H; rewrite H; auto using orb_true_r.
Qed.

Lemma dict_get_none (k : string) (d : found_dict) :
  dict_get k d = None -> ~ In k (map fst d).
Proof.
  induction d as [|[k' v] d IH]; simpl; [tauto|].
  destruct (String.eqb_spec k k') as [-> | Hne]; [discriminate|].
  intros H [E | Hin]; [congruence | now apply IH].
Qed.

Section FoundFiles.

Variable file_ext : string.
Hypothesis ext_nonempty : file_ext <> "".

Lemma add_found_cases (root : string) (found : found_dict) (f : string) :
  add_found file_ext root found f = found \/
  (add_found file_ext root found f
     = found ++ [(strip_ext (S (Py.len f)) file_ext f, root +:+ "/" +:+ f)] /\
   hidden f = false /\ Py.endswith (Py.lower f) file_ext = true /\
   strip_ext (S (Py.len f)) file_ext f <> "" /\
   ~ In (strip_ext (S (Py.len f)) file_ext f) (map fst found)).
Proof.
  unfold add_found. destruct (hidden f) eqn:Hh; [now left|].
  destruct (Py.endswith (Py.lower f) file_ext) eqn:He; [|now left].
  destruct (String.eqb_spec (strip_ext (S (Py.len f)) file_ext f) "")
    as [Hn | Hn]; [now left|]. simpl.
  destruct (dict_get _ found) eqn:Hg; [now left|].
  right. repeat split; auto. now apply dict_get_none.
Qed.

Lemma found_entry_ok_mono (e1 e2 : list (string * list string))
    (kv : string * string) :
  (forall rf, In rf e1 -> In rf e2) ->
  found_entry_ok file_ext e1 kv -> found_entry_ok file_ext e2 kv.
Proof.
  intros Hsub (H1 & H2 & H3 & root & files & f & Hin & H).
  repeat split; auto. exists root, files, f. split; auto.
Qed.

Lemma add_found_inv (entries : list (string * list string))
    (root : string) (files : list string) (done : list string)
    (found : found_dict) :
  In (root, done ++ files) entries ->
  NoDup (map fst found) ->
  Forall (found_entry_ok file_ext entries) found ->
  NoDup (map fst (fold_left (add_found file_ext root) files found)) /\
  Forall (found_entry_ok file_ext entries)
         (fold_left (add_found file_ext root) files found).
Proof.
  revert done found.
  induction files as [|f files IH]; intros done found Hin Hnd Hok; [now split|].
  simpl. replace (done ++ f :: files) with ((done ++ [f]) ++ files) in Hin
    by now rewrite <- app_assoc.
  destruct (add_found_cases root found f) as [-> | (-> & Hh & He & Hn & Hfresh)];
    [now apply (IH (done ++ [f]))|].
  apply (IH (done ++ [f])); [exact Hin | |].
  - rewrite map_app. simpl. apply NoDup_app. repeat split; auto.
    + intros x Hx Hx'. apply list_elem_of_In in Hx, Hx'.
      destruct Hx' as [<- | []]. contradiction.
    + apply NoDup_singleton.
  - apply Forall_app. split; [exact Hok|]. constructor; [|constructor].
    destruct (strip_ext_prefix file_ext (S (Py.len f)) f) as [n Hp].
    repeat split; cbn [fst snd].
    + exact Hn.
    + destruct (hidden (strip_ext (S (Py.len f)) file_ext f)) eqn:E; [|reflexivity].
      rewrite Hp in E. apply hidden_take_str in E. congruence.
    + apply strip_ext_not_suffix; [exact ext_nonempty | lia].
    + exists root, ((done ++ [f]) ++ files), f. repeat split; auto.
      apply in_or_app. left. apply in_or_app. right. now left.
Qed.

Lemma collect_found_inv_gen (entries l : list (string * list string))
    (found : found_dict) :
  (forall rf, In rf l -> In rf entries) ->
  NoDup (map fst found) ->
  Forall (found_entry_ok file_ext entries) found ->
  let r := fold_left (fun found rf =>
                        fold_left (add_found file_ext rf.1) rf.2 found) l found in
  NoDup (map fst r) /\ Forall (found_entry_ok file_ext entries) r.
Proof.
  revert found. induction l as [|[root files] l IH]; intros found Hsub Hnd Hok;
    [now split|].
  simpl. destruct (add_found_inv entries root files [] found) as [H1 H2]; auto.
  { apply Hsub. now left. }
  apply IH; auto. intros rf Hrf. apply Hsub. now right.
Qed.

End FoundFiles.

Lemma collect_found_entries (file_ext : string)
    (entries : list (string * list string)) :
  file_ext <> "" ->
  NoDup (map fst (collect_found file_ext entries)) /\
  Forall (found_entry_ok file_ext entries) (collect_found file_ext entries).
Proof.
  intros Hext. unfold collect_found.
  apply (collect_found_inv_gen file_ext Hext entries entries []); auto.
  constructor.
Qed.

(** ** Normalized names *)

Lemma lower_char_idem (c : ascii) :
  Py.lower_char (Py.lower_char c) = Py.lower_char c.
Proof. ascii_cases c; reflexivity. Qed.

Lemma isspace_lower_char (c : ascii) :
  Py.isspace (Py.lower_char c) = Py.isspace c.
Proof. ascii_cases c; reflexivity. Qed.

Lemma isdigit_lower_char (c : ascii) :
  Py.isdigit (Py.lower_char c) = Py.isdigit c.
Proof. ascii_cases c; reflexivity. Qed.

Lemma is_separator_lower_char (c : ascii) :
  is_separator (Py.lower_char c) = is_separator c.
Proof. ascii_cases c; reflexivity. Qed.

Lemma lower_idem (s : string) : Py.lower (Py.lower s) = Py.lower s.
Proof.
  induction s as [|c s IH]; simpl; [reflexivity|].
  now rewrite lower_char_idem, IH.
Qed.

Lemma lower_append (s t : string) :
  Py.lower (s +:+ t) = Py.lower s +:+ Py.lower t.
Proof. induction s as [|c s IH]; simpl; [reflexivity | now rewrite IH]. Qed.

Lemma lower_take_str (n : nat) (s : string) :
  Py.lower (Py.take_str n s) = Py.take_str n (Py.lower s).
Proof.
  unfold Py.take_str. revert n.
  induction s as [|c s IH]; intros [|n]; simpl; auto. now rewrite IH.
Qed.

Lemma lower_drop_str (n : nat) (s : string) :
  Py.lower (Py.drop_str n s) = Py.drop_str n (Py.lower s).
Proof.
  revert n. induction s as [|c s IH]; intros [|n]; simpl; auto.
Qed.

Lemma lower_drop_last (k : nat) (s : string) :
  Py.lower (Py.drop_last k s) = Py.drop_last k (Py.lower s).
Proof. unfold Py.drop_last. now rewrite lower_take_str, len_lower. Qed.

Lemma lower_lstrip (s : string) :
  Py.lower (Py.lstrip s) = Py.lstrip (Py.lower s).
Proof.
  induction s as [|c s IH]; simpl; [reflexivity|].
  rewrite isspace_lower_char. now destruct (Py.isspace c).
Qed.

Lemma lower_rstrip (s : string) :
  Py.lower (Py.rstrip s) = Py.rstrip (Py.lower s).
Proof.
  induction s as [|c s IH]; simpl; [reflexivity|].
  rewrite <- IH, isspace_lower_char.
  destruct (Py.rstrip s); simpl; [now destruct (Py.isspace c) | reflexivity].
Qed.

Lemma lower_strip (s : string) : Py.lower (Py.strip s) = Py.strip (Py.lower s).
Proof. unfold Py.strip. now rewrite lower_rstrip, lower_lstrip. Qed.

Lemma span_lower (p : ascii -> bool) (s : string) :
  (forall c, p (Py.lower_char c) = p c) ->
  span p (Py.lower s) = ((span p s).1, Py.lower (span p s).2).
Proof.
  intros Hp. induction s as [|c s IH]; simpl; [reflexivity|].
  rewrite Hp. destruct (p c); [|reflexivity].
  rewrite IH. now destruct (span p s).
Qed.

Lemma re_delete_lower (m : string -> option nat) (k : nat) (s : string) :
  (forall t, m (Py.lower t) = m t) ->
  re_delete m k (Py.lower s) = Py.lower (re_delete m k s).
Proof.
  intros Hm. revert k. induction s as [|c s IH]; intros k; [reflexivity|].
  change (Py.lower (String c s)) with (String (Py.lower_char c) (Py.lower s)).
  cbn [re_delete]. destruct k as [|k]; [|apply IH].
  change (String (Py.lower_char c) (Py.lower s)) with (Py.lower (String c s)).
  rewrite Hm. destruct (m (String c s)); [apply IH|].
  cbn [Py.lower]. now rewrite IH.
Qed.

Lemma m_sep_lower (s : string) : m_sep (Py.lower s) = m_sep s.
Proof.
  unfold m_sep. rewrite span_lower by apply is_separator_lower_char.
  now destruct (span _ s).
Qed.

Lemma m_copy_lower (s : string) : m_copy (Py.lower s) = m_copy s.
Proof.
  unfold m_copy. rewrite span_lower by apply isspace_lower_char.
  destruct (span Py.isspace s) as [a r1]. cbn [fst snd].
  rewrite lower_idem. destruct (Py.startswith (Py.lower r1) "copy"); [|reflexivity].
  rewrite <- lower_drop_str, span_lower by apply isspace_lower_char.
  destruct (span Py.isspace (Py.drop_str 4 r1)) as [b r2]. cbn [fst snd].
  rewrite span_lower by apply isdigit_lower_char.
  now destruct (span Py.isdigit r2).
Qed.

Lemma m_counter_lower (s : string) : m_counter (Py.lower s) = m_counter s.
Proof.
  unfold m_counter. rewrite span_lower by apply isspace_lower_char.
  destruct (span Py.isspace s) as [a r1]. cbn [fst snd].
  destruct r1 as [|c r2]; [reflexivity|]. cbn [Py.lower].
  ascii_cases c; try reflexivity.
  change (Py.lower_char "(") with "("%char. cbv iota.
  rewrite span_lower by apply isdigit_lower_char.
  destruct (span Py.isdigit r2) as [d r3]. cbn [fst snd].
  destruct d as [|d]; [reflexivity|].
  destruct r3 as [|c r4]; [reflexivity|]. cbn [Py.lower].
  ascii_cases c; try reflexivity.
  change (Py.lower_char ")") with ")"%char. cbv iota.
  rewrite span_lower by apply isspace_lower_char.
  now destruct (span Py.isspace r4).
Qed.

Lemma cut_suffix_lower (ext s : string) :
  cut_suffix ext (Py.lower s) = Py.lower (cut_suffix ext s).
Proof.
  unfold cut_suffix. rewrite lower_idem.
  destruct (Py.endswith (Py.lower s) ext); [|reflexivity].
  now rewrite lower_drop_last.
Qed.

Lemma normalize_lower_out (s : string) :
  _normalize s =
  cut_suffix ".asm" (cut_suffix ".hdl"
    (re_delete m_sep 0 (re_delete m_copy 0 (re_delete m_counter 0
       (Py.strip (Py.lower s)))))).
Proof.
  unfold _normalize.
  rewrite <- lower_strip.
  rewrite (re_delete_lower m_counter) by apply m_counter_lower.
  rewrite (re_delete_lower m_copy) by apply m_copy_lower.
  rewrite (re_delete_lower m_sep) by apply m_sep_lower.
  now rewrite !cut_suffix_lower.
Qed.

(** [_normalize] ignores letter case: a name and its lower-case form have
    the same normal form. *)
Theorem normalize_ignores_case (s : string) :
  _normalize (Py.lower s) = _normalize s.
Proof.
  rewrite (normalize_lower_out (Py.lower s)), (normalize_lower_out s).
  now rewrite lower_idem.
Qed.

Lemma all_chars_take_str (p : ascii -> bool) (n : nat) (s : string) :
  all_chars p s = true -> all_chars p (Py.take_str n s) = true.
Proof.
  unfold Py.take_str. revert n.
  induction s as [|c s IH]; intros [|n]; simpl; auto.
  intros H. apply andb_true_iff in H as [-> H]. now apply IH.
Qed.

Lemma all_chars_cut_suffix (p : ascii -> bool) (ext s : string) :
  all_chars p s = true -> all_chars p (cut_suffix ext s) = true.
Proof.
  unfold cut_suffix, Py.drop_last. intros H.
  destruct (Py.endswith _ _); [now apply all_chars_take_str | exact H].
Qed.

Lemma span_zero_head (p : ascii -> bool) (c : ascii) (s : string) :
  (span p (String c s)).1 = 0 -> p c = false.
Proof.
  simpl. destruct (p c); [|reflexivity]. now destruct (span p s).
Qed.

Lemma re_delete_sep_clean (k : nat) (s : string) :
  all_chars (fun c => negb (is_separator c)) (re_delete m_sep k s) = true.
Proof.
  revert k. induction s as [|c s IH]; intros k; [reflexivity|].
  cbn [re_delete]. destruct k as [|k]; [|apply IH].
  destruct (m_sep (String c s)) eqn:E; [apply IH|].
  cbn [all_chars]. rewrite IH, andb_true_r.
  unfold m_sep in E.
  pose proof (span_zero_head is_separator c s) as Hz.
  unfold is_separator in Hz at 1.
  destruct (span _ (String c s)) as [a r]. destruct a; [|discriminate].
  now rewrite Hz.
Qed.

Lemma all_chars_lower (s : string) :
  all_chars (fun c => negb (is_separator c)) s = true ->
  all_chars (fun c => negb (is_separator c)) (Py.lower s) = true.
Proof.
  induction s as [|c s IH]; simpl; [reflexivity|].
  rewrite is_separator_lower_char. intros H.
  apply andb_true_iff in H as [-> H]. now apply IH.
Qed.

(** The normal form of a name holds no whitespace, underscore or hyphen,
    and lowering it changes nothing: it has no upper-case letter. *)
Theorem normalize_shape (s : string) :
  all_chars (fun c => negb (is_separator c)) (_normalize s) = true /\
  Py.lower (_normalize s) = _normalize s.
Proof.
  split.
  - unfold _normalize. apply all_chars_lower.
    do 2 apply all_chars_cut_suffix. apply re_delete_sep_clean.
  - unfold _normalize. apply lower_idem.
Qed.

(** ** What the matcher records *)

Lemma dict_get_In (k v : string) (d : found_dict) :
  dict_get k d = Some v -> In (k, v) d.
Proof.
  induction d as [|[k' v'] d IH]; simpl; [discriminate|].
  destruct (String.eqb_spec k k') as [-> | _]; [intros [= ->]; now left|].
  intros H. right. now apply IH.
Qed.

Lemma list_remove_incl (x y : string) (l : list string) :
  In y (list_remove x l) -> In y l.
Proof.
  induction l as [|z l IH]; simpl; [tauto|].
  destruct (String.eqb x z); [now right|].
  intros [-> | H]; [now left | right; now apply IH].
Qed.

Lemma list_remove_perm (x : string) (l : list string) :
  In x l -> Permutation (x :: list_remove x l) l.
Proof.
  induction l as [|y l IH]; simpl; [intros []|].
  destruct (String.eqb_spec x y) as [-> | Hne]; [reflexivity|].
  intros [-> | Hin]; [contradiction|].
  rewrite perm_swap. constructor. now apply IH.
Qed.

Lemma filter_split_perm (p : string -> bool) (l : list string) :
  Permutation (List.filter p l ++ List.filter (fun x => negb (p x)) l) l.
Proof.
  induction l as [|x l IH]; simpl; [constructor|].
  destruct (p x); simpl; [now constructor|].
  rewrite <- Permutation_middle. now constructor.
Qed.

Section Matcher.
Variable found : found_dict.
Variable file_ext : string.

(** Every value of the two lookup dicts is an item of [found]. *)
Lemma found_lower_In (used0 : gset string) (k : string) (kv : string * string) :
  build_found_lower found used0 !! k = Some kv -> In kv found.
Proof.
  unfold build_found_lower.
  assert (G : forall l (m : gmap string (string * string)),
    (forall k kv, m !! k = Some kv -> In kv found) ->
    (forall kv, In kv l -> In kv found) ->
    forall k kv,
      fold_left (fun m kv => if bool_decide (kv.1 ∈ used0) then m
                             else <[Py.lower kv.1 := kv]> m) l m !! k
      = Some kv -> In kv found).
  { induction l as [|x l IH]; intros m Hm Hl; simpl; [exact Hm|].
    apply IH; [|intros kv' H; apply Hl; now right].
    destruct (bool_decide (x.1 ∈ used0)); [exact Hm|].
    intros k' kv'. destruct (decide (Py.lower x.1 = k')) as [<- | Hne].
    - rewrite lookup_insert_eq. intros [= <-]. apply Hl. now left.
    - rewrite lookup_insert_ne by exact Hne. apply Hm. }
  apply (G found ∅); [|auto].
  intros k' kv'. rewrite lookup_empty. discriminate.
Qed.

Lemma found_norm_In (k : string) (kv : string * string) :
  build_found_norm found !! k = Some kv -> In kv found.
Proof.
  unfold build_found_norm.
  assert (G : forall l (m : gmap string (string * string)),
    (forall k kv, m !! k = Some kv -> In kv found) ->
    (forall kv, In kv l -> In kv found) ->
    forall k kv,
      fold_left (fun m kv => <[_normalize kv.1 := kv]> m) l m !! k = Some kv ->
      In kv found).
  { induction l as [|x l IH]; intros m Hm Hl; simpl; [exact Hm|].
    apply IH; [|intros kv' H; apply Hl; now right].
    intros k' kv'. destruct (decide (_normalize x.1 = k')) as [<- | Hne].
    - rewrite lookup_insert_eq. intros [= <-]. apply Hl. now left.
    - rewrite lookup_insert_ne by exact Hne. apply Hm. }
  apply (G found ∅); [|auto].
  intros k' kv'. rewrite lookup_empty. discriminate.
Qed.

Lemma pass2_assigning (used0 : gset string) :
  assigning_step found file_ext
    (pass2_step (build_found_lower found used0) file_ext).
Proof.
  intros s x. unfold pass2_step.
  destruct (build_found_lower found used0 !! Py.lower x) as [[orig path]|] eqn:E;
    [|now left].
  right. exists "case_fix", (case_fix_msg file_ext x orig), orig, path.
  split; [now apply found_lower_In in E|]. split; [now left | reflexivity].
Qed.

Lemma pass3_assigning :
  assigning_step found file_ext (pass3_step (build_found_norm found) file_ext).
Proof.
  intros s x. unfold pass3_step.
  destruct (build_found_norm found !! _normalize x) as [[orig path]|] eqn:E;
    [|now left].
  destruct (bool_decide (orig ∈ used s)); [now left|].
  right. exists "fuzzy", (fuzzy_msg file_ext x orig), orig, path.
  split; [now apply found_norm_In in E|]. split; [now right | reflexivity].
Qed.

Lemma pass4_assigning :
  assigning_step found file_ext (pass4_step found file_ext).
Proof.
  intros s x.
  destruct (pass4_step_cases found file_ext s x)
    as [(orig & path & Hin & _ & _ & ->) | [_ ->]]; [|now left].
  right. exists "fuzzy", (fuzzy_msg file_ext x orig), orig, path.
  apply in_candidates in Hin as [Hin _].
  split; [exact Hin|]. split; [now right | reflexivity].
Qed.

(** *** Pass 1 *)

Lemma pass1_matches (l : list string) (st : MatchState) :
  matches (fold_left (pass1_step found file_ext) l st)
  = matches st ++
    map (exact_match file_ext)
        (List.filter (fun n => bool_decide (is_Some (dict_get n found))) l).
Proof.
  revert st. induction l as [|x l IH]; intros st; simpl;
    [now rewrite app_nil_r|].
  rewrite IH. unfold pass1_step.
  destruct (dict_get x found) as [p|] eqn:E.
  - rewrite bool_decide_eq_true_2 by eauto. cbn [matches map].
    now rewrite <- app_assoc.
  - rewrite bool_decide_eq_false_2 by (intros [? ?]; discriminate).
    reflexivity.
Qed.

Lemma pass1_matched (l : list string) (st : MatchState) (n : string) :
  matched (fold_left (pass1_step found file_ext) l st) !! n
  = if bool_decide (n ∈ l)
    then match dict_get n found with
         | Some p => Some p
         | None => matched st !! n
         end
    else matched st !! n.
Proof.
  revert st. induction l as [|x l IH]; intros st.
  - cbn [fold_left].
    rewrite bool_decide_eq_false_2 by apply not_elem_of_nil. reflexivity.
  - cbn [fold_left]. rewrite IH.
    assert (Hstep : matched (pass1_step found file_ext st x) !! n
                    = if decide (x = n)
                      then match dict_get n found with
                           | Some p => Some p
                           | None => matched st !! n
                           end
                      else matched st !! n).
    { unfold pass1_step. destruct (decide (x = n)) as [-> | Hne].
      - destruct (dict_get n found); [|reflexivity].
        cbn [matched]. now rewrite lookup_insert_eq.
      - destruct (dict_get x found); [|reflexivity].
        cbn [matched]. now rewrite lookup_insert_ne. }
    destruct (bool_decide (n ∈ l)) eqn:Hl.
    + apply bool_decide_eq_true in Hl.
      rewrite bool_decide_eq_true_2 by (apply elem_of_cons; now right).
      destruct (dict_get n found); [reflexivity|].
      rewrite Hstep. now destruct (decide (x = n)).
    + apply bool_decide_eq_false in Hl. rewrite Hstep.
      destruct (decide (x = n)) as [-> | Hne].
      * rewrite bool_decide_eq_true_2 by (apply elem_of_cons; now left).
        reflexivity.
      * rewrite bool_decide_eq_false_2; [reflexivity|].
        intros H. apply elem_of_cons in H as [-> | H]; tauto.
Qed.

Lemma after_pass1_matched (expected_names : list string) (n : string) :
  matched (after_pass1 found expected_names file_ext) !! n
  = if bool_decide (n ∈ expected_names) then dict_get n found else None.
Proof.
  unfold after_pass1. rewrite pass1_matched. cbn [matched].
  rewrite lookup_empty. destruct (bool_decide _); [|reflexivity].
  now destruct (dict_get n found).
Qed.

Lemma after_pass1_matches (expected_names : list string) :
  matches (after_pass1 found expected_names file_ext)
  = map (exact_match file_ext)
        (List.filter (fun n => bool_decide (is_Some (dict_get n found)))
                     expected_names).
Proof. unfold after_pass1. now rewrite pass1_matches. Qed.

(** The names that pass 1 leaves over. *)
Lemma remaining0_eq (expected_names : list string) :
  List.filter
    (fun n => negb (bool_decide
       (is_Some (matched (after_pass1 found expected_names file_ext) !! n))))
    expected_names
  = List.filter (fun n => negb (bool_decide (is_Some (dict_get n found))))
                expected_names.
Proof.
  apply filter_ext_in. intros n Hn. rewrite after_pass1_matched.
  apply list_elem_of_In in Hn.
  now rewrite (bool_decide_eq_true_2 (n ∈ expected_names)) by exact Hn.
Qed.

(** *** The loops of passes 2 to 4 *)

Variable step : MatchState -> string -> MatchState.
Hypothesis step_assigns : assigning_step found file_ext step.

Lemma fold_link (names l : list string) (st : MatchState) :
  (forall x, In x l -> In x names) ->
  link_inv found file_ext names st ->
  link_inv found file_ext names (fold_left step l st).
Proof.
  revert st. induction l as [|x l IH]; intros st Hl Hi; [exact Hi|].
  cbn [fold_left]. apply IH; [intros y Hy; apply Hl; now right|].
  destruct (step_assigns st x)
    as [-> | (kind & msg & orig & path & Hin & Hk & ->)]; [exact Hi|].
  destruct Hi as [Hm Hr]. split.
  - intros exp p. cbn [assign matched matches].
    destruct (decide (x = exp)) as [<- | Hne].
    + rewrite lookup_insert_eq. intros [= <-].
      split; [apply Hl; now left|].
      exists orig, {| expected_name := x; actual_filename := orig +:+ file_ext;
                      match_type := kind; issue := msg |}.
      repeat split; auto.
      * apply in_or_app. right. now left.
      * unfold assigns. cbn. tauto.
    + rewrite lookup_insert_ne by exact Hne. intros H.
      destruct (Hm _ _ H) as (Hn & o & m & H1 & H2 & H3).
      split; [exact Hn|]. exists o, m. repeat split; try tauto.
      apply in_or_app. now left.
  - intros y Hy. cbn [assign remaining] in Hy.
    apply Hr. now apply list_remove_incl in Hy.
Qed.

Lemma fold_frame (st1 : MatchState) (R l : list string) (st : MatchState) :
  (forall x, In x l -> In x R) ->
  frame_inv st1 R st -> frame_inv st1 R (fold_left step l st).
Proof.
  revert st. induction l as [|x l IH]; intros st Hl Hi; [exact Hi|].
  cbn [fold_left]. apply IH; [intros y Hy; apply Hl; now right|].
  destruct (step_assigns st x)
    as [-> | (kind & msg & orig & path & Hin & Hk & ->)]; [exact Hi|].
  destruct Hi as (Hm & Hs & Hp & Hr). repeat split.
  - intros k Hk'. cbn [assign matched].
    rewrite lookup_insert_ne; [now apply Hm|].
    intros <-. apply Hk', Hl. now left.
  - intros m Hin'. cbn [assign matches] in Hin'.
    apply in_app_or in Hin' as [Hin' | [<- | []]]; [now apply Hs|].
    right. apply Hl. now left.
  - intros m Hin'. cbn [assign matches]. apply in_or_app. left. now apply Hp.
  - intros y Hy. cbn [assign remaining] in Hy.
    apply Hr. now apply list_remove_incl in Hy.
Qed.

Lemma fold_perm (l : list string) (st : MatchState) :
  (forall v, count_occ string_dec l v <= count_occ string_dec (remaining st) v) ->
  let st' := fold_left step l st in
  Permutation (map expected_name (matches st') ++ remaining st')
              (map expected_name (matches st) ++ remaining st).
Proof.
  revert st. induction l as [|x l IH]; intros st Hc; [reflexivity|].
  cbn [fold_left]. cbv zeta.
  assert (Hx : In x (remaining st)).
  { apply (count_occ_In string_dec). specialize (Hc x). simpl in Hc.
    destruct (string_dec x x); [lia | contradiction]. }
  destruct (step_assigns st x)
    as [E | (kind & msg & orig & path & Hin & Hk & E)]; rewrite E.
  - apply IH. intros v. specialize (Hc v). simpl in Hc.
    destruct (string_dec x v); lia.
  - etransitivity.
    + apply IH. intros v. specialize (Hc v). simpl in Hc.
      cbn [assign remaining].
      pose proof (count_list_remove x v _ Hx) as E'.
      destruct (string_dec x v); lia.
    + cbn [assign matches remaining]. rewrite map_app, <- app_assoc.
      apply Permutation_app_head. cbn [map app expected_name].
      now apply list_remove_perm.
Qed.

End Matcher.

Section MatcherResult.
Variable found : found_dict.
Variable expected_names : list string.
Variable file_ext : string.

Lemma after_pass4_unfold :
  after_pass4 found expected_names file_ext
  = let st2 :=
      fold_left (pass2_step (build_found_lower found
                               (used (after_pass1 found expected_names file_ext)))
                            file_ext)
                (pass1_leftover found expected_names file_ext)
                (pass2_start found expected_names file_ext) in
    let st3 := fold_left (pass3_step (build_found_norm found) file_ext)
                         (remaining st2) st2 in
    fold_left (pass4_step found file_ext) (remaining st3) st3.
Proof. reflexivity. Qed.

Lemma through_passes (I : MatchState -> Prop) :
  (forall step l st, assigning_step found file_ext step ->
     (forall x, In x l -> In x (remaining st)) ->
     I st -> I (fold_left step l st)) ->
  I (pass2_start found expected_names file_ext) ->
  I (after_pass4 found expected_names file_ext).
Proof.
  intros Hfold H1. rewrite after_pass4_unfold. cbv zeta.
  apply Hfold; [apply pass4_assigning | auto |].
  apply Hfold; [apply pass3_assigning | auto |].
  apply Hfold; [apply pass2_assigning | auto | exact H1].
Qed.

Lemma link_after_pass4 :
  link_inv found file_ext expected_names
           (after_pass4 found expected_names file_ext).
Proof.
  apply through_passes.
  - intros step l st Hs Hl Hi.
    apply (fold_link found file_ext step Hs); [|exact Hi].
    intros x Hx. apply Hi, Hl, Hx.
  - split.
    + intros exp path. cbn [pass2_start matched matches].
      rewrite after_pass1_matched, after_pass1_matches.
      destruct (bool_decide (exp ∈ expected_names)) eqn:E; [|discriminate].
      apply bool_decide_eq_true, list_elem_of_In in E. intros Hg.
      split; [exact E|]. exists exp, (exact_match file_ext exp).
      repeat split.
      * now apply dict_get_In.
      * apply in_map, filter_In. split; [exact E|].
        apply bool_decide_eq_true. rewrite Hg. eauto.
      * unfold assigns. now left.
    + intros x Hx. cbn [pass2_start remaining] in Hx. unfold pass1_leftover in Hx.
      now apply filter_In in Hx as [Hx _].
Qed.

Lemma frame_after_pass4 :
  frame_inv (after_pass1 found expected_names file_ext)
            (pass1_leftover found expected_names file_ext)
            (after_pass4 found expected_names file_ext).
Proof.
  apply through_passes.
  - intros step l st Hs Hl Hi.
    apply (fold_frame found file_ext step Hs); [|exact Hi].
    intros x Hx. apply Hi, Hl, Hx.
  - repeat split; auto.
Qed.

Lemma perm_after_pass4 :
  let st := after_pass4 found expected_names file_ext in
  Permutation (map expected_name (matches st) ++ remaining st) expected_names.
Proof.
  cbv zeta. rewrite after_pass4_unfold. cbv zeta.
  rewrite (fold_perm found file_ext _ (pass4_assigning found file_ext)) by auto.
  rewrite (fold_perm found file_ext _ (pass3_assigning found file_ext)) by auto.
  rewrite (fold_perm found file_ext _ (pass2_assigning found file_ext _)) by auto.
  cbn [pass2_start matches remaining]. unfold pass1_leftover.
  rewrite remaining0_eq, after_pass1_matches, map_map. cbn [exact_match expected_name].
  rewrite map_id. apply filter_split_perm.
Qed.

End MatcherResult.

(** The match list of [_match_files] holds exactly one match for every
    expected name: its expected names are the given names, up to order. *)
Theorem one_match_per_expected_name (found : found_dict)
    (expected_names : list string) (file_ext : string) :
  Permutation (map expected_name (_match_files found expected_names file_ext).1.2)
              expected_names.
Proof.
  unfold _match_files. cbn [fst snd].
  rewrite map_app, map_map. cbn [not_found_match expected_name].
  rewrite map_id. apply perm_after_pass4.
Qed.

(** Every entry of the [matched] dict of [_match_files] maps an expected
    name to the path of a found file, and the match list records that
    assignment as exact, case_fix or fuzzy. *)
Theorem matched_files_are_found (found : found_dict)
    (expected_names : list string) (file_ext : string) (exp path : string) :
  (_match_files found expected_names file_ext).1.1 !! exp = Some path ->
  In exp expected_names /\
  exists orig m,
    In (orig, path) found /\
    In m (_match_files found expected_names file_ext).1.2 /\
    expected_name m = exp /\ actual_filename m = orig +:+ file_ext /\
    assigns (match_type m).
Proof.
  unfold _match_files. cbn [fst snd]. intros H.
  destruct (link_after_pass4 found expected_names file_ext) as [Hm _].
  destruct (Hm _ _ H) as (Hn & orig & m & H1 & H2 & H3).
  split; [exact Hn|]. exists orig, m. repeat split; try tauto.
  apply in_or_app. now left.
Qed.

(** An expected name for which a file of exactly that name was found is
    matched to that file by pass 1 and stays so: [matched] maps it to the
    file's path, the match list holds its exact match, and every match
    recorded for it is that one. *)
Theorem exact_name_wins (found : found_dict) (expected_names : list string)
    (file_ext : string) (exp path : string) :
  In exp expected_names -> dict_get exp found = Some path ->
  (_match_files found expected_names file_ext).1.1 !! exp = Some path /\
  In (exact_match file_ext exp)
     (_match_files found expected_names file_ext).1.2 /\
  forall m, In m (_match_files found expected_names file_ext).1.2 ->
            expected_name m = exp -> m = exact_match file_ext exp.
Proof.
  intros Hin Hg. unfold _match_files. cbn [fst snd].
  destruct (frame_after_pass4 found expected_names file_ext)
    as (Hm & Hs & Hp & Hr).
  assert (Hout : ~ In exp (pass1_leftover found expected_names file_ext)).
  { unfold pass1_leftover. rewrite remaining0_eq. intros H. apply filter_In in H as [_ H].
    apply negb_true_iff, bool_decide_eq_false in H. apply H. rewrite Hg. eauto. }
  assert (H1 : forall m, In m (matches (after_pass1 found expected_names file_ext)) ->
                 expected_name m = exp -> m = exact_match file_ext exp).
  { intros m Hmi He. rewrite after_pass1_matches in Hmi.
    apply in_map_iff in Hmi as (n & <- & _). cbn in He. now subst n. }
  repeat split.
  - rewrite (Hm _ Hout), after_pass1_matched.
    apply list_elem_of_In in Hin.
    now rewrite (bool_decide_eq_true_2 (exp ∈ expected_names)) by exact Hin.
  - apply in_or_app. left. apply Hp. rewrite after_pass1_matches. apply in_map, filter_In.
    split; [exact Hin|]. apply bool_decide_eq_true. rewrite Hg. eauto.
  - intros m Hmi He. apply in_app_or in Hmi as [Hmi | Hmi].
    + destruct (Hs _ Hmi) as [H | H]; [now apply H1|].
      rewrite He in H. contradiction.
    + apply in_map_iff in Hmi as (n & <- & Hn). cbn in He. subst n.
      apply Hr in Hn. contradiction.
Qed.

(** ** The chip results of a graded submission *)

Lemma partial_credit_counts (cmp_file out_file : file_state) (mx : Q) :
  let '(_, ps, tests, _, _, _) := _partial_credit cmp_file out_file mx in
  (0 <= ps <= tests)%Z.
Proof.
  destruct cmp_file as [|e|ct]; try (simpl; lia);
    destruct out_file as [|e'|ot]; try (simpl; lia).
  destruct (Nat.ltb_spec (length (Py.splitlines ct)) 2) as [Hs|Hl].
  - unfold _partial_credit.
    destruct (Nat.ltb_spec (length (Py.splitlines ct)) 2); [simpl; lia | lia].
  - destruct (partial_credit_text ct ot mx Hl) as (fl & fe & fa & -> & Hp & _).
    exact Hp.
Qed.

Lemma run_in_sandbox_ok (env : Env) (chip : string)
    (matched : gmap string string) (project : Cfg.Project) (mx : Q)
    (work : bool) :
  chip_ok (run_in_sandbox env chip matched project mx work).
Proof.
  unfold run_in_sandbox.
  destruct (run_sandbox env _ chip matched) as [e|so se cf outf].
  - destruct e; chip_ok_tac.
  - destruct (success_marker _).
    + destruct (cmp_fixture env _ chip); chip_ok_tac.
    + destruct (failure_marker _).
      * pose proof (partial_credit_counts cf outf mx) as Hb.
        destruct (_partial_credit cf outf mx) as [[[[[p ps] tests] fl] fe] fa].
        chip_ok_tac.
      * destruct work; chip_ok_tac.
Qed.

Lemma run_one_ok (env : Env) (chip : string) (matched : gmap string string)
    (project : Cfg.Project) (w : world) (cr : ChipResult) :
  (_run_one env chip matched project w).1 = Ret cr -> chip_ok cr.
Proof.
  unfold _run_one.
  destruct (matched !! chip) as [src|]; [|intros [= <-]; chip_ok_tac].
  destruct (_ && _); [intros [= <-]; chip_ok_tac|].
  destruct (tst_exists env _ chip) as [[|]|e]; [| |discriminate];
    [|intros [= <-]; chip_ok_tac].
  unfold bind, mkdtemp, try_finally, ret.
  destruct (mkdtemp_error env _); [discriminate|]. intros [= <-].
  apply run_in_sandbox_ok.
Qed.

Lemma missing_chips_ok (pts : gmap string Q) (ext : string)
    (cs : list string) (rs : list ChipResult) :
  missing_chips pts ext cs = Ret rs -> Forall chip_ok rs.
Proof.
  revert rs. induction cs as [|c cs IH]; intros rs; simpl.
  - intros [= <-]. constructor.
  - destruct (pts !! c) as [mx|]; [|discriminate].
    destruct (missing_chips pts ext cs) as [rs'|e]; [|discriminate].
    intros [= <-]. constructor; [chip_ok_tac | now apply IH].
Qed.

Lemma projects_total (n : Z) (rp : Cfg.RawProject) :
  Cfg.PROJECTS !! n = Some rp ->
  Py.round (Cfg.sum (map snd (Cfg.chips rp))) 2 = 10%Q.
Proof.
  intros H. apply elem_of_list_to_map_2 in H.
  repeat (apply elem_of_cons in H as [H | H];
          [injection H as -> ->; vm_compute; reflexivity|]).
  now apply elem_of_nil in H.
Qed.

Lemma projects_total_cents (n : Z) (rp : Cfg.RawProject) :
  Cfg.PROJECTS !! n = Some rp ->
  Py.round_half_even (Cfg.sum (map snd (Cfg.chips rp)) * inject_Z (Py.pow10 2))
  = 1000%Z.
Proof.
  intros H. apply elem_of_list_to_map_2 in H.
  repeat (apply elem_of_cons in H as [H | H];
          [injection H as -> ->; vm_compute; reflexivity|]).
  now apply elem_of_nil in H.
Qed.

Lemma Qsame_eq (a b : Q) : Qsame a b = true -> a = b.
Proof.
  destruct a as [an ad], b as [bn bd]. unfold Qsame. simpl. intros H.
  apply andb_true_iff in H as [Hn Hd].
  apply Z.eqb_eq in Hn. apply Pos.eqb_eq in Hd. now subst.
Qed.

(** For every number of cents up to 10 points, the percentage computed in
    float arithmetic is the float of a tenth of the cents. *)
Lemma percent_table : forallb percent_ok cents_range = true.
Proof. vm_compute. reflexivity. Qed.

Lemma percent_of_cents (k : Z) :
  (0 <= k <= 1000)%Z ->
  Py.round (Py.fmul (Py.fdiv (Py.float (inject_Z k / 100)) 10)
                    (Py.of_int 100)) 1
  = Py.float (inject_Z k / 10).
Proof.
  intros Hk. apply Qsame_eq.
  pose proof percent_table as H. rewrite forallb_forall in H.
  apply (H k). unfold cents_range. apply in_map_iff.
  exists (Z.to_nat k). split; [lia|]. apply in_seq. lia.
Qed.

(** The facts on a returned result that the properties below share. *)
Lemma graded_result_facts (env : Env) (zip_path student_name : string)
    (user_id : Z) (project_num : option Z) (zip_filename : string)
    (w w' : world) (r : GradingResult) :
  grade_student env zip_path student_name user_id project_num zip_filename w
  = (Ret r, w') ->
  exists p,
    Cfg.get_project (ACTIVE_PROJECT env) project_num = Ret p /\
    total_possible r = 10%Q /\
    total_earned r = Py.round (Cfg.sum (map points (chips r))) 2 /\
    Forall chip_ok (chips r) /\
    Forall2 (fun cr kv => name cr = kv.1 /\ max_points cr = kv.2 /\
                          (0 <= points cr <= kv.2)%Q)
            (chips r) (Cfg.chips (Cfg.raw p)).
Proof.
  unfold grade_student, bind, lift.
  destruct (Cfg.get_project (ACTIVE_PROJECT env) project_num) as [p|e0] eqn:Hp;
    [|discriminate].
  destruct (get_project_ret _ _ _ Hp) as (Hdef & Hnames & Hpts & Htot).
  rewrite (projects_total _ _ Hdef) in Htot.
  destruct (project_ok_chips _ (projects_ok _ _ Hdef)) as [Hnd Hok].
  pose proof (points_fold_nodup _ ∅ Hnd) as Hlook.
  fold (Cfg.points_dict (Cfg.chips (Cfg.raw p))) in Hlook. rewrite <- Hpts in Hlook.
  assert (Hmx : Forall2 (fun c kv => c = kv.1 /\
                           Cfg.chip_points p !! c = Some kv.2
                           /\ cents_ok kv.2 = true)
                        (Cfg.chip_names p) (Cfg.chips (Cfg.raw p))).
  { rewrite Hnames. clear -Hok Hlook.
    induction (Cfg.chips (Cfg.raw p)) as [|[k v] cs IH]; simpl; [constructor|].
    inversion Hok; subst. inversion Hlook; subst. constructor; auto. }
  destruct (_extract_zip env zip_path _ w) as [[[tmp raw_found]|e] w1];
    [|discriminate].
  unfold try_finally, bind, lift.
  destruct (check_zip_naming _ _ _ _) as [z|e]; [|discriminate].
  destruct raw_found as [|kv raw_found].
  - destruct (missing_chips _ _ _) as [rs|e] eqn:Hmiss; [|discriminate].
    pose proof (missing_chips_ok _ _ _ _ Hmiss) as Hshape.
    destruct (missing_chips_ret _ (Cfg.file_ext (Cfg.raw p)) _
                (chip_names_have_points _ _ _ Hp)) as (rs' & Hr' & Hrs & Hn).
    rewrite Hmiss in Hr'. injection Hr' as <-.
    intros [= <- _]. exists p. split; [reflexivity|].
    cbn [total_earned total_possible chips].
    assert (Hz : Forall (fun x => x = 0%Q) (map points rs)).
    { clear -Hrs. induction Hrs as [|x l [H _] _ IH]; simpl; constructor; auto. }
    repeat split.
    + exact Htot.
    + unfold Cfg.sum. rewrite (fold_fadd_zeros _ Hz). symmetry. apply round_zero.
    + exact Hshape.
    + clear Hz Hshape Hmiss. revert Hmx. rewrite <- Hn. clear -Hrs.
      generalize (Cfg.chips (Cfg.raw p)) as vs.
      induction Hrs as [|x l (H0 & _ & Hx) _ IH]; intros vs Hmx;
        inversion Hmx as [|? v ? vs' (Hk & Hv & Hv0) Hrest]; subst;
        constructor; [|now apply IH].
      rewrite Hx in Hv. injection Hv as Hv. rewrite H0.
      apply cents_ok_nonneg in Hv0.
      repeat split; auto. apply Qle_refl.
  - destruct (_match_files _ _ _) as [[matched fmatches] extra].
    destruct (run_chips env matched p _ _ w1) as [[ran|e] w2] eqn:Hrun;
      [|discriminate].
    intros [= <- _]. exists p. split; [reflexivity|].
    cbn [total_earned total_possible chips].
    destruct (run_chips_results _ _ _ _ _ _ _ _ Hrun) as (rs & -> & H2 & Hall).
    cbn [fst snd app] in *.
    repeat split.
    + exact Htot.
    + now rewrite H2.
    + clear -Hall. induction Hall as [|c cr cs rs Hc _ IH]; constructor; auto.
      now apply run_one_ok in Hc.
    + clear -Hall Hmx. revert Hmx.
      generalize (Cfg.chips (Cfg.raw p)) as vs.
      induction Hall as [|c cr cs rs Hc _ IH]; intros vs Hmx;
        inversion Hmx as [|? v ? vs' (Hk & Hv & Hv0) Hrest]; subst;
        constructor; [|now apply IH].
      destruct (run_one_points _ _ _ _ _ _ Hc) as (Hn & Hm & Hbd).
      rewrite Hv in Hm, Hbd. simpl in Hm, Hbd. auto.
Qed.

(** Every chip result of a returned [GradingResult] is well formed: its
    category is one of pass, missing, builtin, mismatch, syntax, timeout and
    internal; it passed exactly in category pass, with full points and every
    test passed; missing, builtin and internal give zero points; the passed
    tests never exceed the tests; only a mismatch carries a failing line. *)
Theorem graded_chips_well_formed (env : Env) (zip_path student_name : string)
    (user_id : Z) (project_num : option Z) (zip_filename : string)
    (w w' : world) (r : GradingResult) :
  grade_student env zip_path student_name user_id project_num zip_filename w
  = (Ret r, w') ->
  Forall chip_ok (chips r).
Proof.
  intros H. destruct (graded_result_facts _ _ _ _ _ _ _ _ _ H) as (p & _ & _ & _ & Hc & _).
  exact Hc.
Qed.

Lemma sum_bounds (rs : list ChipResult) (kvs : list (string * Q)) (a b : Q) :
  Forall2 (fun cr kv => name cr = kv.1 /\ max_points cr = kv.2 /\
                        (0 <= points cr <= kv.2)%Q) rs kvs ->
  (0 <= a <= b)%Q ->
  (0 <= fold_left Py.fadd (map points rs) a
     <= fold_left Py.fadd (map snd kvs) b)%Q.
Proof.
  intros H. apply fold_fadd_le.
  induction H as [|cr kv rs kvs (_ & _ & H0) _ IH]; simpl; constructor; auto.
Qed.

(** The percentage of a returned [GradingResult] is defined.  Every project
    is worth 10 points; the total earned is the float of [k / 100] for a
    number [k] of cents between 0 and 1000, and the percentage is the float
    of [k / 10]: ten times the total earned, up to the rounding of floats.
    It lies between 0 and 100. *)
Theorem graded_percentage (env : Env) (zip_path student_name : string)
    (user_id : Z) (project_num : option Z) (zip_filename : string)
    (w w' : world) (r : GradingResult) :
  grade_student env zip_path student_name user_id project_num zip_filename w
  = (Ret r, w') ->
  total_possible r = 10%Q /\
  exists k : Z,
    (0 <= k <= 1000)%Z /\
    total_earned r = Py.float (inject_Z k / 100) /\
    percentage r = Ret (Py.float (inject_Z k / 10)) /\
    (0 <= Py.float (inject_Z k / 10) <= 100)%Q.
Proof.
  intros H.
  destruct (graded_result_facts _ _ _ _ _ _ _ _ _ H)
    as (p & Hp & Htp & Hte & _ & Hb).
  destruct (get_project_ret _ _ _ Hp) as (Hdef & _).
  split; [exact Htp|].
  destruct (sum_bounds _ _ 0 0 Hb) as [H0 H1]; [split; apply Qle_refl|].
  fold (Cfg.sum (map points (chips r))) in H0, H1.
  fold (Cfg.sum (map snd (Cfg.chips (Cfg.raw p)))) in H1.
  set (s := Cfg.sum (map points (chips r))) in *.
  exists (Py.round_half_even (s * inject_Z (Py.pow10 2))).
  assert (Hk : (0 <= Py.round_half_even (s * inject_Z (Py.pow10 2)) <= 1000)%Z).
  { split.
    - rewrite <- (rhe_inject 0). apply rhe_mono.
      change (inject_Z 0) with 0%Q. apply Qmult_le_0_compat; [exact H0|].
      apply Qlt_le_weak, pow10_Qpos.
    - rewrite <- (projects_total_cents _ _ Hdef). apply rhe_mono.
      apply Qmult_le_compat_r; [exact H1|]. apply Qlt_le_weak, pow10_Qpos. }
  split; [exact Hk|].
  assert (Hte' : total_earned r
                 = Py.float (inject_Z (Py.round_half_even
                                         (s * inject_Z (Py.pow10 2))) / 100))
    by exact Hte.
  split; [exact Hte'|]. split.
  - unfold percentage, truediv. rewrite Htp, Hte'.
    change (Qeq_bool 10 0) with false. cbv iota.
    f_equal. now apply percent_of_cents.
  - split.
    + apply float_nonneg. apply Qle_shift_div_l; [reflexivity|].
      rewrite Qmult_0_l. change 0%Q with (inject_Z 0). rewrite <- Zle_Qle. lia.
    + apply Qle_trans with (Py.float 100);
        [|apply Qle_bool_iff; vm_compute; reflexivity].
      apply float_mono.
      * apply Qle_shift_div_l; [reflexivity|].
        rewrite Qmult_0_l. change 0%Q with (inject_Z 0).
        rewrite <- Zle_Qle. lia.
      * apply Qle_shift_div_r; [reflexivity|].
        change (100 * 10)%Q with (inject_Z 1000). rewrite <- Zle_Qle. lia.
Qed.

(** ** Archive names that pass the naming check *)

Lemma drop_str_append (a p : string) : Py.drop_str (Py.len a) (a +:+ p) = p.
Proof. induction a as [|c a IH]; simpl; [now destruct p | exact IH]. Qed.

Lemma take_str_append (a p : string) : Py.take_str (Py.len a) (a +:+ p) = a.
Proof.
  unfold Py.take_str. induction a as [|c a IH]; simpl; [now destruct p|].
  now rewrite IH.
Qed.

Lemma endswith_append (a p : string) : Py.endswith (a +:+ p) p = true.
Proof.
  unfold Py.endswith, Py.len. rewrite length_append.
  replace (String.length a + String.length p - String.length p)
    with (Py.len a) by (unfold Py.len; lia).
  rewrite drop_str_append, String.eqb_refl.
  apply andb_true_iff. split; [apply Nat.leb_le; lia | reflexivity].
Qed.

Lemma zip_stem_append (e suffix : string) :
  Py.lower suffix = ".zip" -> zip_stem (e +:+ suffix) = e.
Proof.
  intros Hs. unfold zip_stem. rewrite lower_append, Hs, endswith_append.
  assert (Hl : Py.len suffix = 4) by (rewrite <- len_lower, Hs; reflexivity).
  unfold Py.drop_last, Py.len in *. rewrite length_append, Hl.
  replace (String.length e + 4 - 4) with (Py.len e) by (unfold Py.len; lia).
  apply take_str_append.
Qed.

(** The archive named as the naming check expects, with the extension
    [.zip] in any letter case, passes the check of a defined project: it is
    flagged correct and no issue is reported. *)
Theorem canonical_zip_accepted (active : Z) (student_name suffix : string)
    (n : Z) (rp : Cfg.RawProject) :
  Cfg.PROJECTS !! n = Some rp -> Py.lower suffix = ".zip" ->
  check_zip_naming active (expected_zip_name student_name n +:+ suffix)
                   student_name n
  = Ret {| original_filename := expected_zip_name student_name n +:+ suffix;
           is_correct := true;
           expected_pattern := expected_zip_name student_name n +:+ ".zip";
           zip_issue := "" |}.
Proof.
  intros Hdef Hs. destruct (get_project_some active n rp Hdef) as (p & Hp & _).
  unfold check_zip_naming. rewrite Hp.
  assert (Hne : String.eqb (expected_zip_name student_name n +:+ suffix) ""
                = false).
  { apply String.eqb_neq. intros E. apply (f_equal String.length) in E.
    rewrite length_append in E.
    assert (Hl : Py.len suffix = 4) by (rewrite <- len_lower, Hs; reflexivity).
    unfold Py.len in Hl. simpl in E. lia. }
  rewrite Hne, (zip_stem_append _ _ Hs).
  destruct (name_tokens student_name) as [first last].
  now rewrite String.eqb_refl.
Qed.

(** The naming check reports an issue exactly when it does not flag the
    archive name as correct. *)
Theorem zip_issue_iff_incorrect (active : Z) (filename student_name : string)
    (n : Z) (z : ZipNaming) :
  check_zip_naming active filename student_name n = Ret z ->
  (is_correct z = true <-> zip_issue z = "") /\
  original_filename z = filename.
Proof.
  unfold check_zip_naming.
  destruct (Cfg.get_project active (Some n)) as [p|e]; [|discriminate].
  destruct (String.eqb_spec filename "") as [-> | Hne].
  - intros [= <-]. cbn. split; [split; discriminate | reflexivity].
  - destruct (name_tokens student_name) as [first last].
    destruct (String.eqb (zip_stem filename) _).
    + intros [= <-]. cbn. split; [split; reflexivity | reflexivity].
    + destruct (_ ++ _); intros [= <-]; cbn;
        (split; [split; discriminate | reflexivity]).
Qed.

(** ** Project detection *)

Lemma keyword_project_defined (s : string) (n : Z) :
  keyword_project s = Some n -> n <> 0%Z /\ is_Some (Cfg.PROJECTS !! n).
Proof.
  unfold keyword_project.
  destruct (List.find _ PROJECT_KEYWORDS) as [[k kws]|] eqn:E; [|discriminate].
  intros [= <-]. apply find_some in E as [Hin _]. cbn [fst].
  unfold PROJECT_KEYWORDS in Hin.
  repeat (destruct Hin as [Hin | Hin];
          [injection Hin as <- _; split; [discriminate | now eexists]|]).
  destruct Hin.
Qed.

Lemma get_project_defined (active n : Z) :
  n <> 0%Z -> is_Some (Cfg.PROJECTS !! n) ->
  exists rp, Cfg.PROJECTS !! n = Some rp /\
             Cfg.get_project active (Some n) = Ret (Cfg.with_computed n rp).
Proof.
  intros Hn [rp Hrp]. exists rp. split; [exact Hrp|].
  unfold Cfg.get_project. destruct (Z.eqb_spec n 0) as [E | _]; [contradiction|].
  now rewrite Hrp.
Qed.

Lemma projects_nonzero (n : Z) : is_Some (Cfg.PROJECTS !! n) -> n <> 0%Z.
Proof. intros [rp H] ->. rewrite projects_zero in H. discriminate. Qed.

(** [detect_project] never falls back to the active project: what it
    returns is [None] or a project of the table under its own number; and it
    raises only when the homework number found in the name has more digits
    than the interpreter converts. *)
Theorem detect_project_sound (active : Z) (max_str_digits : nat)
    (assignment_name : string) :
  match detect_project active max_str_digits assignment_name with
  | Ret None => True
  | Ret (Some p) =>
      exists n rp, Cfg.PROJECTS !! n = Some rp /\ p = Cfg.with_computed n rp
  | Raise e =>
      exists g, re_search_group hw_number_at (Py.lower assignment_name) = Some g
                /\ 0 < max_str_digits < Py.len g
                /\ e = ValueError (int_limit_msg max_str_digits (Py.len g))
  end.
Proof.
  unfold detect_project.
  set (s := Py.lower assignment_name).
  assert (Hkw : match match keyword_project s with
                      | Some num =>
                          match Cfg.get_project active (Some num) with
                          | Ret p => Ret (Some p)
                          | Raise e => Raise e
                          end
                      | None => Ret None
                      end with
                | Ret None => True
                | Ret (Some p) =>
                    exists n rp, Cfg.PROJECTS !! n = Some rp /\
                                 p = Cfg.with_computed n rp
                | Raise e => False
                end).
  { destruct (keyword_project s) as [num|] eqn:E; [|exact I].
    destruct (keyword_project_defined _ _ E) as [Hn Hd].
    destruct (get_project_defined active num Hn Hd) as (rp & Hrp & ->).
    eauto. }
  destruct (re_search_group hw_number_at s) as [g|] eqn:Hg.
  - unfold py_int.
    destruct (negb (max_str_digits =? 0) && (max_str_digits <? Py.len g)) eqn:Hl.
    + exists g. split; [reflexivity|]. split; [|reflexivity].
      apply andb_true_iff in Hl as [H0 H1].
      apply negb_true_iff, Nat.eqb_neq in H0. apply Nat.ltb_lt in H1. lia.
    + destruct (bool_decide (is_Some (Cfg.PROJECTS !! digits_value 0 g))) eqn:Hd.
      * apply bool_decide_eq_true in Hd.
        destruct (get_project_defined active _ (projects_nonzero _ Hd) Hd)
          as (rp & Hrp & ->). eauto.
      * destruct (match keyword_project s with Some _ => _ | None => _ end)
          as [[p|]|e]; tauto.
  - destruct (match keyword_project s with Some _ => _ | None => _ end)
      as [[p|]|e]; tauto.
Qed.

Lemma lower_digit (d : ascii) : Py.isdigit d = true -> Py.lower_char d = d.
Proof. ascii_cases d; (reflexivity || discriminate). Qed.

(** A name that begins with [homework], [hw] or [project] in any letter
    case, then a blank and a one-digit number of a defined project, is
    detected as that project, whatever keywords follow. *)
Theorem detect_project_number_first (active : Z) (max_str_digits : nat)
    (kw : string) (d : ascii) (rest : string) (rp : Cfg.RawProject) :
  In (Py.lower kw) ["homework"; "hw"; "project"] ->
  Py.isdigit d = true ->
  (forall c r, rest = String c r -> Py.isdigit c = false) ->
  Cfg.PROJECTS !! (Z.of_nat (nat_of_ascii d - 48)) = Some rp ->
  detect_project active max_str_digits (kw +:+ " " +:+ String d rest)
  = Ret (Some (Cfg.with_computed (Z.of_nat (nat_of_ascii d - 48)) rp)).
Proof.
  intros Hkw Hd Hrest Hrp. unfold detect_project.
  rewrite lower_append.
  change (" " +:+ String d rest) with (String " " (String d rest)).
  cbn [Py.lower].
  change (Py.lower_char " ") with " "%char. rewrite (lower_digit d Hd).
  assert (Hsp : Py.isspace d = false) by (revert Hd; ascii_cases d; (reflexivity || discriminate)).
  assert (Hspan : span Py.isdigit (String d (Py.lower rest))
                  = (1, Py.lower rest)).
  { cbn [span]. rewrite Hd.
    destruct rest as [|c r]; [reflexivity|]. cbn [Py.lower span].
    rewrite isdigit_lower_char, (Hrest c r eq_refl). reflexivity. }
  assert (Hsharp : Ascii.eqb d "#" = false)
    by (revert Hd; ascii_cases d; (reflexivity || discriminate)).
  assert (Hg : re_search_group hw_number_at
                 (Py.lower kw +:+ String " " (String d (Py.lower rest)))
               = Some (String d "")).
  { destruct Hkw as [<- | [<- | [<- | []]]];
      match goal with
      | |- context [?a +:+ ?b] =>
          let t := eval cbv [String.app] in (a +:+ b) in change (a +:+ b) with t
      end;
      cbn [re_search_group];
      unfold hw_number_at; cbn [Py.startswith Ascii.eqb Bool.eqb andb Py.len
                                String.length Py.drop_str Py.lstrip];
      change (Py.isspace " ") with true; cbv iota;
      rewrite ?Hsp, ?Hsharp; cbn [Py.lstrip]; rewrite ?Hsp, Hspan;
      unfold Py.take_str; cbn [substring]; now destruct (Py.lower rest). }
  rewrite Hg. unfold py_int. cbn [Py.len String.length].
  replace (negb (max_str_digits =? 0) && (max_str_digits <? 1)) with false
    by (destruct max_str_digits as [|[|k]]; reflexivity).
  cbn [digits_value]. rewrite Z.mul_0_r, Z.add_0_l.
  rewrite bool_decide_eq_true_2 by eauto.
  destruct (get_project_defined active _ (projects_nonzero _ (ex_intro _ rp Hrp))
              (ex_intro _ rp Hrp)) as (rp' & Hrp' & ->).
  rewrite Hrp in Hrp'. now injection Hrp' as <-.
Qed.

(** ** The BUILTIN check *)

Lemma contains_startswith (s p : string) :
  Py.startswith s p = true -> Py.contains s p = true.
Proof. intros H. destruct s; simpl in *; now rewrite H. Qed.

Lemma builtin_search_contains (prev : bool) (s : string) :
  builtin_search prev s = true -> Py.contains (Py.lower s) "builtin" = true.
Proof.
  revert prev. induction s as [|c s IH]; intros prev H.
  - cbn in H. rewrite andb_false_r in H. discriminate.
  - cbn [builtin_search] in H. apply orb_true_iff in H as [H | H].
    + apply andb_true_iff in H as [H _]. apply andb_true_iff in H as [_ H].
      now apply contains_startswith.
    + cbn [Py.lower Py.contains]. rewrite (IH _ H). apply orb_true_r.
Qed.

Lemma startswith_append (p q : string) : Py.startswith (p +:+ q) p = true.
Proof.
  induction p as [|c p IH]; [now destruct q|].
  change (String c p +:+ q) with (String c (p +:+ q)).
  cbn [Py.startswith]. now rewrite Ascii.eqb_refl.
Qed.

Lemma builtin_search_word (prev : bool) (pre w post : string) :
  Py.lower w = "builtin" ->
  match pre with
  | EmptyString => negb prev
  | _ => ends_nonword pre
  end = true ->
  starts_nonword post = true ->
  builtin_search prev (pre +:+ w +:+ post) = true.
Proof.
  intros Hw Hpre Hpost. revert prev Hpre.
  induction pre as [|c pre IH]; intros prev Hpre.
  - change ("" +:+ w +:+ post) with (w +:+ post).
    assert (Hl : Py.len w = 7) by (rewrite <- len_lower, Hw; reflexivity).
    assert (H1 : Py.startswith (Py.lower (w +:+ post)) "builtin" = true)
      by (rewrite lower_append, Hw; apply startswith_append).
    assert (H2 : Py.drop_str 7 (w +:+ post) = post)
      by (rewrite <- Hl; apply drop_str_append).
    destruct (w +:+ post) as [|a r] eqn:E.
    + cbn in H1. discriminate.
    + cbn [builtin_search]. rewrite H1, H2, Hpre.
      unfold starts_nonword in Hpost. now rewrite Hpost.
  - change (String c pre +:+ w +:+ post) with (String c (pre +:+ w +:+ post)).
    cbn [builtin_search]. rewrite IH; [apply orb_true_r|].
    cbn [ends_nonword] in Hpre. now destruct pre.
Qed.

(** [_check_builtin] flags a source only if the word BUILTIN occurs in its
    text in some letter case; it flags every readable source in which the
    word stands between word boundaries; and it does not flag a source that
    cannot be read. *)
Theorem check_builtin_spec (env : Env) (path : string) :
  (_check_builtin env path = true ->
     exists text, read_source env path = Ret text /\
                  Py.contains (Py.lower text) "builtin" = true) /\
  (forall pre w post,
     read_source env path = Ret (pre +:+ w +:+ post) ->
     Py.lower w = "builtin" ->
     ends_nonword pre = true -> starts_nonword post = true ->
     _check_builtin env path = true) /\
  (forall e, read_source env path = Raise e -> _check_builtin env path = false).
Proof.
  unfold _check_builtin. repeat split.
  - destruct (read_source env path) as [text|e]; [|discriminate].
    intros H. exists text. split; [reflexivity|].
    now apply builtin_search_contains in H.
  - intros pre w post -> Hw Hpre Hpost.
    apply builtin_search_word; auto. now destruct pre.
  - now intros e ->.
Qed.

(** ** Cascade warnings *)

Lemma is_failed_elem (results : list ChipResult) (d : string) :
  is_failed results d = true <->
  d ∈ (list_to_set (map name (List.filter (fun c => negb (passed c)) results))
       : gset string).
Proof.
  unfold is_failed. rewrite elem_of_list_to_set, list_elem_of_In, existsb_exists.
  rewrite in_map_iff. split.
  - intros (c & Hin & H). apply andb_true_iff in H as [Hp Hn].
    apply String.eqb_eq in Hn. exists c. split; [exact Hn|].
    apply filter_In. auto.
  - intros (c & Hn & H). apply filter_In in H as [Hin Hp].
    exists c. split; [exact Hin|]. rewrite Hp. now apply String.eqb_eq.
Qed.

Lemma is_failed_decide (results : list ChipResult) (d : string) :
  bool_decide
    (d ∈ (list_to_set (map name (List.filter (fun c => negb (passed c)) results))
          : gset string))
  = is_failed results d.
Proof.
  destruct (is_failed results d) eqn:E.
  - apply bool_decide_eq_true. now apply is_failed_elem.
  - apply bool_decide_eq_false. intros H. apply is_failed_elem in H. congruence.
Qed.

(** [_cascades] warns exactly for the results whose chip failed and has a
    failed dependency, once per such result and in the order of the results;
    the warning lists the failed dependencies in the order of the table. *)
Theorem cascades_spec (results : list ChipResult)
    (deps : list (string * list string)) :
  _cascades results deps
  = map (cascade_warning results deps)
        (List.filter (fun c => is_failed results (name c)
                               && negb (0 =? length (broken_deps results deps c)))
                     results).
Proof.
  unfold _cascades.
  set (failed_names := list_to_set _ : gset string).
  assert (Hbody : forall l,
    flat_map
      (fun c =>
         if negb (bool_decide (name c ∈ failed_names)) then []
         else
           match List.filter (fun d => bool_decide (d ∈ failed_names))
                             (deps_get deps (name c)) with
           | [] => []
           | _ => [name c +:+ " likely fails because "
                   +:+ Py.join ", "
                         (List.filter (fun d => bool_decide (d ∈ failed_names))
                                      (deps_get deps (name c)))
                   +:+ " also broken"]
           end) l
    = map (cascade_warning results deps)
          (List.filter (fun c => is_failed results (name c)
                                 && negb (0 =? length (broken_deps results deps c)))
                       l)).
  { induction l as [|c l IH]; [reflexivity|].
    cbn [flat_map List.filter]. rewrite IH.
    unfold failed_names at 1. rewrite is_failed_decide.
    assert (Hbd : List.filter (fun d => bool_decide (d ∈ failed_names))
                              (deps_get deps (name c))
                  = broken_deps results deps c).
    { unfold broken_deps. apply filter_ext. intros d. apply is_failed_decide. }
    rewrite Hbd.
    destruct (is_failed results (name c)); cbn [negb andb]; [|reflexivity].
    destruct (broken_deps results deps c) as [|d bd] eqn:E; [reflexivity|].
    cbn [length Nat.eqb negb map app]. unfold cascade_warning. now rewrite E. }
  destruct (bool_decide (failed_names = ∅)) eqn:Hempty; [|apply Hbody].
  apply bool_decide_eq_true in Hempty.
  assert (Hnone : forall d, is_failed results d = false).
  { intros d. destruct (is_failed results d) eqn:E; [|reflexivity].
    apply is_failed_elem in E. fold failed_names in E. rewrite Hempty in E.
    now apply not_elem_of_empty in E. }
  assert (Hnil : forall l,
    List.filter (fun c => is_failed results (name c)
                          && negb (0 =? length (broken_deps results deps c))) l
    = []).
  { induction l as [|c l IH]; [reflexivity|].
    cbn [List.filter]. now rewrite Hnone. }
  now rewrite Hnil.
Qed.

(** ** A corrupt archive *)

(** A file that is not a zip archive does not make [grade_student] raise:
    the submission is graded as an empty one.  Every chip is missing with
    zero points, the total is zero, every expected name is recorded as not
    found, the one warning says that no source file was found, and the
    temporary directory is removed. *)
Theorem bad_zip_graded_as_empty (env : Env) (zip_path student_name : string)
    (user_id : Z) (project_num : option Z) (zip_filename : string)
    (w : world) (p : Cfg.Project) :
  Cfg.get_project (ACTIVE_PROJECT env) project_num = Ret p ->
  mkdtemp_error env "n2t_" = None ->
  open_zip env zip_path = BadZipFile ->
  let ext := Cfg.file_ext (Cfg.raw p) in
  exists r,
    grade_student env zip_path student_name user_id project_num zip_filename w
    = (Ret r, w) /\
    total_earned r = 0%Q /\
    map name (chips r) = Cfg.chip_names p /\
    Forall (fun c => passed c = false /\ points c = 0%Q /\
                     error_type c = "missing" /\
                     error_msg c = "No " +:+ ext +:+ " files in submission")
           (chips r) /\
    map expected_name (file_matches r) = Cfg.chip_names p /\
    Forall (fun m => match_type m = "not_found" /\ actual_filename m = "")
           (file_matches r) /\
    warnings r = ["No " +:+ ext +:+ " files found in zip"] /\
    extra_files r = [].
Proof.
  intros Hp Hd Hz ext. unfold grade_student, bind, lift. rewrite Hp.
  destruct (get_project_ret _ _ _ Hp) as (Hdef & _).
  unfold _extract_zip, bind, mkdtemp. rewrite Hd, Hz. unfold ret.
  unfold try_finally, bind, lift.
  destruct (check_zip_naming_defined (ACTIVE_PROJECT env) zip_filename
              student_name _ _ Hdef) as [z ->].
  destruct (missing_chips_shape _ ext _ (chip_names_have_points _ _ _ Hp))
    as (rs & Hr & Hn & Hrs).
  fold ext. rewrite Hr. unfold ret. eexists. split.
  - f_equal. apply mkdtemp_rmtree.
  - cbn [total_earned chips file_matches warnings extra_files].
    repeat split; auto.
    + rewrite map_map. cbn [expected_name]. apply map_id.
    + apply Forall_map. apply List.Forall_forall. intros c _. cbn. auto.
Qed.

(** ** The walk over the extracted archive *)

Lemma tree_ind_strong (P : tree -> Prop) :
  (forall d files subs, Forall P subs -> P (Dir d files subs)) ->
  forall t, P t.
Proof.
  intros H. fix IH 1. intros [d files subs]. apply H.
  induction subs as [|s subs IHs]; constructor; [apply IH | exact IHs].
Qed.

Lemma append_assoc' (a b c : string) : (a +:+ b) +:+ c = a +:+ (b +:+ c).
Proof.
  induction a as [|x a IH]; [reflexivity|].
  change (String x ((a +:+ b) +:+ c) = String x (a +:+ b +:+ c)).
  now rewrite IH.
Qed.

Lemma startswith_refl (s : string) : Py.startswith s s = true.
Proof.
  induction s as [|c s IH]; [reflexivity|].
  cbn [Py.startswith]. now rewrite Ascii.eqb_refl.
Qed.

Lemma startswith_prefix (s a b : string) :
  Py.startswith s (a +:+ b) = true -> Py.startswith s a = true.
Proof.
  revert s. induction a as [|x a IH]; intros s; [now destruct s|].
  change (String x a +:+ b) with (String x (a +:+ b)).
  destruct s as [|y s]; cbn [Py.startswith]; [discriminate|].
  intros H. apply andb_true_iff in H as [-> H]. now apply IH.
Qed.

Lemma startswith_extend (s x p : string) :
  Py.startswith s p = true -> Py.startswith (s +:+ x) p = true.
Proof.
  revert s. induction p as [|a p IH]; intros s; [now destruct (s +:+ x)|].
  destruct s as [|b s]; cbn [Py.startswith]; [discriminate|].
  change (String b s +:+ x) with (String b (s +:+ x)). cbn [Py.startswith].
  intros H. apply andb_true_iff in H as [-> H]. now apply IH.
Qed.

Lemma endswith_extend (a s p : string) :
  Py.endswith s p = true -> Py.endswith (a +:+ s) p = true.
Proof.
  unfold Py.endswith, Py.len. intros H. apply andb_true_iff in H as [H1 H2].
  apply Nat.leb_le in H1. rewrite length_append.
  apply andb_true_iff. split; [apply Nat.leb_le; lia|].
  replace (String.length a + String.length s - String.length p)
    with (String.length a + (String.length s - String.length p)) by lia.
  assert (G : forall k, Py.drop_str (String.length a + k) (a +:+ s)
                        = Py.drop_str k s).
  { intros k. induction a as [|c a IH]; [reflexivity|]. exact IH. }
  now rewrite G.
Qed.

(** Every directory that the walk visits lies under the top directory. *)
Lemma walk_under_root (t : tree) :
  forall root r fs, In (r, fs) (walk root t) ->
    Py.startswith (r +:+ "/") (root +:+ "/") = true.
Proof.
  induction t as [d files subs IH] using tree_ind_strong.
  intros root r fs. cbn [walk]. intros [[= <- _] | H]; [apply startswith_refl|].
  apply in_flat_map in H as (s & Hs & H).
  destruct (hidden (dirname_of s)); [destruct H|].
  rewrite List.Forall_forall in IH. apply (IH s Hs) in H.
  replace ((root +:+ "/" +:+ dirname_of s) +:+ "/")
    with ((root +:+ "/") +:+ (dirname_of s +:+ "/")) in H
    by (now rewrite !append_assoc').
  now apply startswith_prefix in H.
Qed.

(** What [_extract_zip] returns: a new temporary directory and a [found]
    dict with distinct keys; every key is non-empty, is not a hidden name
    and has no extension left, in any letter case; every value is a path
    under the temporary directory that ends with the extension. *)
Theorem extract_zip_found (env : Env) (zip_path file_ext : string)
    (w w' : world) (tmp : string) (found : found_dict) :
  file_ext <> "" ->
  _extract_zip env zip_path file_ext w = (Ret (tmp, found), w') ->
  (tmp ∉ w) /\ w' = {[tmp]} ∪ w /\
  NoDup (map fst found) /\
  Forall (fun kv =>
            kv.1 <> "" /\ hidden kv.1 = false /\
            Py.endswith (Py.lower kv.1) file_ext = false /\
            Py.startswith kv.2 (tmp +:+ "/") = true /\
            Py.endswith (Py.lower kv.2) file_ext = true) found.
Proof.
  intros Hext. unfold _extract_zip, bind, mkdtemp.
  destruct (mkdtemp_error env "n2t_"); [discriminate|].
  destruct (open_zip env zip_path) as [|e|t]; unfold ret, raise;
    [|discriminate|]; intros [= <- <- <-];
    (split; [apply is_fresh|]); (split; [reflexivity|]).
  - split; constructor.
  - destruct (collect_found_entries file_ext (walk (fresh w) t) Hext) as [Hnd Hok].
    split; [exact Hnd|].
    eapply Forall_impl; [exact Hok|]. cbv beta.
    intros kv (H1 & H2 & H3 & root & files & f & Hin & _ & Hv & _ & _ & He).
    repeat split; auto; rewrite Hv.
    + replace (root +:+ "/" +:+ f) with ((root +:+ "/") +:+ f)
        by (now rewrite append_assoc').
      apply startswith_extend. now apply walk_under_root in Hin.
    + replace (root +:+ "/" +:+ f) with ((root +:+ "/") +:+ f)
        by (now rewrite append_assoc').
      rewrite lower_append. now apply endswith_extend.
Qed.

(** ** The project table *)

Lemma projects_lookup (n : Z) :
  Cfg.PROJECTS !! n =
    if (n =? 1)%Z then Some Cfg.project01
    else if (n =? 2)%Z then Some Cfg.project02
    else if (n =? 3)%Z then Some Cfg.project03
    else if (n =? 4)%Z then Some Cfg.project04
    else if (n =? 5)%Z then Some Cfg.project05
    else None.
Proof.
  unfold Cfg.PROJECTS. cbn [list_to_map foldr fst snd uncurry].
  repeat match goal with
         | |- context [(n =? ?k)%Z] =>
             destruct (Z.eqb_spec n k) as [-> | ?];
             [repeat (rewrite lookup_insert_ne by discriminate);
              now rewrite lookup_insert_eq|]
         end.
  repeat (rewrite lookup_insert_ne by (intros E; symmetry in E; contradiction)).
  apply lookup_empty.
Qed.

(** [get_project] returns a project exactly for the numbers 1 to 5, where 0
    and no number stand for the active project, and raises [ValueError]
    otherwise.  In a returned project the chip names are distinct, the
    points dict holds exactly the pairs of the chip table, and the total is
    10 points, the sum of the chip points rounded to two decimals. *)
Theorem get_project_fields (active : Z) (project_num : option Z) :
  let num := effective_project active project_num in
  match Cfg.get_project active project_num with
  | Ret p =>
      (1 <= num <= 5)%Z /\ Cfg.number p = num /\
      Cfg.PROJECTS !! num = Some (Cfg.raw p) /\
      Cfg.chip_names p = map fst (Cfg.chips (Cfg.raw p)) /\
      NoDup (Cfg.chip_names p) /\
      (forall c v, Cfg.chip_points p !! c = Some v <->
                   In (c, v) (Cfg.chips (Cfg.raw p))) /\
      Cfg.total_points p = 10%Q /\
      Cfg.total_points p
      = Py.round (Cfg.sum (map snd (Cfg.chips (Cfg.raw p)))) 2
  | Raise e =>
      ~ (1 <= num <= 5)%Z /\
      e = ValueError ("Project " +:+ Py.str num +:+ " not defined")
  end.
Proof.
  cbv zeta. unfold Cfg.get_project.
  fold (effective_project active project_num).
  set (num := effective_project active project_num).
  destruct (Cfg.PROJECTS !! num) as [rp|] eqn:E.
  - assert (Hrange : (1 <= num <= 5)%Z).
    { rewrite projects_lookup in E.
      repeat match type of E with
             | context [(num =? ?k)%Z] =>
                 destruct (Z.eqb_spec num k) as [? | ?]; [lia|]
             end.
      discriminate. }
    destruct (project_ok_chips _ (projects_ok _ _ E)) as [Hnd _].
    cbn [Cfg.with_computed Cfg.number Cfg.raw Cfg.chip_names Cfg.chip_points
         Cfg.total_points].
    refine (conj Hrange (conj eq_refl (conj eq_refl (conj eq_refl
              (conj Hnd (conj _ (conj _ _))))))).
    + intros c v. split.
      { intros H. unfold Cfg.points_dict in H.
        pose proof (points_fold_nodup _ ∅ Hnd) as Hl.
        destruct (in_dec string_dec c (map fst (Cfg.chips rp))) as [Hin | Hout].
      * apply in_map_iff in Hin as ([c' v'] & <- & Hin).
        rewrite List.Forall_forall in Hl. specialize (Hl _ Hin).
        cbn [fst snd] in *. rewrite Hl in H. now injection H as <-.
      * rewrite points_fold_other in H by exact Hout.
        rewrite lookup_empty in H. discriminate. }
      { intros Hin. pose proof (points_fold_nodup _ ∅ Hnd) as Hl.
        rewrite List.Forall_forall in Hl. apply (Hl _ Hin). }
    + now apply projects_total in E.
    + reflexivity.
  - split; [|reflexivity]. intros Hr. rewrite projects_lookup in E.
    repeat match type of E with
           | context [(num =? ?k)%Z] =>
               destruct (Z.eqb_spec num k) as [? | ?]; [discriminate|]
           end.
    lia.
Qed.

(** Added from left to right, the chip points of project 1 give the float
    next above 10; [round(., 2)] takes it to 10. *)
Example project01_sum :
  Cfg.sum (map snd (Cfg.chips Cfg.project01))
  = 5629499534213121 # 562949953421312 /\
  Py.round (Cfg.sum (map snd (Cfg.chips Cfg.project01))) 2 = 10%Q.
Proof. split; vm_compute; reflexivity. Qed.

(** ** Every match is justified *)

Section SoundMatches.
Variable found : found_dict.
Variable file_ext : string.

Lemma found_norm_entry (k orig path : string) :
  build_found_norm found !! k = Some (orig, path) -> _normalize orig = k.
Proof.
  unfold build_found_norm.
  assert (G : forall l (m : gmap string (string * string)),
    (forall k o p, m !! k = Some (o, p) -> _normalize o = k) ->
    forall k o p,
      fold_left (fun m kv => <[_normalize kv.1 := kv]> m) l m !! k = Some (o, p) ->
      _normalize o = k).
  { induction l as [|[n q] l IH]; intros m Hm; simpl; [exact Hm|].
    apply IH. intros k' o p.
    destruct (decide (_normalize n = k')) as [<- | Hne].
    - rewrite lookup_insert_eq. now intros [= <- <-].
    - rewrite lookup_insert_ne by exact Hne. apply Hm. }
  apply (G found ∅). intros k' o p. rewrite lookup_empty. discriminate.
Qed.

Lemma found_key_differs (x orig path : string) :
  dict_get x found = None -> In (orig, path) found -> orig <> x.
Proof.
  intros Hx Hin ->. apply dict_get_none in Hx. apply Hx.
  apply in_map_iff. now exists (x, path).
Qed.

Lemma pass2_sound (used0 : gset string) :
  sound_step found file_ext
    (pass2_step (build_found_lower found used0) file_ext).
Proof.
  intros s x Hx. unfold pass2_step.
  destruct (build_found_lower found used0 !! Py.lower x) as [[orig path]|] eqn:E;
    [|now left].
  right. eexists. split; [|split; reflexivity].
  right. left. split; [reflexivity|]. exists orig, path. cbn.
  pose proof (found_lower_In _ _ _ _ E) as Hin.
  destruct (found_lower_entry _ _ _ _ _ E) as [Hl _].
  repeat split; auto. now apply (found_key_differs x orig path).
Qed.

Lemma pass3_sound :
  sound_step found file_ext (pass3_step (build_found_norm found) file_ext).
Proof.
  intros s x Hx. unfold pass3_step.
  destruct (build_found_norm found !! _normalize x) as [[orig path]|] eqn:E;
    [|now left].
  destruct (bool_decide (orig ∈ used s)); [now left|].
  right. eexists. split; [|split; reflexivity].
  right. right. left. split; [reflexivity|]. exists orig, path. cbn.
  pose proof (found_norm_In _ _ _ E) as Hin.
  pose proof (found_norm_entry _ _ _ E) as Hn.
  repeat split; auto.
Qed.

Lemma pass4_sound :
  sound_step found file_ext (pass4_step found file_ext).
Proof.
  intros s x Hx.
  destruct (pass4_step_cases found file_ext s x)
    as [(orig & path & Hin & _ & Hgt & ->) | [_ ->]]; [|now left].
  right. eexists. split; [|split; reflexivity].
  right. right. left. split; [reflexivity|]. exists orig, path. cbn.
  apply in_candidates in Hin as [Hin Hc].
  unfold is_candidate in Hc. apply andb_true_iff in Hc as [_ Hc].
  repeat split; auto.
Qed.

Lemma fold_sound (step : MatchState -> string -> MatchState)
    (l : list string) (st : MatchState) :
  sound_step found file_ext step ->
  (forall x, In x l -> dict_get x found = None) ->
  Forall (sound_match found file_ext) (matches st) ->
  let st' := fold_left step l st in
  Forall (sound_match found file_ext) (matches st') /\
  (forall y, In y (remaining st') -> In y (remaining st)).
Proof.
  intros Hstep. revert st. induction l as [|x l IH]; intros st Hl Hs;
    [now split|].
  cbn [fold_left]. cbv zeta.
  destruct (Hstep st x (Hl x (or_introl eq_refl)))
    as [E | (m & Hm & Hms & Hr)].
  - rewrite E. apply IH; [|exact Hs]. intros y Hy. apply Hl. now right.
  - destruct (IH (step st x)) as [H1 H2].
    + intros y Hy. apply Hl. now right.
    + rewrite Hms. apply Forall_app. split; [exact Hs | now constructor].
    + split; [exact H1|]. intros y Hy. apply H2 in Hy. rewrite Hr in Hy.
      now apply list_remove_incl in Hy.
Qed.

End SoundMatches.

(** Every match that [_match_files] records is justified.  An exact match
    has a found file of the expected name and no issue; a case_fix match
    names a found file that differs from the expected name in letter case
    only; a fuzzy match names a found file with the same normal form, or one
    whose name contains the expected name or is contained in it, ignoring
    case, with a length ratio above 0.4; a not_found match has no file name
    and is recorded only for a name without a file of its own. *)
Theorem matches_are_sound (found : found_dict) (expected_names : list string)
    (file_ext : string) :
  Forall (sound_match found file_ext)
         (_match_files found expected_names file_ext).1.2.
Proof.
  unfold _match_files. cbn [fst snd].
  rewrite after_pass4_unfold. cbv zeta.
  set (st1 := after_pass1 found expected_names file_ext).
  set (remaining0 := pass1_leftover found expected_names file_ext).
  set (st1' := pass2_start found expected_names file_ext).
  assert (H0 : forall x, In x remaining0 -> dict_get x found = None).
  { intros x Hx. unfold remaining0, pass1_leftover in Hx.
    rewrite remaining0_eq in Hx.
    apply filter_In in Hx as [_ Hx].
    apply negb_true_iff, bool_decide_eq_false in Hx.
    destruct (dict_get x found); [|reflexivity]. exfalso. apply Hx. eauto. }
  assert (H1 : Forall (sound_match found file_ext) (matches st1')).
  { unfold st1'. cbn [pass2_start matches]. rewrite after_pass1_matches.
    apply Forall_map. apply List.Forall_forall. intros n Hn.
    apply filter_In in Hn as [_ Hn]. apply bool_decide_eq_true in Hn.
    left. cbn. auto. }
  destruct (fold_sound found file_ext _ remaining0 st1'
              (pass2_sound found file_ext (used st1)) H0 H1) as [H2 R2].
  cbv zeta in H2, R2.
  set (st2 := fold_left _ remaining0 st1') in *.
  destruct (fold_sound found file_ext _ (remaining st2) st2
              (pass3_sound found file_ext)) as [H3 R3]; [auto | exact H2 |].
  cbv zeta in H3, R3.
  set (st3 := fold_left _ (remaining st2) st2) in *.
  destruct (fold_sound found file_ext _ (remaining st3) st3
              (pass4_sound found file_ext)) as [H4 R4]; [auto | exact H3 |].
  cbv zeta in H4, R4.
  apply Forall_app. split; [exact H4|].
  apply Forall_map. apply List.Forall_forall. intros x Hx.
  right. right. right. cbn. repeat split. auto.
Qed.

(** ** When a chip passes *)

(** A chip is marked as passed exactly when it has a matched file that is
    not flagged for BUILTIN, its test script exists, the simulator ran to
    completion and printed the success line, and the comparison file could
    be read if it exists. *)
Theorem pass_iff_success (env : Env) (chip : string)
    (matched : gmap string string) (project : Cfg.Project) (w : world)
    (cr : ChipResult) :
  (_run_one env chip matched project w).1 = Ret cr ->
  (passed cr = true <->
   exists src stdout stderr cmp_file out_file,
     matched !! chip = Some src /\
     String.eqb (Cfg.file_ext (Cfg.raw project)) ".hdl"
       && _check_builtin env src = false /\
     tst_exists env (Cfg.test_path project) chip = Ret true /\
     run_sandbox env (Cfg.simulator_path project) chip matched
       = Completed stdout stderr cmp_file out_file /\
     success_marker (Py.strip (stdout +:+ Py.LF +:+ stderr)) = true /\
     forall e, cmp_fixture env (Cfg.test_path project) chip <> Unreadable e).
Proof.
  unfold _run_one.
  destruct (matched !! chip) as [src|] eqn:Hm.
  2:{ intros [= <-]. split; [discriminate|].
      intros (? & ? & ? & ? & ? & H & _). discriminate. }
  destruct (_ && _) eqn:Hb.
  { intros [= <-]. split; [discriminate|].
    intros (s & ? & ? & ? & ? & [= <-] & H & _). congruence. }
  destruct (tst_exists env _ chip) as [[|]|e0] eqn:Ht; [| |discriminate].
  2:{ intros [= <-]. split; [discriminate|].
      intros (? & ? & ? & ? & ? & _ & _ & H & _). discriminate. }
  unfold bind, mkdtemp, try_finally, ret.
  destruct (mkdtemp_error env _); [discriminate|]. intros [= <-].
  unfold run_in_sandbox.
  destruct (run_sandbox env _ chip matched) as [e|so se cf outf] eqn:Hr.
  { split.
    - destruct e; cbn; discriminate.
    - intros (? & ? & ? & ? & ? & _ & _ & _ & H & _). discriminate. }
  destruct (success_marker _) eqn:Hs.
  - destruct (cmp_fixture env _ chip) as [|e|content] eqn:Hc.
    + split; [|reflexivity]. intros _. exists src, so, se, cf, outf.
      repeat split; auto; discriminate.
    + split; [discriminate|].
      intros (? & ? & ? & ? & ? & _ & _ & _ & _ & _ & H). now destruct (H e).
    + split; [|reflexivity]. intros _. exists src, so, se, cf, outf.
      repeat split; auto; discriminate.
  - split.
    + destruct (failure_marker _).
      * destruct (_partial_credit cf outf _) as [[[[[p ps] tests] fl] fe] fa].
        discriminate.
      * match goal with
        | |- context [_has_work ?a ?b ?c] => destruct (_has_work a b c)
        end; discriminate.
    + intros (? & so' & se' & ? & ? & _ & _ & _ & [= <- <- _ _] & H & _).
      congruence.
Qed.

(** ** The further properties at the example submissions *)

(** The found files of the first example: [Mult.asm] at the top and
    [fill.ASM] in [src]; the files of [__MACOSX] are not looked at. *)
Lemma extract_zip_found_witness :
  ".asm" <> "" /\
  exists tmp found w',
    _extract_zip demo_env "submission.zip" ".asm" ∅ = (Ret (tmp, found), w') /\
    map fst found = ["Mult"; "fill"] /\
    NoDup (map fst found) /\
    Forall (fun kv =>
              kv.1 <> "" /\ hidden kv.1 = false /\
              Py.endswith (Py.lower kv.1) ".asm" = false /\
              Py.startswith kv.2 (tmp +:+ "/") = true /\
              Py.endswith (Py.lower kv.2) ".asm" = true) found.
Proof.
  assert (Hne : ".asm" <> "") by discriminate.
  split; [exact Hne|].
  destruct (_extract_zip demo_env "submission.zip" ".asm" ∅)
    as [[[tmp found]|e] w'] eqn:E; [|vm_compute in E; discriminate E].
  exists tmp, found, w'. split; [reflexivity|].
  split; [vm_compute in E; now injection E as <- <- <-|].
  apply (extract_zip_found demo_env "submission.zip" ".asm" ∅ w' tmp found Hne E).
Defined.

(** [Or8Way] is matched to the found file [MyOr8Way.hdl]. *)
Lemma matched_files_are_found_witness :
  (_match_files gates_found ["Not"; "And"; "Or8Way"] ".hdl").1.1 !! "Or8Way"
  = Some "n2t/MyOr8Way.hdl" /\
  exists orig m,
    In (orig, "n2t/MyOr8Way.hdl") gates_found /\
    In m (_match_files gates_found ["Not"; "And"; "Or8Way"] ".hdl").1.2 /\
    expected_name m = "Or8Way" /\ actual_filename m = orig +:+ ".hdl" /\
    assigns (match_type m).
Proof.
  assert (H : (_match_files gates_found ["Not"; "And"; "Or8Way"] ".hdl").1.1
              !! "Or8Way" = Some "n2t/MyOr8Way.hdl") by (vm_compute; reflexivity).
  split; [exact H|].
  apply (matched_files_are_found gates_found ["Not"; "And"; "Or8Way"] ".hdl"
           "Or8Way" "n2t/MyOr8Way.hdl" H).
Defined.

(** [Not] has a file of its own name. *)
Lemma exact_name_wins_witness :
  dict_get "Not" gates_found = Some "n2t/Not.hdl" /\
  (_match_files gates_found ["Not"; "And"; "Or8Way"] ".hdl").1.1 !! "Not"
  = Some "n2t/Not.hdl" /\
  In (exact_match ".hdl" "Not")
     (_match_files gates_found ["Not"; "And"; "Or8Way"] ".hdl").1.2.
Proof.
  split; [reflexivity|].
  destruct (exact_name_wins gates_found ["Not"; "And"; "Or8Way"] ".hdl"
              "Not" "n2t/Not.hdl") as (H1 & H2 & _);
    [now left | reflexivity |].
  split; [exact H1 | exact H2].
Defined.

(** The chip results of the first example. *)
Lemma graded_chips_well_formed_witness :
  grade_student demo_env "submission.zip" "Ada Lovelace" 7 None
                "HW4_Assembly_Ada_Lovelace.zip" ∅ = (Ret demo_result, ∅) /\
  Forall chip_ok (chips demo_result).
Proof.
  assert (H : grade_student demo_env "submission.zip" "Ada Lovelace" 7 None
                "HW4_Assembly_Ada_Lovelace.zip" ∅ = (Ret demo_result, ∅))
    by (vm_compute; reflexivity).
  split; [exact H|].
  apply (graded_chips_well_formed demo_env "submission.zip" "Ada Lovelace" 7
           None "HW4_Assembly_Ada_Lovelace.zip" ∅ ∅ demo_result H).
Defined.

(** The first example earns 4.25 of 10 points: 42.5 percent. *)
Lemma graded_percentage_witness :
  grade_student demo_env "submission.zip" "Ada Lovelace" 7 None
                "HW4_Assembly_Ada_Lovelace.zip" ∅ = (Ret demo_result, ∅) /\
  total_earned demo_result = Py.float (425 # 100) /\
  percentage demo_result = Ret (Py.float (425 # 10)) /\
  total_possible demo_result = 10%Q /\
  exists k : Z,
    (0 <= k <= 1000)%Z /\
    total_earned demo_result = Py.float (inject_Z k / 100) /\
    percentage demo_result = Ret (Py.float (inject_Z k / 10)) /\
    (0 <= Py.float (inject_Z k / 10) <= 100)%Q.
Proof.
  assert (H : grade_student demo_env "submission.zip" "Ada Lovelace" 7 None
                "HW4_Assembly_Ada_Lovelace.zip" ∅ = (Ret demo_result, ∅))
    by (vm_compute; reflexivity).
  split; [exact H|].
  split; [vm_compute; reflexivity|]. split; [vm_compute; reflexivity|].
  apply (graded_percentage demo_env "submission.zip" "Ada Lovelace" 7
           None "HW4_Assembly_Ada_Lovelace.zip" ∅ ∅ demo_result H).
Defined.

(** The canonical archive name of the first example with an upper-case
    extension. *)
Lemma canonical_zip_accepted_witness :
  Cfg.PROJECTS !! 4%Z = Some Cfg.project04 /\
  Py.lower ".ZIP" = ".zip" /\
  check_zip_naming 1 "HW4_Assembly_Ada_Lovelace.ZIP" "Ada Lovelace" 4
  = Ret {| original_filename := "HW4_Assembly_Ada_Lovelace.ZIP";
           is_correct := true;
           expected_pattern := "HW4_Assembly_Ada_Lovelace.zip";
           zip_issue := "" |}.
Proof.
  split; [reflexivity|]. split; [reflexivity|].
  apply (canonical_zip_accepted 1 "Ada Lovelace" ".ZIP" 4 Cfg.project04);
    reflexivity.
Defined.

(** An archive name that is not the canonical one carries an issue. *)
Lemma zip_issue_iff_incorrect_witness :
  let z := {| original_filename := "HW1_Gates_Alice_Alice.zip";
              is_correct := false;
              expected_pattern := "HW1_Gates_Alice_.zip";
              zip_issue := "Zip named 'HW1_Gates_Alice_Alice.zip' -- should be 'HW1_Gates_Alice_.zip'" |} in
  check_zip_naming 1 "HW1_Gates_Alice_Alice.zip" "Alice" 1 = Ret z /\
  (is_correct z = true <-> zip_issue z = "") /\
  original_filename z = "HW1_Gates_Alice_Alice.zip".
Proof.
  intros z.
  assert (H : check_zip_naming 1 "HW1_Gates_Alice_Alice.zip" "Alice" 1 = Ret z)
    by reflexivity.
  split; [exact H|].
  apply (zip_issue_iff_incorrect 1 "HW1_Gates_Alice_Alice.zip" "Alice" 1 z H).
Defined.

(** The number decides, although the name also holds keywords of the
    projects 2 and 5. *)
Lemma detect_project_number_first_witness :
  Py.isdigit "3" = true /\
  Cfg.PROJECTS !! 3%Z = Some Cfg.project03 /\
  detect_project 1 4300 "Homework 3: ALU and CPU"
  = Ret (Some (Cfg.with_computed 3 Cfg.project03)).
Proof.
  split; [reflexivity|]. split; [reflexivity|].
  apply (detect_project_number_first 1 4300 "Homework" "3" ": ALU and CPU"
           Cfg.project03).
  - now left.
  - reflexivity.
  - intros c r [= <- _]. reflexivity.
  - reflexivity.
Defined.

(** A corrupt archive for project 4. *)
Lemma bad_zip_graded_as_empty_witness :
  open_zip corrupt_env "submission.zip" = BadZipFile /\
  exists r,
    grade_student corrupt_env "submission.zip" "Ada Lovelace" 7 None
                  "submission.zip" ∅ = (Ret r, ∅) /\
    total_earned r = 0%Q /\
    map name (chips r) = ["Mult"; "Fill"] /\
    Forall (fun c => passed c = false /\ points c = 0%Q /\
                     error_type c = "missing" /\
                     error_msg c = "No .asm files in submission") (chips r) /\
    map expected_name (file_matches r) = ["Mult"; "Fill"] /\
    Forall (fun m => match_type m = "not_found" /\ actual_filename m = "")
           (file_matches r) /\
    warnings r = ["No .asm files found in zip"] /\
    extra_files r = [].
Proof.
  split; [reflexivity|].
  apply (bad_zip_graded_as_empty corrupt_env "submission.zip" "Ada Lovelace" 7
           None "submission.zip" ∅ (Cfg.with_computed 4 Cfg.project04));
    reflexivity.
Defined.

(** [Mult] passes its four tests when the simulator reports success. *)
Lemma pass_iff_success_witness :
  let matched : gmap string string := {[ "Mult" := "n2t/Mult.asm" ]} in
  let project := Cfg.with_computed 4 Cfg.project04 in
  let cr := {| name := "Mult"; passed := true; points := 5; max_points := 5;
               error_type := "pass"; error_msg := ""; fail_line := 0;
               expected := ""; actual := "";
               total_tests := 4; passed_tests := 4 |} in
  (_run_one passing_env "Mult" matched project ∅).1 = Ret cr /\
  exists src stdout stderr cmp_file out_file,
    matched !! "Mult" = Some src /\
    String.eqb (Cfg.file_ext (Cfg.raw project)) ".hdl"
      && _check_builtin passing_env src = false /\
    tst_exists passing_env (Cfg.test_path project) "Mult" = Ret true /\
    run_sandbox passing_env (Cfg.simulator_path project) "Mult" matched
      = Completed stdout stderr cmp_file out_file /\
    success_marker (Py.strip (stdout +:+ Py.LF +:+ stderr)) = true /\
    forall e, cmp_fixture passing_env (Cfg.test_path project) "Mult"
              <> Unreadable e.
Proof.
  intros matched project cr.
  assert (H : (_run_one passing_env "Mult" matched project ∅).1 = Ret cr)
    by (vm_compute; reflexivity).
  split; [exact H|].
  apply (proj1 (pass_iff_success passing_env "Mult" matched project ∅ cr H)).
  reflexivity.
Defined.
